(** * Notification decision engine

    A shallow embedding of [src/utils/notificationDecisionEngine.ts] and the
    properties its specification states about it.

    Conventions of the embedding

    - A JavaScript [Date] is its number of milliseconds, read on the local
      wall clock of a zone with a fixed offset to UTC (no daylight-saving
      jumps).  Every operation the engine uses ([getTime] differences,
      comparisons, [getHours], [getMinutes], [setHours], [setDate]) commutes
      with that shift, so the value is kept as one [Z]; the one that does
      not at every instant, the rounding of a sum of doubles in the overdue
      branch, is noted there.  Dates are valid: [task.due_date], when
      present, is a string that [new Date] parses.
    - A time-of-day string ["HH:MM"] is kept as the two numbers that
      [s.split(':').map(Number)] yields from it.
    - [number] fields holding counts and minutes are [Z];
      [frequencyMultiplier] is the rational value of its double.  Comparing
      it with 0.5 and 1.5 is exact in doubles; the overdue interval, the one
      place where doubles round, rounds here as they do, by [roundToDouble].
      A multiplier of zero, or an interval that leads beyond the range of
      [Date], would give an invalid date, which the embedding does not
      represent; the statements that depend on the overdue interval say
      so.
    - The clock is read once for [now]; [formatTimeRemaining] reads it again
      each time a notification with a due date gets its content.  These later
      readings are the function [later], indexed by how many were made. *)

From Stdlib Require Import ZArith QArith Qround Bool List Lia.
From Stdlib Require Import Strings.String Strings.Ascii Numbers.DecimalString.
From Stdlib Require Import Sorting.Sorted Sorting.Permutation.
Import ListNotations.

Open Scope bool_scope.
Open Scope string_scope.
Open Scope Z_scope.

(* ================================================================= *)
(** ** Dates *)

Definition Date := Z.

Definition MS_MINUTE : Z := 60 * 1000.
Definition MS_HOUR : Z := 60 * 60 * 1000.
Definition MS_DAY : Z := 24 * 60 * 60 * 1000.

(** [d.getHours()] and [d.getMinutes()]. *)
Definition getHours (d : Date) : Z := (d mod MS_DAY) / MS_HOUR.
Definition getMinutes (d : Date) : Z := (d mod MS_HOUR) / MS_MINUTE.

(** Midnight of the day of [d]: [d.setHours(0, 0, 0, 0)]. *)
Definition startOfDay (d : Date) : Date := d - d mod MS_DAY.

(** [d.setHours(h, m, 0, 0)]: fields out of range carry over, as in
    JavaScript. *)
Definition setHours (d : Date) (h m : Z) : Date :=
  startOfDay d + h * MS_HOUR + m * MS_MINUTE.

(** [d.setDate(d.getDate() + n)]. *)
Definition addDays (d : Date) (n : Z) : Date := d + n * MS_DAY.

(** The value of [hour * 60 + minute] the window tests compare. *)
Definition minuteOfDay (d : Date) : Z := getHours d * 60 + getMinutes d.

(** Builds a date from a day number and a time of day; used to write
    concrete inputs. *)
Definition at_time (day h m : Z) : Date := day * MS_DAY + h * MS_HOUR + m * MS_MINUTE.

(* ================================================================= *)
(** ** Data model *)

(** The result of [s.split(':').map(Number)] on ["HH:MM"]. *)
Record TimeOfDay := hm { tod_hour : Z; tod_minute : Z }.

Definition todValue (t : TimeOfDay) : Z := tod_hour t * 60 + tod_minute t.

Record Task := {
  id : string;
  title : string;
  due_date : option Date;
  status : string;
  priority : string;
  estimated_duration : option Z;
  category : option string
}.

Record UserProfile := {
  work_hours_start : TimeOfDay;
  work_hours_end : TimeOfDay;
  peak_energy_time : option string
}.

Record UserNotificationPreferences := {
  frequencyMultiplier : Q;
  minimumLeadTime : Z;
  disabledPriorities : list string;
  quietHoursStart : TimeOfDay;
  quietHoursEnd : TimeOfDay
}.

Definition DEFAULT_NOTIFICATION_PREFERENCES : UserNotificationPreferences := {|
  frequencyMultiplier := 1;
  minimumLeadTime := 5;
  disabledPriorities := [];
  quietHoursStart := hm 22 0;
  quietHoursEnd := hm 7 0
|}.

Inductive NotificationType :=
  | AdvanceNotice | Reminder | FinalReminder | Overdue | DailySummary.

Inductive PriorityLevel := High | Medium | Low.

Inductive UrgencyLevel := UUrgent | UNormal | ULow | UOverdue.

Record NotificationContent := {
  c_title : string;
  c_body : string;
  urgencyLevel : UrgencyLevel;
  timeRemaining : option string;
  actionText : option string
}.

Record ScheduledNotificationTime := {
  time : Date;
  reason : string;
  type : NotificationType;
  n_priority : PriorityLevel;
  content : NotificationContent
}.

Record NotificationSchedule := {
  taskId : string;
  taskTitle : string;
  notifications : list ScheduledNotificationTime
}.

(* ================================================================= *)
(** ** Time-window utilities *)

Definition hasSpecificTime (dueDate : Date) : bool :=
  negb ((getHours dueDate =? 0) && (getMinutes dueDate =? 0)).

Record HourRange := { range_start : Z; range_end : Z }.

Definition getPeakEnergyHours (preference : option string) : HourRange :=
  match preference with
  | Some p =>
      if p =? "morning" then {| range_start := 8; range_end := 12 |}
      else if p =? "afternoon" then {| range_start := 12; range_end := 17 |}
      else if p =? "evening" then {| range_start := 17; range_end := 21 |}
      else {| range_start := 9; range_end := 12 |}
  | None => {| range_start := 9; range_end := 12 |}
  end%string.

(** [!durationMinutes] holds for [null], [undefined] and [0]. *)
Definition getLeadTimeForDuration (durationMinutes : option Z) : Z :=
  match durationMinutes with
  | None => 15
  | Some d =>
      if d =? 0 then 15
      else if d >=? 120 then 30
      else if d >=? 60 then 20
      else if d <=? 30 then 10
      else 15
  end.

Definition isWithinWorkHours (date : Date) (profile : UserProfile) : bool :=
  let timeValue := minuteOfDay date in
  let startValue := todValue (work_hours_start profile) in
  let endValue := todValue (work_hours_end profile) in
  (timeValue >=? startValue) && (timeValue <=? endValue).

Definition isInQuietHours (date : Date) (prefs : UserNotificationPreferences) : bool :=
  let timeValue := minuteOfDay date in
  let quietStart := todValue (quietHoursStart prefs) in
  let quietEnd := todValue (quietHoursEnd prefs) in
  if quietStart >? quietEnd
  then (timeValue >=? quietStart) || (timeValue <=? quietEnd)
  else (timeValue >=? quietStart) && (timeValue <=? quietEnd).

Definition adjustToWorkHours (date : Date) (profile : UserProfile) (isWorkTask : bool) : Date :=
  if negb isWorkTask then date
  else
    let startHour := tod_hour (work_hours_start profile) in
    let startMin := tod_minute (work_hours_start profile) in
    let endHour := tod_hour (work_hours_end profile) in
    let endMin := tod_minute (work_hours_end profile) in
    let hour := getHours date in
    if hour <? startHour then setHours date startHour startMin
    else if hour >? endHour then setHours date endHour endMin
    else date.

(* ================================================================= *)
(** ** Content generator *)

(** Decimal rendering of an integer, as a template literal does it. *)
Definition showZ (n : Z) : string := NilEmpty.string_of_int (Z.to_int n).

(** The suffix [n > 1 ? 's' : ''] of the unit names. *)
Definition plural (n : Z) : string := if n >? 1 then "s" else EmptyString.

(** [formatTimeRemaining(targetDate, fromDate)]; [fromDate] defaults to a
    fresh reading of the clock. *)
Definition formatTimeRemaining (targetDate fromDate : Date) : string :=
  let diffMs := targetDate - fromDate in
  let diffMins := diffMs / MS_MINUTE in
  let diffHours := diffMins / 60 in
  let diffDays := diffHours / 24 in
  if diffMins <? 0 then
    let overdueMins := Z.abs diffMins in
    let overdueHours := overdueMins / 60 in
    let overdueDays := overdueHours / 24 in
    if overdueDays >? 0 then
      "Due " ++ showZ overdueDays ++ " day" ++ plural overdueDays ++ " ago"
    else if overdueHours >? 0 then
      "Due " ++ showZ overdueHours ++ " hour" ++ plural overdueHours ++ " ago"
    else
      "Due " ++ showZ overdueMins ++ " minute" ++ plural overdueMins ++ " ago"
  else if diffDays >? 0 then
    "Due in " ++ showZ diffDays ++ " day" ++ plural diffDays
  else if diffHours >? 0 then
    "Due in " ++ showZ diffHours ++ " hour" ++ plural diffHours
  else if diffMins >? 0 then
    "Due in " ++ showZ diffMins ++ " minute" ++ plural diffMins
  else "Due now".

(** The double-quote character of the message bodies. *)
Definition dquote : string := String (ascii_of_nat 34) EmptyString.

(** [${x}] of a possibly undefined string. *)
Definition interpolate (s : option string) : string :=
  match s with Some v => v | None => "undefined" end.

(** [s || fallback]: an undefined or empty string is falsy. *)
Definition orElse (s : option string) (fallback : string) : string :=
  match s with
  | Some EmptyString | None => fallback
  | Some v => v
  end.

(** The leading pictographs of the titles, byte for byte as in the source. *)
Definition ICON_HIGH_ADVANCE : string := "ðŸ”´".
Definition ICON_HIGH_REMINDER : string := "âš ï¸".
Definition ICON_HIGH_FINAL : string := "ðŸš¨".
Definition ICON_OVERDUE : string := "ðŸ’ª".
Definition ICON_HIGH_SUMMARY : string := "ðŸŽ¯".
Definition ICON_MEDIUM : string := "ðŸ“‹".
Definition ICON_LOW : string := "ðŸ“Œ".

(** [generateNotificationContent(task, type, dueDate, existingOverdueReminders)];
    [clock] is what [new Date()] returns inside [formatTimeRemaining]. *)
Definition generateNotificationContent (task : Task) (ty : NotificationType)
    (dueDate : option Date) (existingOverdueReminders : Z) (clock : Date)
    : NotificationContent :=
  let timeRemaining :=
    match dueDate with
    | Some d => Some (formatTimeRemaining d clock)
    | None => None
    end in
  if (priority task =? "high")%string then
    match ty with
    | AdvanceNotice =>
        {| c_title := ICON_HIGH_ADVANCE ++ " High priority task due soon!";
           c_body := dquote ++ title task ++ dquote ++ " - " ++ interpolate timeRemaining;
           urgencyLevel := UUrgent;
           timeRemaining := timeRemaining;
           actionText := Some "Plan now" |}
    | Reminder =>
        {| c_title := ICON_HIGH_REMINDER ++ " High priority: " ++ title task;
           c_body := orElse timeRemaining "Action required";
           urgencyLevel := UUrgent;
           timeRemaining := timeRemaining;
           actionText := Some "Start now" |}
    | FinalReminder =>
        {| c_title := ICON_HIGH_FINAL ++ " Starting Soon: " ++ title task;
           c_body := interpolate timeRemaining ++ " - This needs your attention now!";
           urgencyLevel := UUrgent;
           timeRemaining := timeRemaining;
           actionText := Some "Start immediately" |}
    | Overdue =>
        {| c_title := ICON_OVERDUE ++ " Ready to tackle this?";
           c_body := dquote ++ title task ++ dquote ++ " - " ++ interpolate timeRemaining
                     ++ ". Reminder " ++ showZ (existingOverdueReminders + 1) ++ " of 3.";
           urgencyLevel := UOverdue;
           timeRemaining := timeRemaining;
           actionText := Some "Complete now" |}
    | DailySummary =>
        {| c_title := ICON_HIGH_SUMMARY ++ " High Priority: " ++ title task;
           c_body := "Consider tackling this during your peak energy time";
           urgencyLevel := UUrgent;
           timeRemaining := None;
           actionText := Some "View task" |}
    end
  else if (priority task =? "medium")%string then
    match ty with
    | Reminder =>
        {| c_title := ICON_MEDIUM ++ " Reminder: " ++ title task;
           c_body := orElse timeRemaining "Scheduled for today";
           urgencyLevel := UNormal;
           timeRemaining := timeRemaining;
           actionText := Some "View" |}
    | Overdue =>
        {| c_title := ICON_OVERDUE ++ " Ready to tackle this?";
           c_body := dquote ++ title task ++ dquote ++ " - " ++ interpolate timeRemaining;
           urgencyLevel := UOverdue;
           timeRemaining := timeRemaining;
           actionText := Some "Complete" |}
    | _ =>
        {| c_title := ICON_MEDIUM ++ " " ++ title task;
           c_body := orElse timeRemaining "Task reminder";
           urgencyLevel := UNormal;
           timeRemaining := timeRemaining;
           actionText := None |}
    end
  else
    {| c_title := ICON_LOW ++ " " ++ title task;
       c_body := orElse timeRemaining "Task reminder";
       urgencyLevel := ULow;
       timeRemaining := timeRemaining;
       actionText := None |}.

(* ================================================================= *)
(** ** Schedule calculator *)

(** [task.category === 'work']. *)
Definition isWorkTask (task : Task) : bool :=
  match category task with
  | Some c => (c =? "work")%string
  | None => false
  end.

(** [list.includes(s)]. *)
Definition includes (l : list string) (s : string) : bool :=
  existsb (String.eqb s) l.

(** The double nearest to a rational, as division and addition of doubles
    round their exact result: to 53 significant bits, a tie to the even
    significand.  The exponent is not bounded: results stay within the
    normal range of doubles wherever the instants are valid dates. *)
Definition roundToDouble (q : Q) : Q :=
  let n := Z.abs (Qnum q) in
  let d := Z.pos (Qden q) in
  if n =? 0 then 0%Q
  else
    (* the binary exponent [e] of [n / d]: [2 ^ e <= n / d < 2 ^ (e + 1)] *)
    let e0 := Z.log2 n - Z.log2 d in
    let reaches :=
      if e0 >=? 0 then Z.shiftl d e0 <=? n else d <=? Z.shiftl n (- e0) in
    let e := if reaches then e0 else e0 - 1 in
    (* [n / d] in units of [2 ^ (e - 52)], a number from [2 ^ 52] up to
       [2 ^ 53] *)
    let unit := e - 52 in
    let num := if unit >=? 0 then n else Z.shiftl n (- unit) in
    let den := if unit >=? 0 then Z.shiftl d unit else d in
    let below := num / den in
    let rest := num mod den in
    let significand :=
      if 2 * rest <? den then below
      else if 2 * rest >? den then below + 1
      else if Z.even below then below else below + 1 in
    let signed := Z.sgn (Qnum q) * significand in
    if unit >=? 0 then inject_Z (Z.shiftl signed unit)
    else (signed # Z.to_pos (Z.shiftl 1 (- unit)))%Q.

(** [new Date(x)] of a number with a fraction: the fraction is dropped,
    towards zero. *)
Definition dateOfNumber (x : Q) : Date := Z.quot (Qnum x) (Z.pos (Qden x)).

(** [list.sort((a, b) => a.time.getTime() - b.time.getTime())]: the stable
    sort by time. *)
Fixpoint insertByTime (n : ScheduledNotificationTime)
    (l : list ScheduledNotificationTime) : list ScheduledNotificationTime :=
  match l with
  | [] => [n]
  | m :: l' => if time n <=? time m then n :: l else m :: insertByTime n l'
  end.

Fixpoint sortByTime (l : list ScheduledNotificationTime)
    : list ScheduledNotificationTime :=
  match l with
  | [] => []
  | n :: l' => insertByTime n (sortByTime l')
  end.

Section Calculator.

(** [now] is the reading of the clock at entry, [later k] the reading
    made for the content of the notification pushed at index [k]. *)
Variable now : Date.
Variable later : nat -> Date.
Variable task : Task.
Variable profile : UserProfile.
Variable existingOverdueReminders : Z.
Variable preferences : UserNotificationPreferences.

Definition emptySchedule : NotificationSchedule :=
  {| taskId := id task; taskTitle := title task; notifications := [] |}.

(** The closure [addNotification]; the list it pushes to is passed
    through. *)
Definition addNotification (dueDate : Date) (t : Date) (why : string)
    (ty : NotificationType) (priorityLevel : PriorityLevel)
    (acc : list ScheduledNotificationTime) : list ScheduledNotificationTime :=
  let adjustedTime := adjustToWorkHours t profile (isWorkTask task) in
  if isInQuietHours adjustedTime preferences then acc
  else
    let minLeadTime := now + minimumLeadTime preferences * 60 * 1000 in
    if adjustedTime <=? minLeadTime then acc
    else
      let content :=
        generateNotificationContent task ty (Some dueDate)
          existingOverdueReminders (later (List.length acc)) in
      (acc ++ [ {| time := adjustedTime; reason := why; type := ty;
                   n_priority := priorityLevel; content := content |} ])%list.

(** The branch [if (!task.due_date)]. *)
Definition noDueDateNotifications : list ScheduledNotificationTime :=
  if (priority task =? "high")%string then
    let peakHours := getPeakEnergyHours (peak_energy_time profile) in
    let reminderTime := setHours (addDays now 1) (range_start peakHours) 0 in
    if isWorkTask task then
      let adjustedTime := adjustToWorkHours reminderTime profile true in
      if (adjustedTime >? now) && negb (isInQuietHours adjustedTime preferences) then
        (* no due date: the content does not read the clock *)
        let content := generateNotificationContent task DailySummary None 0 now in
        [ {| time := adjustedTime;
             reason := "High priority task without deadline - peak energy reminder";
             type := DailySummary; n_priority := High; content := content |} ]
      else []
    else []
  else [].

(** The branch [if (isOverdue)].  The interval is a quotient of doubles
    and its sum with [now.getTime()] a sum of doubles, each rounded.  The
    sum is rounded where the local reading stands for the one in UTC: both
    lie between the same two powers of two, hence on the same grid of
    doubles, unless the instant is within the zone offset of such a power
    ([2 ^ 40] ms is in November 2004, [2 ^ 41] ms in September 2039). *)
Definition overdueNotifications (dueDate : Date) : list ScheduledNotificationTime :=
  if (priority task =? "high")%string then
    if existingOverdueReminders <? 3 then
      let baseInterval := 4 * 60 * 60 * 1000 in
      let adjustedInterval :=
        roundToDouble (inject_Z baseInterval / frequencyMultiplier preferences)%Q in
      let nextReminder :=
        dateOfNumber (roundToDouble (inject_Z now + adjustedInterval)%Q) in
      addNotification dueDate nextReminder
        ("Overdue high priority - reminder " ++ showZ (existingOverdueReminders + 1) ++ " of 3")
        Overdue High []
    else []
  else if (priority task =? "medium")%string then
    let reminderTime := setHours now 9 0 in
    let reminderTime := if reminderTime <=? now then addDays reminderTime 1 else reminderTime in
    addNotification dueDate reminderTime "Overdue medium priority - daily reminder"
      Overdue Medium []
  else [].

Definition shouldAddExtraNotifications : bool :=
  Qle_bool (3 # 2) (frequencyMultiplier preferences).
Definition shouldReduceNotifications : bool :=
  Qle_bool (frequencyMultiplier preferences) (1 # 2).

(** [if (t > now) addNotification(t, ...)]. *)
Definition addIfFuture (dueDate : Date) (t : Date) (why : string)
    (ty : NotificationType) (priorityLevel : PriorityLevel)
    (acc : list ScheduledNotificationTime) : list ScheduledNotificationTime :=
  if t >? now then addNotification dueDate t why ty priorityLevel acc else acc.

(** High priority, due date with a time of day. *)
Definition highSpecificTime (dueDate : Date)
    (acc : list ScheduledNotificationTime) : list ScheduledNotificationTime :=
  let leadTime := getLeadTimeForDuration (estimated_duration task) in
  let acc :=
    if negb shouldReduceNotifications then
      addIfFuture dueDate (dueDate - 24 * 60 * 60 * 1000)
        "24hr advance notice for high priority" AdvanceNotice High acc
    else acc in
  let acc :=
    addIfFuture dueDate (dueDate - 2 * 60 * 60 * 1000)
      "2hr reminder before scheduled time" Reminder High acc in
  let acc :=
    addIfFuture dueDate (dueDate - leadTime * 60 * 1000)
      (showZ leadTime ++ "min final reminder") FinalReminder High acc in
  if shouldAddExtraNotifications then
    addIfFuture dueDate (dueDate - 6 * 60 * 60 * 1000)
      "6hr early warning for high priority" Reminder High acc
  else acc.

(** The table [times] of the date-only case: hour, minute, label. *)
Definition dateOnlyTimes : list (Z * Z * string) :=
  if shouldReduceNotifications then [ (9, 0, "morning") ]
  else [ (9, 0, "morning"); (14, 0, "afternoon"); (18, 0, "evening") ].

(** High priority, due date without a time of day. *)
Definition highDateOnly (dueDate : Date) (isDueToday : bool)
    (acc : list ScheduledNotificationTime) : list ScheduledNotificationTime :=
  let acc :=
    fold_left
      (fun acc '(hour, minute, label) =>
         addIfFuture dueDate (setHours dueDate hour minute)
           ("High priority due date - " ++ label ++ " reminder") Reminder High acc)
      dateOnlyTimes acc in
  if negb shouldReduceNotifications then
    let twentyFourHoursBefore := setHours (dueDate - 24 * 60 * 60 * 1000) 9 0 in
    if (twentyFourHoursBefore >? now) && negb isDueToday then
      addNotification dueDate twentyFourHoursBefore
        "24hr advance notice for high priority" AdvanceNotice High acc
    else acc
  else acc.

(** Medium priority. *)
Definition mediumNotifications (dueDate : Date) (specificTime : bool)
    (acc : list ScheduledNotificationTime) : list ScheduledNotificationTime :=
  if specificTime then
    let acc :=
      addIfFuture dueDate (dueDate - 2 * 60 * 60 * 1000)
        "2hr reminder for medium priority task" Reminder Medium acc in
    if shouldAddExtraNotifications then
      addIfFuture dueDate (dueDate - 15 * 60 * 1000)
        "15min final reminder for medium priority" FinalReminder Medium acc
    else acc
  else
    addIfFuture dueDate (setHours dueDate 9 0)
      "Medium priority due date - morning reminder" Reminder Medium acc.

(** Everything after the overdue branch, up to the sort. *)
Definition upcomingNotifications (dueDate : Date) (isDueToday specificTime : bool)
    : list ScheduledNotificationTime :=
  let acc := [] in
  let acc :=
    if (priority task =? "high")%string then
      if specificTime then highSpecificTime dueDate acc
      else highDateOnly dueDate isDueToday acc
    else acc in
  let acc :=
    if (priority task =? "medium")%string then mediumNotifications dueDate specificTime acc
    else acc in
  sortByTime acc.

Definition calculateNotificationSchedule : NotificationSchedule :=
  if (status task =? "completed")%string then emptySchedule
  else if includes (disabledPriorities preferences) (priority task) then emptySchedule
  else if (priority task =? "low")%string then emptySchedule
  else
    match due_date task with
    | None =>
        {| taskId := id task; taskTitle := title task;
           notifications := noDueDateNotifications |}
    | Some dueDate =>
        let dueDateStart := startOfDay dueDate in
        let todayStart := startOfDay now in
        let isOverdue := dueDateStart <? todayStart in
        let isDueToday := dueDateStart =? todayStart in
        let specificTime := hasSpecificTime dueDate in
        if isOverdue then
          {| taskId := id task; taskTitle := title task;
             notifications := overdueNotifications dueDate |}
        else
          {| taskId := id task; taskTitle := title task;
             notifications := upcomingNotifications dueDate isDueToday specificTime |}
    end.

End Calculator.

(* ================================================================= *)
(** ** Predicates of the statements *)

(** Non-decreasing by time: every entry is no later than all that follow. *)
Definition timeLe (a b : ScheduledNotificationTime) : Prop := time a <= time b.

Definition sortedByTime (l : list ScheduledNotificationTime) : Prop :=
  StronglySorted timeLe l.

Section Admission.

Variable now : Date.
Variable preferences : UserNotificationPreferences.

(** What the gate [addNotification] lets through. *)
Definition admitted (n : ScheduledNotificationTime) : Prop :=
  isInQuietHours (time n) preferences = false /\
  time n > now + minimumLeadTime preferences * 60 * 1000.

(** A stretch of the accumulation: the list grows by at most [k] entries
    and stays within what the gate lets through. *)
Definition grows (k : nat) (acc acc' : list ScheduledNotificationTime) : Prop :=
  (List.length acc' <= List.length acc + k)%nat /\
  (Forall admitted acc -> Forall admitted acc').

End Admission.

(* ================================================================= *)
(** ** Concrete inputs used below *)

(** Work hours 09:00 to 18:00, no peak-energy preference. *)
Definition officeProfile : UserProfile :=
  {| work_hours_start := hm 9 0; work_hours_end := hm 18 0; peak_energy_time := None |}.

Definition sampleTask (p : string) (due : option Date) (dur : option Z)
    (cat : option string) : Task :=
  {| id := "task-1"; title := "Write report"; due_date := due;
     status := "not_started"; priority := p; estimated_duration := dur;
     category := cat |}.

(** A clock that stands still at [t] after the first reading. *)
Definition frozen (t : Date) : nat -> Date := fun _ => t.

(** Some day after the epoch. *)
Definition someDay : Z := 20000.

(** An evening shift: work from 17:00 to 00:30, peak energy in the
    evening. *)
Definition eveningProfile : UserProfile :=
  {| work_hours_start := hm 17 0; work_hours_end := hm 0 30;
     peak_energy_time := Some "evening" |}.

(** Quiet from 02:00 to 10:00, one hour of minimum lead time. *)
Definition eveningPreferences : UserNotificationPreferences :=
  {| frequencyMultiplier := 1; minimumLeadTime := 60; disabledPriorities := [];
     quietHoursStart := hm 2 0; quietHoursEnd := hm 10 0 |}.

(** [frequencyMultiplier] at the low end of its range. *)
Definition reducedPreferences : UserNotificationPreferences :=
  {| frequencyMultiplier := 1 # 2; minimumLeadTime := 5; disabledPriorities := [];
     quietHoursStart := hm 22 0; quietHoursEnd := hm 7 0 |}.

(** Work hours 10:00 to 17:00, and 09:30 to 17:30. *)
Definition lateProfile : UserProfile :=
  {| work_hours_start := hm 10 0; work_hours_end := hm 17 0; peak_energy_time := None |}.
Definition halfHourProfile : UserProfile :=
  {| work_hours_start := hm 9 30; work_hours_end := hm 17 30; peak_energy_time := None |}.

(** The candidate of the overdue branch for a high priority:
    [new Date(now.getTime() + 4h / frequencyMultiplier)], the quotient and
    the sum rounded as doubles, the fraction of a millisecond dropped. *)
Definition overdueCandidate (now : Date) (preferences : UserNotificationPreferences)
    : Date :=
  dateOfNumber
    (roundToDouble
       (inject_Z now +
        roundToDouble
          (inject_Z (4 * 60 * 60 * 1000) / frequencyMultiplier preferences))%Q).


(** The double nearest to 1.10667, a multiplier at which the quotient
    rounds. *)
Definition roundingPreferences : UserNotificationPreferences :=
  {| frequencyMultiplier := 4983998599622107 # 4503599627370496;
     minimumLeadTime := 5; disabledPriorities := [];
     quietHoursStart := hm 22 0; quietHoursEnd := hm 7 0 |}.

(** A time of day a clock can show. *)
Definition validTimeOfDay (t : TimeOfDay) : Prop :=
  0 <= tod_hour t < 24 /\ 0 <= tod_minute t < 60.

(** The scenario of the specification: at 10:00, a high-priority work task
    of 90 minutes due today at 15:00; its first reminder is due at 13:00. *)
Definition scenarioNow : Date := at_time someDay 10 0.
Definition scenarioTask : Task :=
  sampleTask "high" (Some (at_time someDay 15 0)) (Some 90) (Some "work").
Definition scenarioReminder : ScheduledNotificationTime :=
  {| time := at_time someDay 13 0;
     reason := "2hr reminder before scheduled time";
     type := Reminder; n_priority := High;
     content := generateNotificationContent scenarioTask Reminder
                  (Some (at_time someDay 15 0)) 0 scenarioNow |}.

(** The rendering of a time difference in the words of the
    specification: the largest unit that is not zero, days before hours
    before minutes, of a whole number of minutes. *)
Definition largestUnit (mins : Z) : Z * string :=
  let hours := mins / 60 in
  let days := hours / 24 in
  if days >? 0 then (days, "day")
  else if hours >? 0 then (hours, "hour")
  else (mins, "minute").

(** "Due N {unit} ago" and "Due in N {unit}". *)
Definition renderAgo (p : Z * string) : string :=
  "Due " ++ showZ (fst p) ++ " " ++ snd p ++ plural (fst p) ++ " ago".
Definition renderIn (p : Z * string) : string :=
  "Due in " ++ showZ (fst p) ++ " " ++ snd p ++ plural (fst p).

(* ================================================================= *)
(** ** Batch layer *)

(** [overdueReminderCounts], a [Record<string, number>] that is only
    read: the count stored under a key, if any. *)
Definition ReminderCounts := string -> option Z.

(** [counts[taskId] || 0]. *)
Definition countFor (counts : ReminderCounts) (taskId : string) : Z :=
  match counts taskId with
  | Some n => n
  | None => 0
  end.

(** The clock of one call of the calculator: the reading at entry and the
    later readings. *)
Definition CallClock : Type := Date * (nat -> Date).

(** [tasks.map(task => calculateNotificationSchedule(...))]; the call for
    the task at position [k] reads the clock [clocks k]. *)
Fixpoint schedulesFrom (clocks : nat -> CallClock) (k : nat) (tasks : list Task)
    (profile : UserProfile) (counts : ReminderCounts)
    (preferences : UserNotificationPreferences) : list NotificationSchedule :=
  match tasks with
  | [] => []
  | task :: rest =>
      calculateNotificationSchedule (fst (clocks k)) (snd (clocks k)) task profile
        (countFor counts (id task)) preferences
      :: schedulesFrom clocks (S k) rest profile counts preferences
  end.

Definition calculateAllNotificationSchedules (clocks : nat -> CallClock)
    (tasks : list Task) (profile : UserProfile) (counts : ReminderCounts)
    (preferences : UserNotificationPreferences) : list NotificationSchedule :=
  filter (fun schedule => (0 <? List.length (notifications schedule))%nat)
    (schedulesFrom clocks 0
       (filter (fun task => negb (status task =? "completed")%string) tasks)
       profile counts preferences).

Record PriorityCounts := { high : nat; medium : nat; low : nat }.

(** [byType] is an object filled key by key: the keys in the order of
    their first use, each with its count. *)
Record NotificationSummary := {
  total : nat;
  byPriority : PriorityCounts;
  byType : list (NotificationType * nat)
}.

Definition NotificationType_eqb (a b : NotificationType) : bool :=
  match a, b with
  | AdvanceNotice, AdvanceNotice | Reminder, Reminder
  | FinalReminder, FinalReminder | Overdue, Overdue
  | DailySummary, DailySummary => true
  | _, _ => false
  end.

(** [byType[ty]]. *)
Fixpoint typeCount (byType : list (NotificationType * nat)) (ty : NotificationType)
    : option nat :=
  match byType with
  | [] => None
  | (ty', c) :: rest => if NotificationType_eqb ty ty' then Some c else typeCount rest ty
  end.

(** [byType[ty] = (byType[ty] || 0) + 1]. *)
Fixpoint bumpType (byType : list (NotificationType * nat)) (ty : NotificationType)
    : list (NotificationType * nat) :=
  match byType with
  | [] => [ (ty, 1%nat) ]
  | (ty', c) :: rest =>
      if NotificationType_eqb ty ty' then (ty', S c) :: rest
      else (ty', c) :: bumpType rest ty
  end.

(** [byPriority[p]++]. *)
Definition bumpPriority (c : PriorityCounts) (p : PriorityLevel) : PriorityCounts :=
  match p with
  | High => {| high := S (high c); medium := medium c; low := low c |}
  | Medium => {| high := high c; medium := S (medium c); low := low c |}
  | Low => {| high := high c; medium := medium c; low := S (low c) |}
  end.

(** The body of the inner loop of [getNotificationSummary]. *)
Definition tally (summary : NotificationSummary) (notif : ScheduledNotificationTime)
    : NotificationSummary :=
  {| total := S (total summary);
     byPriority := bumpPriority (byPriority summary) (n_priority notif);
     byType := bumpType (byType summary) (type notif) |}.

Definition emptySummary : NotificationSummary :=
  {| total := 0; byPriority := {| high := 0; medium := 0; low := 0 |}; byType := [] |}.

Definition getNotificationSummary (schedules : list NotificationSchedule)
    : NotificationSummary :=
  fold_left
    (fun summary schedule => fold_left tally (notifications schedule) summary)
    schedules emptySummary.

(* ================================================================= *)
(** ** Change detection *)

(** An optional field that distinguishes [undefined] from [null], as
    [!==] does. *)
Inductive JsOptional (A : Type) :=
  | Undefined : JsOptional A
  | Null : JsOptional A
  | Defined : A -> JsOptional A.
Arguments Undefined {A}.
Arguments Null {A}.
Arguments Defined {A} _.

(** The task as it is stored, before the calculator parses its due
    date. *)
Record StoredTask := {
  s_id : string;
  s_title : string;
  s_due_date : JsOptional string;
  s_status : string;
  s_priority : string;
  s_estimated_duration : JsOptional Z;
  s_category : option string
}.

Definition JsOptional_eqb {A : Type} (eqb : A -> A -> bool) (a b : JsOptional A) : bool :=
  match a, b with
  | Undefined, Undefined => true
  | Null, Null => true
  | Defined x, Defined y => eqb x y
  | _, _ => false
  end.

Definition option_eqb {A : Type} (eqb : A -> A -> bool) (a b : option A) : bool :=
  match a, b with
  | None, None => true
  | Some x, Some y => eqb x y
  | _, _ => false
  end.

Definition hasScheduleChanged (oldTask : option StoredTask) (newTask : StoredTask) : bool :=
  match oldTask with
  | None => true
  | Some oldTask =>
      negb (JsOptional_eqb String.eqb (s_due_date oldTask) (s_due_date newTask)) ||
      negb (s_priority oldTask =? s_priority newTask)%string ||
      negb (s_status oldTask =? s_status newTask)%string ||
      negb (JsOptional_eqb Z.eqb (s_estimated_duration oldTask) (s_estimated_duration newTask)) ||
      negb (option_eqb String.eqb (s_category oldTask) (s_category newTask)) ||
      negb (s_title oldTask =? s_title newTask)%string
  end.

(** The task as the calculator reads it: [!task.due_date] holds for
    [undefined], [null] and the empty string, any other string goes
    through [new Date], here [parseDate]; a missing duration is [null] or
    [undefined]. *)
Definition taskOfStored (parseDate : string -> Date) (t : StoredTask) : Task :=
  {| id := s_id t;
     title := s_title t;
     due_date :=
       match s_due_date t with
       | Defined EmptyString | Undefined | Null => None
       | Defined s => Some (parseDate s)
       end;
     status := s_status t;
     priority := s_priority t;
     estimated_duration :=
       match s_estimated_duration t with
       | Defined d => Some d
       | Undefined | Null => None
       end;
     category := s_category t |}.

(* ================================================================= *)
(** ** The calls of [addNotification] *)

(** The entry [addNotification] pushes for a candidate time [t], its
    content made at the clock reading [clock]. *)
Definition entryOf (task : Task) (profile : UserProfile) (existingOverdueReminders : Z)
    (dueDate : Date) (t : Date) (why : string) (ty : NotificationType)
    (priorityLevel : PriorityLevel) (clock : Date) : ScheduledNotificationTime :=
  {| time := adjustToWorkHours t profile (isWorkTask task);
     reason := why; type := ty; n_priority := priorityLevel;
     content := generateNotificationContent task ty (Some dueDate)
                  existingOverdueReminders clock |}.

Section CallSites.

Variable now : Date.
Variable task : Task.
Variable existingOverdueReminders : Z.
Variable preferences : UserNotificationPreferences.
Variable dueDate : Date.

(** The places of [calculateNotificationSchedule] that call
    [addNotification] for a task due at [dueDate], each with the tests that
    lead to it and the arguments it passes. *)
Inductive callSite : Date -> string -> NotificationType -> PriorityLevel -> Prop :=
  | site_overdue_high :
      startOfDay dueDate < startOfDay now ->
      priority task = "high" ->
      existingOverdueReminders < 3 ->
      callSite (overdueCandidate now preferences)
        ("Overdue high priority - reminder " ++ showZ (existingOverdueReminders + 1) ++ " of 3")
        Overdue High
  | site_overdue_medium :
      startOfDay dueDate < startOfDay now ->
      priority task = "medium" ->
      callSite (if setHours now 9 0 <=? now then addDays (setHours now 9 0) 1
                else setHours now 9 0)
        "Overdue medium priority - daily reminder" Overdue Medium
  | site_high_24h :
      startOfDay now <= startOfDay dueDate ->
      priority task = "high" ->
      hasSpecificTime dueDate = true ->
      shouldReduceNotifications preferences = false ->
      now < dueDate - 24 * 60 * 60 * 1000 ->
      callSite (dueDate - 24 * 60 * 60 * 1000)
        "24hr advance notice for high priority" AdvanceNotice High
  | site_high_2h :
      startOfDay now <= startOfDay dueDate ->
      priority task = "high" ->
      hasSpecificTime dueDate = true ->
      now < dueDate - 2 * 60 * 60 * 1000 ->
      callSite (dueDate - 2 * 60 * 60 * 1000)
        "2hr reminder before scheduled time" Reminder High
  | site_high_final :
      startOfDay now <= startOfDay dueDate ->
      priority task = "high" ->
      hasSpecificTime dueDate = true ->
      now < dueDate - getLeadTimeForDuration (estimated_duration task) * 60 * 1000 ->
      callSite (dueDate - getLeadTimeForDuration (estimated_duration task) * 60 * 1000)
        (showZ (getLeadTimeForDuration (estimated_duration task)) ++ "min final reminder")
        FinalReminder High
  | site_high_6h :
      startOfDay now <= startOfDay dueDate ->
      priority task = "high" ->
      hasSpecificTime dueDate = true ->
      shouldAddExtraNotifications preferences = true ->
      now < dueDate - 6 * 60 * 60 * 1000 ->
      callSite (dueDate - 6 * 60 * 60 * 1000)
        "6hr early warning for high priority" Reminder High
  | site_high_day hour minute label :
      startOfDay now <= startOfDay dueDate ->
      priority task = "high" ->
      hasSpecificTime dueDate = false ->
      In (hour, minute, label) (dateOnlyTimes preferences) ->
      now < setHours dueDate hour minute ->
      callSite (setHours dueDate hour minute)
        ("High priority due date - " ++ label ++ " reminder") Reminder High
  | site_high_day_before :
      startOfDay now < startOfDay dueDate ->
      priority task = "high" ->
      hasSpecificTime dueDate = false ->
      shouldReduceNotifications preferences = false ->
      now < setHours (dueDate - 24 * 60 * 60 * 1000) 9 0 ->
      callSite (setHours (dueDate - 24 * 60 * 60 * 1000) 9 0)
        "24hr advance notice for high priority" AdvanceNotice High
  | site_medium_2h :
      startOfDay now <= startOfDay dueDate ->
      priority task = "medium" ->
      hasSpecificTime dueDate = true ->
      now < dueDate - 2 * 60 * 60 * 1000 ->
      callSite (dueDate - 2 * 60 * 60 * 1000)
        "2hr reminder for medium priority task" Reminder Medium
  | site_medium_15min :
      startOfDay now <= startOfDay dueDate ->
      priority task = "medium" ->
      hasSpecificTime dueDate = true ->
      shouldAddExtraNotifications preferences = true ->
      now < dueDate - 15 * 60 * 1000 ->
      callSite (dueDate - 15 * 60 * 1000)
        "15min final reminder for medium priority" FinalReminder Medium
  | site_medium_day :
      startOfDay now <= startOfDay dueDate ->
      priority task = "medium" ->
      hasSpecificTime dueDate = false ->
      now < setHours dueDate 9 0 ->
      callSite (setHours dueDate 9 0)
        "Medium priority due date - morning reminder" Reminder Medium.

End CallSites.

(** A notification that comes from a call site: pushed there, with the
    content made at some later reading of the clock. *)
Definition fromCallSite (now : Date) (later : nat -> Date) (task : Task)
    (profile : UserProfile) (existingOverdueReminders : Z)
    (preferences : UserNotificationPreferences) (dueDate : Date)
    (n : ScheduledNotificationTime) : Prop :=
  exists t why k,
    callSite now task existingOverdueReminders preferences dueDate
      t why (type n) (n_priority n) /\
    n = entryOf task profile existingOverdueReminders dueDate t why
          (type n) (n_priority n) (later k).

(** The urgency that goes with a priority and a type of notification. *)
Definition urgencyFor (p : string) (ty : NotificationType) : UrgencyLevel :=
  match ty with
  | Overdue => UOverdue
  | _ => if (p =? "high")%string then UUrgent else UNormal
  end.

(** The plan of a task due today or later: the types and times the
    calculator proposes before the admission gate looks at them. *)
Definition plannedTimes (task : Task) (preferences : UserNotificationPreferences)
    (now dueDate : Date) : list (NotificationType * Date) :=
  let reduce := shouldReduceNotifications preferences in
  let extra := shouldAddExtraNotifications preferences in
  let isDueToday := startOfDay dueDate =? startOfDay now in
  if (priority task =? "high")%string then
    if hasSpecificTime dueDate then
      ((if reduce then [] else [ (AdvanceNotice, dueDate - 24 * 60 * 60 * 1000) ])
       ++ [ (Reminder, dueDate - 2 * 60 * 60 * 1000);
            (FinalReminder,
             dueDate - getLeadTimeForDuration (estimated_duration task) * 60 * 1000) ]
       ++ (if extra then [ (Reminder, dueDate - 6 * 60 * 60 * 1000) ] else []))%list
    else
      (map (fun '(hour, minute, _) => (Reminder, setHours dueDate hour minute))
         (dateOnlyTimes preferences)
       ++ (if reduce || isDueToday then []
           else [ (AdvanceNotice, setHours (dueDate - 24 * 60 * 60 * 1000) 9 0) ]))%list
  else if (priority task =? "medium")%string then
    if hasSpecificTime dueDate then
      ((Reminder, dueDate - 2 * 60 * 60 * 1000)
       :: (if extra then [ (FinalReminder, dueDate - 15 * 60 * 1000) ] else []))
    else [ (Reminder, setHours dueDate 9 0) ]
  else [].

(** All notifications of a list of schedules, in the order the summary
    visits them. *)
Definition allNotifications (schedules : list NotificationSchedule)
    : list ScheduledNotificationTime :=
  flat_map notifications schedules.

(** How many notifications of a list have a given type, a given priority. *)
Definition countOfType (ty : NotificationType) (l : list ScheduledNotificationTime) : nat :=
  List.length (filter (fun n => NotificationType_eqb (type n) ty) l).

Definition PriorityLevel_eqb (a b : PriorityLevel) : bool :=
  match a, b with
  | High, High | Medium, Medium | Low, Low => true
  | _, _ => false
  end.

Definition countOfPriority (p : PriorityLevel) (l : list ScheduledNotificationTime) : nat :=
  List.length (filter (fun n => PriorityLevel_eqb (n_priority n) p) l).

(** The sum of the counts of [byType]. *)
Definition sumOfCounts (byType : list (NotificationType * nat)) : nat :=
  fold_right (fun entry acc => (snd entry + acc)%nat) 0%nat byType.

(** A task that yields no notification whatever the clock reads: it is
    completed, of low or disabled priority, or of high priority, overdue at
    every reading of the clock, with three or more reminders counted. *)
Definition silentTask (clocks : nat -> CallClock) (counts : ReminderCounts)
    (preferences : UserNotificationPreferences) (task : Task) : Prop :=
  status task = "completed" \/
  priority task = "low" \/
  In (priority task) (disabledPriorities preferences) \/
  (priority task = "high" /\ 3 <= countFor counts (id task) /\
   exists dueDate, due_date task = Some dueDate /\
                   forall k, startOfDay dueDate < startOfDay (fst (clocks k))).

(** One clock for every call of a batch, and no reminder counted yet. *)
Definition scenarioClocks : nat -> CallClock := fun _ => (scenarioNow, frozen scenarioNow).
Definition noCounts : ReminderCounts := fun _ => None.

(** A batch of three tasks: the scenario task, a task of low priority and
    a completed one. *)
Definition scenarioBatch : list Task :=
  [ scenarioTask;
    sampleTask "low" (Some (at_time someDay 16 0)) None None;
    {| id := "task-3"; title := "Done"; due_date := Some (at_time someDay 17 0);
       status := "completed"; priority := "high"; estimated_duration := None;
       category := None |} ].

Definition scenarioSchedule : NotificationSchedule :=
  calculateNotificationSchedule scenarioNow (frozen scenarioNow) scenarioTask
    officeProfile 0 DEFAULT_NOTIFICATION_PREFERENCES.

(** The scenario task as it is stored, and the same task under another
    id; a parser that knows its due date. *)
Definition storedScenarioTask (taskId : string) : StoredTask :=
  {| s_id := taskId; s_title := "Write report";
     s_due_date := Defined "2024-10-04T15:00"; s_status := "not_started";
     s_priority := "high"; s_estimated_duration := Defined 90;
     s_category := Some "work" |}.
Definition scenarioParser : string -> Date := fun _ => at_time someDay 15 0.

(** A personal task of medium priority due today at 15:00, and its
    reminder two hours ahead. *)
Definition personalTask : Task :=
  sampleTask "medium" (Some (at_time someDay 15 0)) None (Some "personal").
Definition personalReminder : ScheduledNotificationTime :=
  {| time := at_time someDay 13 0;
     reason := "2hr reminder for medium priority task";
     type := Reminder; n_priority := Medium;
     content := generateNotificationContent personalTask Reminder
                  (Some (at_time someDay 15 0)) 0 scenarioNow |}.

(* ================================================================= *)
(** ** The scheduler hook: [src/hooks/useNotificationScheduler.ts]

    Of the hook the two computations that use the calculator's results or
    its notion of an overdue task are embedded: the loop of
    [scheduleSmartTaskNotifications] that turns schedules into
    notifications to submit, over the two refs it updates, and what
    [scheduleOverdueAlerts] submits.  Cancelling and submitting are calls
    to the notification sink and stay outside. *)

(** The string of a notification type. *)
Definition typeName (ty : NotificationType) : string :=
  match ty with
  | AdvanceNotice => "advance-notice"
  | Reminder => "reminder"
  | FinalReminder => "final-reminder"
  | Overdue => "overdue"
  | DailySummary => "daily-summary"
  end.

(** [counts[taskId] = value]. *)
Definition setCount (counts : ReminderCounts) (taskId : string) (value : Z)
    : ReminderCounts :=
  fun key => if (key =? taskId)%string then Some value else counts key.

(** The refs the loop reads and updates: [scheduledTaskIdsRef], a set of
    strings kept in the order of insertion, and
    [overdueReminderCountsRef]. *)
Record SchedulerRefs := {
  scheduledKeys : list string;
  overdueReminderCounts : ReminderCounts
}.

(** [set.has(key)]. *)
Definition hasKey (keys : list string) (key : string) : bool :=
  existsb (String.eqb key) keys.

(** What the loop hands to [scheduleMultipleNotifications]. *)
Record SubmittedNotification := {
  sub_title : string;
  sub_body : string;
  sub_scheduleAt : Date;
  sub_type : NotificationType;
  sub_data_type : string;
  sub_data_taskId : string;
  sub_data_notificationType : NotificationType;
  sub_data_urgencyLevel : UrgencyLevel
}.

Section Dispatch.

(** [date.getTime()] counts from the epoch in UTC; the dates here are
    local, [zoneOffset] milliseconds ahead of UTC. *)
Variable zoneOffset : Z.

Definition getTime (d : Date) : Z := d - zoneOffset.

(** [`${schedule.taskId}-${notif.type}-${notif.time.getTime()}`]. *)
Definition notificationKey (taskId : string) (notif : ScheduledNotificationTime) : string :=
  taskId ++ "-" ++ typeName (type notif) ++ "-" ++ showZ (getTime (time notif)).

(** The body of the inner loop, for one notification of the schedule of
    [taskId]. *)
Definition dispatchStep (taskId : string)
    (state : SchedulerRefs * list SubmittedNotification)
    (notif : ScheduledNotificationTime)
    : SchedulerRefs * list SubmittedNotification :=
  let refs := fst state in
  let allNotifications := snd state in
  let notifKey := notificationKey taskId notif in
  if hasKey (scheduledKeys refs) notifKey then state
  else
    let counts :=
      match type notif with
      | Overdue =>
          setCount (overdueReminderCounts refs) taskId
            (countFor (overdueReminderCounts refs) taskId + 1)
      | _ => overdueReminderCounts refs
      end in
    ({| scheduledKeys := (scheduledKeys refs ++ [notifKey])%list;
        overdueReminderCounts := counts |},
     (allNotifications ++
      [ {| sub_title := c_title (content notif);
           sub_body := c_body (content notif);
           sub_scheduleAt := time notif;
           sub_type := type notif;
           sub_data_type := "task-reminder";
           sub_data_taskId := taskId;
           sub_data_notificationType := type notif;
           sub_data_urgencyLevel := urgencyLevel (content notif) |} ])%list).

(** [for (const schedule of schedules) for (const notif of
    schedule.notifications) ...], from the refs as they are to the refs as
    the loop leaves them and the notifications to submit. *)
Definition dispatchSchedules (schedules : list NotificationSchedule)
    (refs : SchedulerRefs) : SchedulerRefs * list SubmittedNotification :=
  fold_left
    (fun state schedule =>
       fold_left (dispatchStep (taskId schedule)) (notifications schedule) state)
    schedules (refs, []).

(** The schedules flattened to what the loop visits: each notification
    with the id of its task. *)
Definition visited (schedules : list NotificationSchedule)
    : list (string * ScheduledNotificationTime) :=
  flat_map (fun schedule => map (pair (taskId schedule)) (notifications schedule))
    schedules.

End Dispatch.

(** The filter of [scheduleOverdueAlerts]: not completed, with a due date
    whose day lies before today. *)
Definition isOverdueTask (now : Date) (task : Task) : bool :=
  if (status task =? "completed")%string then false
  else
    match due_date task with
    | None => false
    | Some dueDate => startOfDay dueDate <? startOfDay now
    end.

Record OverdueAlert := {
  alert_title : string;
  alert_body : string;
  alert_scheduleAt : Date
}.

Definition ICON_WARNING : string := "⚠️".

(** [n > 1 ? 's' : ''] of a length. *)
Definition pluralOf (n : nat) : string := plural (Z.of_nat n).

(** What [scheduleOverdueAlerts] submits, if anything. *)
Definition overdueAlert (enabled hasPermission : bool) (now : Date) (tasks : list Task)
    : option OverdueAlert :=
  if negb enabled || negb hasPermission then None
  else
    let overdueTasks := filter (isOverdueTask now) tasks in
    if (List.length overdueTasks =? 0)%nat then None
    else
      let highPriorityCount :=
        List.length (filter (fun t => (priority t =? "high")%string) overdueTasks) in
      let notificationTime := setHours now 9 0 in
      let notificationTime :=
        if notificationTime <=? now then addDays notificationTime 1
        else notificationTime in
      let body :=
        if (0 <? highPriorityCount)%nat then
          "You have " ++ showZ (Z.of_nat highPriorityCount)
          ++ " overdue high-priority task" ++ pluralOf highPriorityCount
        else
          "You have " ++ showZ (Z.of_nat (List.length overdueTasks))
          ++ " overdue task" ++ pluralOf (List.length overdueTasks) in
      Some {| alert_title :=
                ICON_WARNING ++ " " ++ showZ (Z.of_nat (List.length overdueTasks))
                ++ " task" ++ pluralOf (List.length overdueTasks) ++ " need attention";
              alert_body := body;
              alert_scheduleAt := notificationTime |}.

(** The key under which a submitted notification was recorded, and
    whether it is an overdue reminder of a given task. *)
Definition submittedKey (zoneOffset : Z) (n : SubmittedNotification) : string :=
  sub_data_taskId n ++ "-" ++ typeName (sub_type n) ++ "-"
  ++ showZ (getTime zoneOffset (sub_scheduleAt n)).

Definition isOverdueReminderOf (taskId : string) (n : SubmittedNotification) : bool :=
  (sub_data_taskId n =? taskId)%string && NotificationType_eqb (sub_type n) Overdue.

(** The scheduler's refs before anything was scheduled. *)
Definition freshRefs : SchedulerRefs :=
  {| scheduledKeys := []; overdueReminderCounts := noCounts |}.

(** A personal task of high priority, two days overdue, and its second
    overdue reminder, four hours from the scenario's [now]. *)
Definition overdueTask : Task :=
  sampleTask "high" (Some (at_time (someDay - 2) 0 0)) None (Some "personal").
Definition overdueReminder : ScheduledNotificationTime :=
  {| time := at_time someDay 14 0;
     reason := "Overdue high priority - reminder 2 of 3";
     type := Overdue; n_priority := High;
     content := generateNotificationContent overdueTask Overdue
                  (Some (at_time (someDay - 2) 0 0)) 1 scenarioNow |}.

(* ================================================================= *)
(** ** Properties of the sort *)

Lemma insertByTime_perm n l : Permutation (insertByTime n l) (n :: l).
Proof.
  induction l as [|m l IH]; simpl.
  - apply Permutation_refl.
  - destruct (time n <=? time m).
    + apply Permutation_refl.
    + eapply perm_trans; [apply perm_skip, IH | apply perm_swap].
Qed.

Lemma sortByTime_perm l : Permutation (sortByTime l) l.
Proof.
  induction l as [|n l IH]; simpl.
  - constructor.
  - eapply perm_trans; [apply insertByTime_perm | apply perm_skip, IH].
Qed.

Lemma sortByTime_length l : List.length (sortByTime l) = List.length l.
Proof. apply Permutation_length, sortByTime_perm. Qed.

Lemma insertByTime_sorted n l :
  sortedByTime l -> sortedByTime (insertByTime n l).
Proof.
  unfold sortedByTime.
  induction 1 as [|m l Hl IH Hm]; simpl.
  - repeat constructor.
  - destruct (time n <=? time m) eqn:E.
    + apply Z.leb_le in E.
      constructor; [constructor; assumption|].
      constructor; [exact E|].
      eapply Forall_impl; [|exact Hm].
      unfold timeLe; intros; lia.
    + apply Z.leb_gt in E.
      constructor; [exact IH|].
      eapply Permutation_Forall;
        [apply Permutation_sym, insertByTime_perm|].
      constructor; [unfold timeLe; lia | exact Hm].
Qed.

Lemma sortByTime_sorted l : sortedByTime (sortByTime l).
Proof.
  induction l as [|n l IH]; simpl.
  - constructor.
  - apply insertByTime_sorted, IH.
Qed.

Lemma short_list_sorted l : (List.length l <= 1)%nat -> sortedByTime l.
Proof.
  destruct l as [|a [|b l]]; simpl; intros H.
  - constructor.
  - repeat constructor.
  - lia.
Qed.

(* ================================================================= *)
(** ** The admission gate *)

Section Gate.

Variable now : Date.
Variable later : nat -> Date.
Variable task : Task.
Variable profile : UserProfile.
Variable existingOverdueReminders : Z.
Variable preferences : UserNotificationPreferences.

Let add := addNotification now later task profile existingOverdueReminders preferences.
Let addF := addIfFuture now later task profile existingOverdueReminders preferences.
Let ok := admitted now preferences.
Let G := grows now preferences.

(** One call either leaves the list alone or appends one admitted entry
    at the work-hour adjusted time. *)
Lemma addNotification_cases due t why ty pl acc :
  add due t why ty pl acc = acc \/
  exists n,
    add due t why ty pl acc = (acc ++ [n])%list /\
    time n = adjustToWorkHours t profile (isWorkTask task) /\
    type n = ty /\ n_priority n = pl /\ reason n = why /\ ok n.
Proof.
  unfold add, addNotification, ok, admitted.
  destruct (isInQuietHours _ preferences) eqn:Q; [now left|].
  destruct (_ <=? _) eqn:L; [now left|].
  right. eexists. split; [reflexivity|]. simpl.
  apply Z.leb_gt in L. repeat split; auto; lia.
Qed.

Lemma grows_refl k acc : G k acc acc.
Proof. split; [lia | auto]. Qed.

Lemma grows_trans j k a b c : G j a b -> G k b c -> G (j + k) a c.
Proof. intros [L1 F1] [L2 F2]. split; [lia | auto]. Qed.

Lemma grows_weaken j k a b : (j <= k)%nat -> G j a b -> G k a b.
Proof. intros Hjk [L F]. split; [lia | auto]. Qed.

Lemma grows_add due t why ty pl acc : G 1 acc (add due t why ty pl acc).
Proof.
  destruct (addNotification_cases due t why ty pl acc) as [E | (n & E & _ & _ & _ & _ & A)];
    rewrite E.
  - apply grows_refl.
  - split.
    + rewrite length_app. simpl. lia.
    + intros F. apply Forall_app. split; [exact F | constructor; [exact A | constructor]].
Qed.

Lemma grows_addF due t why ty pl acc : G 1 acc (addF due t why ty pl acc).
Proof.
  unfold addF, addIfFuture. destruct (t >? now); [apply grows_add | apply grows_refl].
Qed.

End Gate.

(* ================================================================= *)
(** ** The branches of the calculator *)

Section Branches.

Variable now : Date.
Variable later : nat -> Date.
Variable task : Task.
Variable profile : UserProfile.
Variable existingOverdueReminders : Z.
Variable preferences : UserNotificationPreferences.

Let G := grows now preferences.

Lemma highSpecificTime_grows due acc :
  G 4%nat acc
    (highSpecificTime now later task profile existingOverdueReminders preferences due acc).
Proof.
  unfold highSpecificTime.
  set (a1 := if negb _ then _ else acc).
  set (a2 := addIfFuture _ _ _ _ _ _ _ _ _ _ _ a1).
  set (a3 := addIfFuture _ _ _ _ _ _ _ _ _ _ _ a2).
  assert (H1 : G 1%nat acc a1).
  { subst a1. destruct (negb _); [apply grows_addF | apply grows_weaken with 0%nat; [lia | apply grows_refl]]. }
  assert (H2 : G 1%nat a1 a2) by apply grows_addF.
  assert (H3 : G 1%nat a2 a3) by apply grows_addF.
  assert (H13 : G 3%nat acc a3).
  { apply (grows_trans _ _ 2 1 acc a2 a3); [|exact H3].
    apply (grows_trans _ _ 1 1 acc a1 a2); assumption. }
  destruct (shouldAddExtraNotifications preferences).
  - apply (grows_trans _ _ 3 1 acc a3); [exact H13 | apply grows_addF].
  - apply grows_weaken with 3%nat; [lia | exact H13].
Qed.

Lemma dateOnlyTimes_length : (List.length (dateOnlyTimes preferences) <= 3)%nat.
Proof. unfold dateOnlyTimes. destruct (shouldReduceNotifications _); simpl; lia. Qed.

Lemma dateOnly_loop_grows due (times : list (Z * Z * string)) acc :
  G (List.length times) acc
    (fold_left
       (fun acc '(hour, minute, label) =>
          addIfFuture now later task profile existingOverdueReminders preferences
            due (setHours due hour minute)
            ("High priority due date - " ++ label ++ " reminder") Reminder High acc)
       times acc).
Proof.
  revert acc. induction times as [|[[h m] lbl] times IH]; intros acc; simpl.
  - apply grows_refl.
  - eapply (grows_trans _ _ 1 _ acc); [apply grows_addF | apply IH].
Qed.

Lemma highDateOnly_grows due isDueToday acc :
  G 4%nat acc
    (highDateOnly now later task profile existingOverdueReminders preferences
       due isDueToday acc).
Proof.
  unfold highDateOnly.
  set (a1 := fold_left _ _ acc).
  assert (H1 : G 3%nat acc a1).
  { apply grows_weaken with (List.length (dateOnlyTimes preferences));
      [apply dateOnlyTimes_length | apply dateOnly_loop_grows]. }
  destruct (negb _).
  - destruct (_ && _).
    + apply (grows_trans _ _ 3 1 acc a1); [exact H1 | apply grows_add].
    + apply grows_weaken with 3%nat; [lia | exact H1].
  - apply grows_weaken with 3%nat; [lia | exact H1].
Qed.

Lemma mediumNotifications_grows due specificTime acc :
  G 2%nat acc
    (mediumNotifications now later task profile existingOverdueReminders preferences
       due specificTime acc).
Proof.
  unfold mediumNotifications.
  destruct specificTime.
  - set (a1 := addIfFuture _ _ _ _ _ _ _ _ _ _ _ acc).
    assert (H1 : G 1%nat acc a1) by apply grows_addF.
    destruct (shouldAddExtraNotifications preferences).
    + apply (grows_trans _ _ 1 1 acc a1); [exact H1 | apply grows_addF].
    + apply grows_weaken with 1%nat; [lia | exact H1].
  - apply grows_weaken with 1%nat; [lia | apply grows_addF].
Qed.

(** A priority string is not both "high" and "medium". *)
Lemma high_not_medium p : (p =? "high")%string = true -> (p =? "medium")%string = false.
Proof. intros H. apply String.eqb_eq in H. subst p. reflexivity. Qed.

Lemma upcomingNotifications_grows due isDueToday specificTime :
  G 4%nat []
    (upcomingNotifications now later task profile existingOverdueReminders preferences
       due isDueToday specificTime).
Proof.
  unfold upcomingNotifications.
  assert (S : forall l, G 4%nat [] l -> G 4%nat [] (sortByTime l)).
  { intros l [L F]. split.
    - rewrite sortByTime_length. exact L.
    - intros F0. eapply Permutation_Forall;
        [apply Permutation_sym, sortByTime_perm | exact (F F0)]. }
  apply S.
  destruct (priority task =? "high")%string eqn:Hh.
  - rewrite (high_not_medium _ Hh).
    destruct specificTime; [apply highSpecificTime_grows | apply highDateOnly_grows].
  - destruct (priority task =? "medium")%string.
    + apply grows_weaken with 2%nat; [lia | apply mediumNotifications_grows].
    + apply grows_refl.
Qed.

Lemma overdueNotifications_grows due :
  G 1%nat []
    (overdueNotifications now later task profile existingOverdueReminders preferences due).
Proof.
  unfold overdueNotifications.
  destruct (priority task =? "high")%string.
  - destruct (existingOverdueReminders <? 3); [apply grows_add | apply grows_refl].
  - destruct (priority task =? "medium")%string; [apply grows_add | apply grows_refl].
Qed.

Lemma noDueDateNotifications_length :
  (List.length (noDueDateNotifications now task profile preferences) <= 1)%nat.
Proof.
  unfold noDueDateNotifications.
  destruct (priority task =? "high")%string; [|simpl; lia].
  destruct (isWorkTask task); [|simpl; lia].
  destruct (_ && _); simpl; lia.
Qed.

End Branches.

(* ================================================================= *)
(** ** Short circuits, size and order of the schedule *)

Lemma includes_In l s : includes l s = true <-> In s l.
Proof.
  unfold includes. rewrite existsb_exists. split.
  - intros (x & Hx & E). apply String.eqb_eq in E. now subst.
  - intros H. exists s. split; [exact H | apply String.eqb_refl].
Qed.

(** C5: the schedule has no notifications when the task is completed, or
    has priority "low", or has a priority listed in
    [preferences.disabledPriorities], whatever the other fields are. *)
Theorem calculate_short_circuits
    now later task profile existingOverdueReminders preferences :
  status task = "completed" \/ priority task = "low" \/
  In (priority task) (disabledPriorities preferences) ->
  notifications
    (calculateNotificationSchedule now later task profile
       existingOverdueReminders preferences) = [].
Proof.
  intros H. unfold calculateNotificationSchedule.
  destruct (status task =? "completed")%string eqn:Hs; [reflexivity|].
  destruct (includes _ _) eqn:Hd; [reflexivity|].
  destruct (priority task =? "low")%string eqn:Hl; [reflexivity|].
  exfalso. destruct H as [H | [H | H]].
  - apply String.eqb_neq in Hs. contradiction.
  - apply String.eqb_neq in Hl. contradiction.
  - apply includes_In in H. congruence.
Qed.

Lemma calculate_short_circuits_witness :
  notifications
    (calculateNotificationSchedule (at_time someDay 10 0) (frozen (at_time someDay 10 0))
       (sampleTask "low" (Some (at_time (someDay + 1) 15 0)) (Some 90) (Some "work"))
       officeProfile 0 DEFAULT_NOTIFICATION_PREFERENCES) = [].
Proof.
  apply calculate_short_circuits. right; left. reflexivity.
Defined.

(** C10: the schedule holds at most four notifications, and its [taskId]
    and [taskTitle] are the task's [id] and [title]. *)
Theorem calculate_size_and_identity
    now later task profile existingOverdueReminders preferences :
  let s := calculateNotificationSchedule now later task profile
             existingOverdueReminders preferences in
  (List.length (notifications s) <= 4)%nat /\
  taskId s = id task /\ taskTitle s = title task.
Proof.
  unfold calculateNotificationSchedule, emptySchedule.
  destruct (status task =? "completed")%string; [simpl; repeat split; lia|].
  destruct (includes _ _); [simpl; repeat split; lia|].
  destruct (priority task =? "low")%string; [simpl; repeat split; lia|].
  destruct (due_date task) as [due|]; simpl.
  - destruct (startOfDay due <? startOfDay now); simpl; repeat split.
    + pose proof (overdueNotifications_grows now later task profile
                    existingOverdueReminders preferences due) as [L _].
      simpl in L. lia.
    + pose proof (upcomingNotifications_grows now later task profile
                    existingOverdueReminders preferences due
                    (startOfDay due =? startOfDay now) (hasSpecificTime due)) as [L _].
      simpl in L. lia.
  - repeat split.
    pose proof (noDueDateNotifications_length now task profile preferences). lia.
Qed.

(** C4: the notifications of the schedule are in non-decreasing order of
    time, on every path through the calculator: the short circuits, the
    branch without a due date, the overdue branch and the sorted rest. *)
Theorem calculate_sorted
    now later task profile existingOverdueReminders preferences :
  sortedByTime
    (notifications
       (calculateNotificationSchedule now later task profile
          existingOverdueReminders preferences)).
Proof.
  unfold calculateNotificationSchedule, emptySchedule.
  destruct (status task =? "completed")%string; [constructor|].
  destruct (includes _ _); [constructor|].
  destruct (priority task =? "low")%string; [constructor|].
  destruct (due_date task) as [due|]; simpl.
  - destruct (startOfDay due <? startOfDay now); simpl.
    + apply short_list_sorted.
      pose proof (overdueNotifications_grows now later task profile
                    existingOverdueReminders preferences due) as [L _].
      exact L.
    + unfold upcomingNotifications. apply sortByTime_sorted.
  - apply short_list_sorted, noDueDateNotifications_length.
Qed.

(* ================================================================= *)
(** ** What every notification satisfies *)

(** The branch without a due date yields nothing, or one daily summary that
    passed its own test: later than [now] and outside quiet hours. *)
Lemma noDueDateNotifications_cases now task profile preferences :
  noDueDateNotifications now task profile preferences = [] \/
  exists n,
    noDueDateNotifications now task profile preferences = [n] /\
    type n = DailySummary /\
    time n = adjustToWorkHours
               (setHours (addDays now 1)
                  (range_start (getPeakEnergyHours (peak_energy_time profile))) 0)
               profile true /\
    time n > now /\ isInQuietHours (time n) preferences = false.
Proof.
  unfold noDueDateNotifications.
  destruct (priority task =? "high")%string; [|now left].
  destruct (isWorkTask task); [|now left].
  destruct (_ && _) eqn:E; [|now left].
  apply andb_true_iff in E. destruct E as [E1 E2].
  apply Z.gtb_lt in E1. apply negb_true_iff in E2.
  right. eexists. split; [reflexivity|]. simpl. repeat split; auto; lia.
Qed.

(** With a due date, every notification went through [addNotification]. *)
Lemma due_date_notifications_admitted
    now later task profile existingOverdueReminders preferences due :
  due_date task = Some due ->
  Forall (admitted now preferences)
    (notifications
       (calculateNotificationSchedule now later task profile
          existingOverdueReminders preferences)).
Proof.
  intros Hd. unfold calculateNotificationSchedule, emptySchedule. rewrite Hd.
  destruct (status task =? "completed")%string; [constructor|].
  destruct (includes _ _); [constructor|].
  destruct (priority task =? "low")%string; [constructor|].
  destruct (startOfDay due <? startOfDay now); simpl.
  - apply (overdueNotifications_grows now later task profile
             existingOverdueReminders preferences due). constructor.
  - apply (upcomingNotifications_grows now later task profile
             existingOverdueReminders preferences due). constructor.
Qed.

(** C1, as the code has it: every notification lies outside quiet hours;
    for a task with a due date it is later than [now] plus the minimum lead
    time; the daily summary of a task without a due date is tested against
    [now] alone.  With a lead time that is not negative every notification
    is later than [now].  (The multiplier is not zero, so that the overdue
    interval is a number.) *)
Theorem calculate_notifications_admitted
    now later task profile existingOverdueReminders preferences n :
  ~ (frequencyMultiplier preferences == 0)%Q ->
  In n (notifications
          (calculateNotificationSchedule now later task profile
             existingOverdueReminders preferences)) ->
  isInQuietHours (time n) preferences = false /\
  (due_date task <> None ->
   time n > now + minimumLeadTime preferences * 60 * 1000) /\
  (due_date task = None -> time n > now) /\
  (0 <= minimumLeadTime preferences -> time n > now).
Proof.
  intros _ Hin.
  destruct (due_date task) as [due|] eqn:Hd.
  - pose proof (due_date_notifications_admitted now later task profile
                  existingOverdueReminders preferences due Hd) as F.
    rewrite Forall_forall in F. destruct (F n Hin) as [Q L].
    repeat split; auto; try discriminate. intros; lia.
  - revert Hin. unfold calculateNotificationSchedule, emptySchedule. rewrite Hd.
    destruct (status task =? "completed")%string; [intros []|].
    destruct (includes _ _); [intros []|].
    destruct (priority task =? "low")%string; [intros []|].
    simpl.
    destruct (noDueDateNotifications_cases now task profile preferences)
      as [E | (m & E & _ & _ & L & Q)]; rewrite E; [intros []|].
    intros [<- | []]. repeat split; auto. congruence.
Qed.

(** C1, as stated, fails for the daily summary of a task without a due
    date.  An evening-shift worker at 23:45 with a high-priority work task:
    tomorrow 17:00 (the evening peak) is past the end hour 0 of work, so it
    is moved to tomorrow 00:30; that is 45 minutes from now, outside quiet
    hours, and is scheduled although the minimum lead time is 60 minutes. *)
Lemma calculate_lead_time_counterexample :
  let now := at_time someDay 23 45 in
  let s := calculateNotificationSchedule now (frozen now)
             (sampleTask "high" None None (Some "work"))
             eveningProfile 0 eveningPreferences in
  exists n,
    In n (notifications s) /\
    type n = DailySummary /\
    time n = at_time (someDay + 1) 0 30 /\
    ~ (time n > now + minimumLeadTime eveningPreferences * 60 * 1000).
Proof.
  eexists. split; [left; reflexivity|].
  split; [reflexivity|]. split; [reflexivity|].
  vm_compute. intros H. discriminate H.
Qed.

Lemma calculate_notifications_admitted_witness :
  isInQuietHours (time scenarioReminder) DEFAULT_NOTIFICATION_PREFERENCES = false /\
  time scenarioReminder > scenarioNow + 5 * 60 * 1000.
Proof.
  assert (Hfm : ~ (frequencyMultiplier DEFAULT_NOTIFICATION_PREFERENCES == 0)%Q)
    by (vm_compute; discriminate).
  assert (Hin : In scenarioReminder
                  (notifications
                     (calculateNotificationSchedule scenarioNow (frozen scenarioNow)
                        scenarioTask officeProfile 0 DEFAULT_NOTIFICATION_PREFERENCES)))
    by (vm_compute; left; reflexivity).
  destruct (calculate_notifications_admitted _ _ _ _ _ _ _ Hfm Hin) as (Q & L & _ & _).
  split; [exact Q | apply L; discriminate].
Defined.

(* ================================================================= *)
(** ** Tasks without a due date *)

Lemma medium_no_due_date_empty now task profile preferences :
  priority task = "medium" ->
  noDueDateNotifications now task profile preferences = [].
Proof. intros H. unfold noDueDateNotifications. rewrite H. reflexivity. Qed.

Lemma not_work_no_due_date_empty now task profile preferences :
  isWorkTask task = false ->
  noDueDateNotifications now task profile preferences = [].
Proof.
  intros H. unfold noDueDateNotifications. rewrite H.
  destruct (priority task =? "high")%string; reflexivity.
Qed.

Lemma peak_start_range preference :
  8 <= range_start (getPeakEnergyHours preference) <= 17.
Proof.
  unfold getPeakEnergyHours. destruct preference as [p|]; [|simpl; lia].
  destruct (p =? "morning")%string; [simpl; lia|].
  destruct (p =? "afternoon")%string; [simpl; lia|].
  destruct (p =? "evening")%string; simpl; lia.
Qed.

(** Tomorrow's reminder, moved into work hours or not, is later than
    [now]. *)
Lemma tomorrow_is_later now profile (h : Z) :
  0 <= h < 24 ->
  validTimeOfDay (work_hours_start profile) ->
  validTimeOfDay (work_hours_end profile) ->
  now < adjustToWorkHours (setHours (addDays now 1) h 0) profile true.
Proof.
  intros Hh [[Hs0 Hs1] [Hs2 Hs3]] [[He0 He1] [He2 He3]].
  unfold adjustToWorkHours. cbn [negb].
  set (r := setHours (addDays now 1) h 0).
  assert (Hr : startOfDay r = startOfDay now + 86400000 /\ startOfDay now <= now < startOfDay now + 86400000 /\ startOfDay r <= r).
  { subst r. unfold setHours, addDays, startOfDay, MS_DAY, MS_HOUR, MS_MINUTE.
    change (24 * 60 * 60 * 1000) with 86400000.
    change (60 * 60 * 1000) with 3600000.
    change (60 * 1000) with 60000.
    Z.div_mod_to_equations. lia. }
  destruct Hr as (Hr1 & Hr2 & Hr3).
  destruct (getHours r <? _); [|destruct (getHours r >? _)];
    unfold setHours, MS_HOUR, MS_MINUTE; lia.
Qed.

(** For a work task the branch does what the specification says: one daily
    summary tomorrow at the peak hour, moved into work hours, unless that
    lies in quiet hours. *)
Lemma work_no_due_date_daily_summary now task profile preferences :
  priority task = "high" ->
  isWorkTask task = true ->
  validTimeOfDay (work_hours_start profile) ->
  validTimeOfDay (work_hours_end profile) ->
  let t := adjustToWorkHours
             (setHours (addDays now 1)
                (range_start (getPeakEnergyHours (peak_energy_time profile))) 0)
             profile true in
  (isInQuietHours t preferences = false ->
   exists n, noDueDateNotifications now task profile preferences = [n] /\
             type n = DailySummary /\ time n = t) /\
  (isInQuietHours t preferences = true ->
   noDueDateNotifications now task profile preferences = []).
Proof.
  intros Hp Hw Hs He t.
  assert (Hl : (t >? now) = true).
  { apply Z.gtb_lt. apply tomorrow_is_later; auto.
    pose proof (peak_start_range (peak_energy_time profile)). lia. }
  unfold noDueDateNotifications. rewrite Hp, Hw. simpl (_ =? _)%string. cbv iota zeta.
  fold t. rewrite Hl. split; intros Q; rewrite Q; simpl.
  - eexists. split; [reflexivity|]. split; reflexivity.
  - reflexivity.
Qed.

(** C2 at its failing input: at 10:00, a high-priority task of category
    "personal" without a due date gets no notification at all, where the
    same task of category "work" gets its daily summary, tomorrow at 09:00
    (the default peak hour, inside work hours and outside quiet hours). *)
Theorem no_due_date_daily_summary_only_for_work :
  let now := at_time someDay 10 0 in
  notifications
    (calculateNotificationSchedule now (frozen now)
       (sampleTask "high" None None (Some "personal"))
       officeProfile 0 DEFAULT_NOTIFICATION_PREFERENCES) = [] /\
  map (fun n => (time n, type n))
    (notifications
       (calculateNotificationSchedule now (frozen now)
          (sampleTask "high" None None (Some "work"))
          officeProfile 0 DEFAULT_NOTIFICATION_PREFERENCES))
  = [ (at_time (someDay + 1) 9 0, DailySummary) ].
Proof. split; reflexivity. Qed.

(* ================================================================= *)
(** ** Overdue tasks *)

(** The candidate of the overdue branch for a high priority. *)
Lemma nextReminder_candidate now preferences :
  dateOfNumber
    (roundToDouble
       (inject_Z now +
        roundToDouble
          (inject_Z (4 * 60 * 60 * 1000) / frequencyMultiplier preferences))%Q)
  = overdueCandidate now preferences.
Proof. reflexivity. Qed.

(** Doubles round where rationals do not: a third is not a double, and a
    double is left as it is. *)
Example roundToDouble_third :
  roundToDouble (1 # 3) = (6004799503160661 # 18014398509481984)%Q.
Proof. reflexivity. Qed.

Example roundToDouble_of_double :
  roundToDouble (frequencyMultiplier roundingPreferences)
  = frequencyMultiplier roundingPreferences.
Proof. reflexivity. Qed.

(** Four hours over 1.10667 from 18:23:07.991 come to 22:00:00.000, a
    millisecond later than the exact quotient would; the quiet hours begin
    there, and the overdue high-priority task gets no reminder. *)
Example overdueCandidate_rounds :
  let now := at_time someDay 18 23 + 7991 in
  let task := sampleTask "high" (Some (at_time (someDay - 2) 0 0)) None (Some "personal") in
  overdueCandidate now roundingPreferences = at_time someDay 22 0 /\
  now + Qfloor (inject_Z (4 * 60 * 60 * 1000) / frequencyMultiplier roundingPreferences)
    = at_time someDay 22 0 - 1 /\
  isInQuietHours (at_time someDay 22 0) roundingPreferences = true /\
  isInQuietHours (at_time someDay 22 0 - 1) roundingPreferences = false /\
  notifications
    (calculateNotificationSchedule now (frozen now) task officeProfile 0
       roundingPreferences) = [].
Proof. repeat split; vm_compute; reflexivity. Qed.




(* ================================================================= *)
(** ** Lead time by duration *)

(** C6, as the code has it: 30 from 120 minutes on, 20 from 60 up to 120,
    10 up to 30 except for a duration of 0, 15 in between, and 15 when the
    duration is undefined, null or 0, which [!durationMinutes] takes
    together. *)
Theorem getLeadTimeForDuration_steps (d : Z) :
  (120 <= d -> getLeadTimeForDuration (Some d) = 30) /\
  (60 <= d < 120 -> getLeadTimeForDuration (Some d) = 20) /\
  (d <= 30 -> d <> 0 -> getLeadTimeForDuration (Some d) = 10) /\
  (30 < d < 60 -> getLeadTimeForDuration (Some d) = 15) /\
  getLeadTimeForDuration (Some 0) = 15 /\
  getLeadTimeForDuration None = 15.
Proof.
  unfold getLeadTimeForDuration.
  repeat split; intros;
    destruct (d =? 0) eqn:E0; destruct (d >=? 120) eqn:E1;
    destruct (d >=? 60) eqn:E2; destruct (d <=? 30) eqn:E3;
    try reflexivity; lia.
Qed.

Lemma getLeadTimeForDuration_steps_witness :
  getLeadTimeForDuration (Some 90) = 20 /\ getLeadTimeForDuration (Some 25) = 10.
Proof.
  split.
  - apply (getLeadTimeForDuration_steps 90). lia.
  - apply (getLeadTimeForDuration_steps 25); lia.
Defined.

(** C6, as stated, fails at a duration of 0 minutes: it is at most 30 and
    the lead time is 15, not 10. *)
Lemma getLeadTimeForDuration_counterexample :
  0 <= 30 /\ getLeadTimeForDuration (Some 0) = 15 /\
  getLeadTimeForDuration (Some 0) <> 10.
Proof. repeat split; [lia | discriminate]. Qed.

(* ================================================================= *)
(** ** Quiet hours *)

(** C8: the quiet-hours test compares minutes of the day and, when the
    start lies after the end, takes the window around midnight: at or after
    the start, or at or before the end.  With quiet hours from 22:00 to
    07:00 a time at 23:30 is inside and a time at 08:00 is outside. *)
Theorem isInQuietHours_wraps (date : Date) (prefs : UserNotificationPreferences) :
  (todValue (quietHoursStart prefs) > todValue (quietHoursEnd prefs) ->
   isInQuietHours date prefs =
     (minuteOfDay date >=? todValue (quietHoursStart prefs)) ||
     (minuteOfDay date <=? todValue (quietHoursEnd prefs))) /\
  (quietHoursStart prefs = hm 22 0 -> quietHoursEnd prefs = hm 7 0 ->
   (getHours date = 23 -> getMinutes date = 30 -> isInQuietHours date prefs = true) /\
   (getHours date = 8 -> getMinutes date = 0 -> isInQuietHours date prefs = false)).
Proof.
  split.
  - intros H. unfold isInQuietHours.
    apply Z.gt_lt, Z.gtb_lt in H. rewrite H. reflexivity.
  - intros Hs He. unfold isInQuietHours, minuteOfDay. rewrite Hs, He.
    split; intros Hh Hm; rewrite Hh, Hm; reflexivity.
Qed.

Lemma isInQuietHours_wraps_witness :
  isInQuietHours (at_time someDay 23 30) DEFAULT_NOTIFICATION_PREFERENCES = true /\
  isInQuietHours (at_time someDay 8 0) DEFAULT_NOTIFICATION_PREFERENCES = false.
Proof.
  split.
  - apply (isInQuietHours_wraps (at_time someDay 23 30) DEFAULT_NOTIFICATION_PREFERENCES);
      reflexivity.
  - apply (isInQuietHours_wraps (at_time someDay 8 0) DEFAULT_NOTIFICATION_PREFERENCES);
      reflexivity.
Defined.

(* ================================================================= *)
(** ** Work hours *)

Lemma getHours_setHours (d : Date) (t : TimeOfDay) :
  validTimeOfDay t ->
  getHours (setHours d (tod_hour t) (tod_minute t)) = tod_hour t.
Proof.
  intros [[Hh0 Hh1] [Hm0 Hm1]].
  unfold getHours, setHours, startOfDay, MS_DAY, MS_HOUR, MS_MINUTE.
  change (24 * 60 * 60 * 1000) with 86400000.
  change (60 * 60 * 1000) with 3600000.
  change (60 * 1000) with 60000.
  Z.div_mod_to_equations. lia.
Qed.

Lemma getMinutes_range (d : Date) : 0 <= getMinutes d < 60.
Proof.
  unfold getMinutes, MS_HOUR, MS_MINUTE.
  change (60 * 60 * 1000) with 3600000.
  change (60 * 1000) with 60000.
  Z.div_mod_to_equations. lia.
Qed.

Lemma minuteOfDay_setHours (d : Date) (t : TimeOfDay) :
  validTimeOfDay t ->
  minuteOfDay (setHours d (tod_hour t) (tod_minute t)) = todValue t.
Proof.
  intros [[Hh0 Hh1] [Hm0 Hm1]].
  unfold minuteOfDay, todValue, getHours, getMinutes, setHours, startOfDay,
    MS_DAY, MS_HOUR, MS_MINUTE.
  change (24 * 60 * 60 * 1000) with 86400000.
  change (60 * 60 * 1000) with 3600000.
  change (60 * 1000) with 60000.
  Z.div_mod_to_equations. lia.
Qed.

(** A time within the work hours has its hour from the start hour to the
    end hour. *)
Lemma isWithinWorkHours_hour (t : Date) (profile : UserProfile) :
  validTimeOfDay (work_hours_start profile) ->
  validTimeOfDay (work_hours_end profile) ->
  isWithinWorkHours t profile = true ->
  tod_hour (work_hours_start profile) <= getHours t
    <= tod_hour (work_hours_end profile).
Proof.
  intros [_ [Hs0 Hs1]] [_ [He0 He1]] H.
  unfold isWithinWorkHours in H. cbv zeta in H.
  apply andb_true_iff in H. destruct H as [H1 H2].
  apply Z.geb_le in H1. apply Z.leb_le in H2.
  unfold minuteOfDay, todValue in H1, H2.
  pose proof (getMinutes_range t). lia.
Qed.

(** C7, as the code has it.  A task that is not a work task keeps its
    time.  For a work task, with or without a time of day on its due date:
    a time within the work hours is kept; a time whose hour is before the
    start hour moves to the start of work on its day; a time whose hour is
    after the end hour, and not before the start hour, moves to the end of
    work on its day; and when the work hours are in order the result lies
    within them in each of these cases.  (Times of day are valid.  Nothing
    is said of a time in the start hour before work starts or in the end
    hour after it ends.) *)
Theorem adjustToWorkHours_clamps (t : Date) (profile : UserProfile) :
  let startHour := tod_hour (work_hours_start profile) in
  let endHour := tod_hour (work_hours_end profile) in
  adjustToWorkHours t profile false = t /\
  (validTimeOfDay (work_hours_start profile) ->
   validTimeOfDay (work_hours_end profile) ->
   isWithinWorkHours t profile = true ->
   adjustToWorkHours t profile true = t) /\
  (getHours t < startHour ->
   adjustToWorkHours t profile true =
     setHours t startHour (tod_minute (work_hours_start profile))) /\
  (~ getHours t < startHour -> endHour < getHours t ->
   adjustToWorkHours t profile true =
     setHours t endHour (tod_minute (work_hours_end profile))) /\
  (validTimeOfDay (work_hours_start profile) ->
   validTimeOfDay (work_hours_end profile) ->
   todValue (work_hours_start profile) <= todValue (work_hours_end profile) ->
   isWithinWorkHours t profile = true \/ getHours t < startHour \/ endHour < getHours t ->
   isWithinWorkHours (adjustToWorkHours t profile true) profile = true).
Proof.
  intros startHour endHour.
  assert (Hkeep : validTimeOfDay (work_hours_start profile) ->
                  validTimeOfDay (work_hours_end profile) ->
                  isWithinWorkHours t profile = true ->
                  adjustToWorkHours t profile true = t).
  { intros Vs Ve H.
    destruct (isWithinWorkHours_hour t profile Vs Ve H) as [H1 H2].
    unfold adjustToWorkHours. cbn [negb]. cbv zeta.
    apply Z.ltb_ge in H1. rewrite H1.
    destruct (Z.gtb_spec (getHours t) (tod_hour (work_hours_end profile)));
      [lia | reflexivity]. }
  assert (Hstart : getHours t < startHour ->
                   adjustToWorkHours t profile true =
                     setHours t startHour (tod_minute (work_hours_start profile))).
  { intros H. unfold adjustToWorkHours. cbn [negb]. cbv zeta.
    apply Z.ltb_lt in H. fold startHour. rewrite H. reflexivity. }
  assert (Hend : ~ getHours t < startHour -> endHour < getHours t ->
                 adjustToWorkHours t profile true =
                   setHours t endHour (tod_minute (work_hours_end profile))).
  { intros H1 H2. unfold adjustToWorkHours. cbn [negb]. cbv zeta.
    fold startHour endHour.
    apply Z.nlt_ge, Z.ltb_ge in H1. rewrite H1.
    apply Z.gtb_lt in H2. rewrite H2. reflexivity. }
  split; [reflexivity|].
  split; [exact Hkeep|].
  split; [exact Hstart|].
  split; [exact Hend|].
  intros Vs Ve Hord Hcase.
  assert (Hs : isWithinWorkHours
                 (setHours t startHour (tod_minute (work_hours_start profile)))
                 profile = true).
  { unfold isWithinWorkHours. cbv zeta. subst startHour.
    rewrite minuteOfDay_setHours by exact Vs.
    apply andb_true_iff. split; [apply Z.geb_le; lia | apply Z.leb_le; exact Hord]. }
  assert (He : isWithinWorkHours
                 (setHours t endHour (tod_minute (work_hours_end profile)))
                 profile = true).
  { unfold isWithinWorkHours. cbv zeta. subst endHour.
    rewrite minuteOfDay_setHours by exact Ve.
    apply andb_true_iff. split; [apply Z.geb_le; lia | apply Z.leb_le; lia]. }
  destruct Hcase as [H | [H | H]].
  - rewrite (Hkeep Vs Ve H). exact H.
  - rewrite (Hstart H). exact Hs.
  - destruct (Z.lt_ge_cases (getHours t) startHour) as [L | L].
    + rewrite (Hstart L). exact Hs.
    + rewrite (Hend (proj2 (Z.nlt_ge _ _) L) H). exact He.
Qed.

Lemma adjustToWorkHours_clamps_witness :
  adjustToWorkHours (at_time someDay 11 20) halfHourProfile true = at_time someDay 11 20 /\
  adjustToWorkHours (at_time someDay 7 45) halfHourProfile true = at_time someDay 9 30 /\
  adjustToWorkHours (at_time someDay 20 15) halfHourProfile true = at_time someDay 17 30 /\
  isWithinWorkHours (adjustToWorkHours (at_time someDay 20 15) halfHourProfile true)
    halfHourProfile = true.
Proof.
  assert (Vs : validTimeOfDay (work_hours_start halfHourProfile))
    by (split; split; vm_compute; congruence).
  assert (Ve : validTimeOfDay (work_hours_end halfHourProfile))
    by (split; split; vm_compute; congruence).
  destruct (adjustToWorkHours_clamps (at_time someDay 11 20) halfHourProfile)
    as (_ & H1 & _).
  destruct (adjustToWorkHours_clamps (at_time someDay 7 45) halfHourProfile)
    as (_ & _ & H2 & _).
  destruct (adjustToWorkHours_clamps (at_time someDay 20 15) halfHourProfile)
    as (_ & _ & _ & H3 & H4).
  split; [|split; [|split]].
  - apply H1; [exact Vs | exact Ve | reflexivity].
  - rewrite H2; reflexivity.
  - rewrite H3;
      [reflexivity | vm_compute; intros H; discriminate H | reflexivity].
  - apply H4;
      [exact Vs | exact Ve | vm_compute; discriminate | right; right; reflexivity].
Defined.

(** C7, as stated, fails twice.  A work task due tomorrow without a time
    of day: its 09:00 candidate is moved to 10:00, the start of work.  And
    with work from 09:30 to 17:30 a time at 09:10 is kept, twenty minutes
    before work starts, as is a time at 17:45, after work has ended. *)
Lemma adjustToWorkHours_counterexample :
  let now := at_time someDay 10 0 in
  let due := at_time (someDay + 1) 0 0 in
  let task := sampleTask "high" (Some due) None (Some "work") in
  (hasSpecificTime due = false /\
   isWorkTask task = true /\
   adjustToWorkHours (setHours due 9 0) lateProfile (isWorkTask task)
     = at_time (someDay + 1) 10 0 /\
   setHours due 9 0 <> at_time (someDay + 1) 10 0 /\
   map time
     (notifications
        (calculateNotificationSchedule now (frozen now) task lateProfile 0
           reducedPreferences)) = [ at_time (someDay + 1) 10 0 ]) /\
  (adjustToWorkHours (at_time someDay 9 10) halfHourProfile true = at_time someDay 9 10 /\
   minuteOfDay (at_time someDay 9 10) < todValue (work_hours_start halfHourProfile) /\
   isWithinWorkHours (at_time someDay 9 10) halfHourProfile = false /\
   adjustToWorkHours (at_time someDay 17 45) halfHourProfile true = at_time someDay 17 45 /\
   minuteOfDay (at_time someDay 17 45) > todValue (work_hours_end halfHourProfile)).
Proof.
  repeat split; vm_compute; discriminate.
Qed.

(* ================================================================= *)
(** ** Time remaining *)

(** C9, as the code has it.  The difference is counted in whole minutes,
    rounded down.  A negative difference renders as "Due N {unit} ago", a
    difference of a minute or more as "Due in N {unit}", each with the
    largest unit that is not zero, days before hours before minutes, and N
    at least 1; a difference from zero up to a minute renders as
    "Due now". *)
Theorem formatTimeRemaining_renders (targetDate fromDate : Date) :
  let delta := targetDate - fromDate in
  let mins := delta / MS_MINUTE in
  (delta < 0 ->
   formatTimeRemaining targetDate fromDate = renderAgo (largestUnit (- mins)) /\
   1 <= fst (largestUnit (- mins))) /\
  (MS_MINUTE <= delta ->
   formatTimeRemaining targetDate fromDate = renderIn (largestUnit mins) /\
   1 <= fst (largestUnit mins)) /\
  (0 <= delta < MS_MINUTE ->
   formatTimeRemaining targetDate fromDate = "Due now").
Proof.
  intros delta mins.
  unfold formatTimeRemaining, largestUnit, renderAgo, renderIn.
  fold delta. fold mins.
  assert (Hm : mins * 60000 <= delta < mins * 60000 + 60000).
  { subst mins. unfold MS_MINUTE. change (60 * 1000) with 60000.
    Z.div_mod_to_equations. lia. }
  unfold MS_MINUTE. change (60 * 1000) with 60000.
  split; [|split].
  - intros Hd.
    assert (Hneg : mins < 0) by lia.
    apply Z.ltb_lt in Hneg as Hb. rewrite Hb.
    rewrite Z.abs_neq by lia.
    destruct (- mins / 60 / 24 >? 0) eqn:Ed.
    + split; [reflexivity|]. simpl. apply Z.gtb_lt in Ed. lia.
    + destruct (- mins / 60 >? 0) eqn:Eh.
      * split; [reflexivity|]. simpl. apply Z.gtb_lt in Eh. lia.
      * split; [reflexivity|]. simpl. lia.
  - intros Hd.
    assert (Hpos : 1 <= mins) by lia.
    destruct (mins <? 0) eqn:Hb; [apply Z.ltb_lt in Hb; lia|].
    destruct (mins / 60 / 24 >? 0) eqn:Ed.
    + split; [reflexivity|]. simpl. apply Z.gtb_lt in Ed. lia.
    + destruct (mins / 60 >? 0) eqn:Eh.
      * split; [reflexivity|]. simpl. apply Z.gtb_lt in Eh. lia.
      * assert (Hg : (mins >? 0) = true) by (apply Z.gtb_lt; lia).
        rewrite Hg. split; [reflexivity|]. simpl. lia.
  - intros Hd.
    assert (H0 : mins = 0) by lia.
    rewrite H0. reflexivity.
Qed.

Lemma formatTimeRemaining_renders_witness :
  formatTimeRemaining (at_time someDay 15 0) (at_time someDay 10 0) = "Due in 5 hours" /\
  formatTimeRemaining (at_time someDay 10 0) (at_time (someDay + 2) 10 0 + 1) = "Due 2 days ago" /\
  formatTimeRemaining (at_time someDay 10 0) (at_time someDay 10 0) = "Due now".
Proof.
  destruct (formatTimeRemaining_renders (at_time someDay 15 0) (at_time someDay 10 0))
    as (_ & H1 & _).
  destruct (formatTimeRemaining_renders (at_time someDay 10 0) (at_time (someDay + 2) 10 0 + 1))
    as (H2 & _ & _).
  destruct (formatTimeRemaining_renders (at_time someDay 10 0) (at_time someDay 10 0))
    as (_ & _ & H3).
  split; [|split].
  - destruct H1 as [H1 _]; [vm_compute; discriminate|]. rewrite H1. reflexivity.
  - destruct H2 as [H2 _]; [reflexivity|]. rewrite H2. reflexivity.
  - apply H3. split; [vm_compute; discriminate | reflexivity].
Defined.

(** C9, as stated, fails for a difference under a minute: thirty seconds
    ahead is neither negative nor zero, and renders as "Due now", which is
    not of the form "Due in N {unit}". *)
Lemma formatTimeRemaining_counterexample :
  let fromDate := at_time someDay 10 0 in
  let targetDate := fromDate + 30 * 1000 in
  0 <= targetDate - fromDate /\
  targetDate - fromDate <> 0 /\
  formatTimeRemaining targetDate fromDate = "Due now" /\
  forall p, formatTimeRemaining targetDate fromDate <> renderIn p.
Proof.
  intros fromDate targetDate.
  split; [vm_compute; discriminate|].
  split; [vm_compute; discriminate|].
  split; [reflexivity|].
  intros [n u] H.
  change (formatTimeRemaining targetDate fromDate) with "Due now" in H.
  unfold renderIn in H. simpl in H. discriminate H.
Qed.

(* ================================================================= *)
(** ** Where the notifications of a task with a due date come from *)

Section Provenance.

Variable now : Date.
Variable later : nat -> Date.
Variable task : Task.
Variable profile : UserProfile.
Variable existingOverdueReminders : Z.
Variable preferences : UserNotificationPreferences.
Variable dueDate : Date.

Let add := addNotification now later task profile existingOverdueReminders preferences dueDate.
Let addF := addIfFuture now later task profile existingOverdueReminders preferences dueDate.
Let site := callSite now task existingOverdueReminders preferences dueDate.
Let entry := entryOf task profile existingOverdueReminders dueDate.
Let fromSite :=
  fromCallSite now later task profile existingOverdueReminders preferences dueDate.

(** A call from a call site keeps a list of such entries one. *)
Lemma add_fromSite t why ty pl acc :
  site t why ty pl -> Forall fromSite acc -> Forall fromSite (add t why ty pl acc).
Proof.
  intros Hs F. unfold add, addNotification.
  destruct (isInQuietHours _ preferences); [exact F|].
  destruct (_ <=? _); [exact F|].
  apply Forall_app. split; [exact F|].
  constructor; [|constructor].
  exists t, why, (List.length acc). split; [exact Hs | reflexivity].
Qed.

Lemma addF_fromSite t why ty pl acc :
  (now < t -> site t why ty pl) ->
  Forall fromSite acc -> Forall fromSite (addF t why ty pl acc).
Proof.
  intros Hs F. unfold addF, addIfFuture.
  destruct (t >? now) eqn:E; [|exact F].
  apply Z.gtb_lt in E. apply add_fromSite; auto.
Qed.

Hypothesis not_overdue : startOfDay now <= startOfDay dueDate.

Lemma highSpecificTime_fromSite acc :
  priority task = "high" -> hasSpecificTime dueDate = true ->
  Forall fromSite acc ->
  Forall fromSite
    (highSpecificTime now later task profile existingOverdueReminders preferences
       dueDate acc).
Proof.
  intros Hp Hs F. unfold highSpecificTime.
  set (a1 := if negb _ then _ else acc).
  assert (F1 : Forall fromSite a1).
  { subst a1. destruct (shouldReduceNotifications preferences) eqn:R; simpl; [exact F|].
    apply addF_fromSite; [|exact F]. intros L. now apply site_high_24h. }
  set (a2 := addIfFuture _ _ _ _ _ _ _ _ _ _ _ a1).
  assert (F2 : Forall fromSite a2).
  { apply addF_fromSite; [|exact F1]. intros L. now apply site_high_2h. }
  set (a3 := addIfFuture _ _ _ _ _ _ _ _ _ _ _ a2).
  assert (F3 : Forall fromSite a3).
  { apply addF_fromSite; [|exact F2]. intros L. now apply site_high_final. }
  destruct (shouldAddExtraNotifications preferences) eqn:X; [|exact F3].
  apply addF_fromSite; [|exact F3]. intros L. now apply site_high_6h.
Qed.

Lemma dateOnly_loop_fromSite (times : list (Z * Z * string)) acc :
  priority task = "high" -> hasSpecificTime dueDate = false ->
  incl times (dateOnlyTimes preferences) ->
  Forall fromSite acc ->
  Forall fromSite
    (fold_left
       (fun acc '(hour, minute, label) =>
          addIfFuture now later task profile existingOverdueReminders preferences
            dueDate (setHours dueDate hour minute)
            ("High priority due date - " ++ label ++ " reminder") Reminder High acc)
       times acc).
Proof.
  intros Hp Hs. revert acc.
  induction times as [|[[h m] lbl] times IH]; intros acc Hi F; simpl; [exact F|].
  apply IH.
  - intros x Hx. apply Hi. now right.
  - apply addF_fromSite; [|exact F]. intros L.
    apply site_high_day; auto. apply Hi. now left.
Qed.

Lemma highDateOnly_fromSite acc :
  priority task = "high" -> hasSpecificTime dueDate = false ->
  Forall fromSite acc ->
  Forall fromSite
    (highDateOnly now later task profile existingOverdueReminders preferences
       dueDate (startOfDay dueDate =? startOfDay now) acc).
Proof.
  intros Hp Hs F. unfold highDateOnly.
  set (a1 := fold_left _ _ acc).
  assert (F1 : Forall fromSite a1).
  { apply dateOnly_loop_fromSite; auto. apply incl_refl. }
  destruct (shouldReduceNotifications preferences) eqn:R; simpl; [exact F1|].
  destruct (_ && _) eqn:E; [|exact F1].
  apply andb_true_iff in E. destruct E as [E1 E2].
  apply Z.gtb_lt in E1. apply negb_true_iff, Z.eqb_neq in E2.
  apply add_fromSite; [|exact F1].
  apply site_high_day_before; auto. lia.
Qed.

Lemma mediumNotifications_fromSite acc :
  priority task = "medium" ->
  Forall fromSite acc ->
  Forall fromSite
    (mediumNotifications now later task profile existingOverdueReminders preferences
       dueDate (hasSpecificTime dueDate) acc).
Proof.
  intros Hp F. unfold mediumNotifications.
  destruct (hasSpecificTime dueDate) eqn:Hs.
  - set (a1 := addIfFuture _ _ _ _ _ _ _ _ _ _ _ acc).
    assert (F1 : Forall fromSite a1).
    { apply addF_fromSite; [|exact F]. intros L. now apply site_medium_2h. }
    destruct (shouldAddExtraNotifications preferences) eqn:X; [|exact F1].
    apply addF_fromSite; [|exact F1]. intros L. now apply site_medium_15min.
  - apply addF_fromSite; [|exact F]. intros L. now apply site_medium_day.
Qed.

Lemma upcomingNotifications_fromSite :
  Forall fromSite
    (upcomingNotifications now later task profile existingOverdueReminders preferences
       dueDate (startOfDay dueDate =? startOfDay now) (hasSpecificTime dueDate)).
Proof.
  unfold upcomingNotifications.
  eapply Permutation_Forall; [apply Permutation_sym, sortByTime_perm|].
  destruct (priority task =? "high")%string eqn:Hh.
  - rewrite (high_not_medium _ Hh). apply String.eqb_eq in Hh.
    destruct (hasSpecificTime dueDate) eqn:Hs.
    + apply highSpecificTime_fromSite; auto.
    + apply highDateOnly_fromSite; auto.
  - destruct (priority task =? "medium")%string eqn:Hm; [|constructor].
    apply String.eqb_eq in Hm. apply mediumNotifications_fromSite; auto.
Qed.

End Provenance.

Lemma overdueNotifications_fromSite
    now later task profile existingOverdueReminders preferences dueDate :
  startOfDay dueDate < startOfDay now ->
  Forall (fromCallSite now later task profile existingOverdueReminders preferences dueDate)
    (overdueNotifications now later task profile existingOverdueReminders preferences
       dueDate).
Proof.
  intros Hov. unfold overdueNotifications.
  destruct (priority task =? "high")%string eqn:Hh.
  - apply String.eqb_eq in Hh.
    destruct (existingOverdueReminders <? 3) eqn:E; [|constructor].
    apply Z.ltb_lt in E. rewrite nextReminder_candidate.
    apply add_fromSite; [|constructor]. now apply site_overdue_high.
  - destruct (priority task =? "medium")%string eqn:Hm; [|constructor].
    apply String.eqb_eq in Hm.
    apply add_fromSite; [|constructor]. now apply site_overdue_medium.
Qed.

(** Every notification of a task with a due date was pushed by one of the
    calls of [addNotification], with the arguments of that call. *)
Lemma notifications_fromCallSite
    now later task profile existingOverdueReminders preferences dueDate :
  due_date task = Some dueDate ->
  Forall (fromCallSite now later task profile existingOverdueReminders preferences dueDate)
    (notifications
       (calculateNotificationSchedule now later task profile
          existingOverdueReminders preferences)).
Proof.
  intros Hd. unfold calculateNotificationSchedule, emptySchedule. rewrite Hd.
  destruct (status task =? "completed")%string; [constructor|].
  destruct (includes _ _); [constructor|].
  destruct (priority task =? "low")%string; [constructor|].
  destruct (startOfDay dueDate <? startOfDay now) eqn:E; simpl.
  - apply Z.ltb_lt in E. now apply overdueNotifications_fromSite.
  - apply Z.ltb_ge in E. now apply upcomingNotifications_fromSite.
Qed.

(* ================================================================= *)
(** ** Kinds of notification *)

(** The daily summary, when there is one. *)
Lemma noDueDateNotifications_entry now task profile preferences n :
  In n (noDueDateNotifications now task profile preferences) ->
  priority task = "high" /\ isWorkTask task = true /\
  n = {| time := adjustToWorkHours
                   (setHours (addDays now 1)
                      (range_start (getPeakEnergyHours (peak_energy_time profile))) 0)
                   profile true;
         reason := "High priority task without deadline - peak energy reminder";
         type := DailySummary; n_priority := High;
         content := generateNotificationContent task DailySummary None 0 now |}.
Proof.
  unfold noDueDateNotifications.
  destruct (priority task =? "high")%string eqn:Hp; [|intros []].
  destruct (isWorkTask task); [|intros []].
  destruct (_ && _); [|intros []].
  intros [<- | []]. apply String.eqb_eq in Hp. auto.
Qed.

Lemma notifications_no_due_date
    now later task profile existingOverdueReminders preferences n :
  due_date task = None ->
  In n (notifications
          (calculateNotificationSchedule now later task profile
             existingOverdueReminders preferences)) ->
  In n (noDueDateNotifications now task profile preferences).
Proof.
  intros Hd. unfold calculateNotificationSchedule, emptySchedule. rewrite Hd.
  destruct (status task =? "completed")%string; [intros []|].
  destruct (includes _ _); [intros []|].
  destruct (priority task =? "low")%string; [intros []|].
  simpl. auto.
Qed.

(** X1: The priority a notification is tagged with is the priority of its
    task, high or medium, never low; a daily summary is what a task
    without a due date gets and nothing else is; a notification of type
    overdue is what a task due before today gets and nothing else is; and
    an advance notice goes to high priority only. *)
Theorem notification_kinds
    now later task profile existingOverdueReminders preferences n :
  In n (notifications
          (calculateNotificationSchedule now later task profile
             existingOverdueReminders preferences)) ->
  (n_priority n = High /\ priority task = "high" \/
   n_priority n = Medium /\ priority task = "medium") /\
  (type n = DailySummary <-> due_date task = None) /\
  (type n = Overdue <->
   exists due, due_date task = Some due /\ startOfDay due < startOfDay now) /\
  (type n = AdvanceNotice -> priority task = "high").
Proof.
  intros Hin. destruct (due_date task) as [due|] eqn:Hd.
  - pose proof (notifications_fromCallSite now later task profile
                  existingOverdueReminders preferences due Hd) as F.
    rewrite Forall_forall in F. destruct (F n Hin) as (t & why & k & Hs & _).
    remember (type n) as ty eqn:Ety. remember (n_priority n) as pl eqn:Epl.
    clear Ety Epl F Hin.
    destruct Hs;
      (split; [auto|]);
      (split; [split; discriminate|]);
      (split; [|first [discriminate | auto]]);
      (split;
       [ first [discriminate | intros _; exists due; split; [reflexivity | assumption]]
       | first [reflexivity | intros (d & Ed & Hlt); injection Ed as ->; lia] ]).
  - apply notifications_no_due_date in Hin; [|exact Hd].
    apply noDueDateNotifications_entry in Hin. destruct Hin as (Hp & _ & ->).
    simpl. split; [auto|]. split; [tauto|]. split; [|discriminate].
    split; [discriminate | intros (d & Ed & _); discriminate].
Qed.

Lemma notification_kinds_witness :
  n_priority scenarioReminder = High /\ type scenarioReminder <> Overdue.
Proof.
  assert (Hin : In scenarioReminder
                  (notifications
                     (calculateNotificationSchedule scenarioNow (frozen scenarioNow)
                        scenarioTask officeProfile 0 DEFAULT_NOTIFICATION_PREFERENCES)))
    by (vm_compute; left; reflexivity).
  destruct (notification_kinds _ _ _ _ _ _ _ Hin) as (Hp & _ & _ & _).
  split; [|discriminate].
  destruct Hp as [[Hp _] | [_ Hp]]; [exact Hp | discriminate Hp].
Defined.

(* ================================================================= *)
(** ** Content of the notifications *)

Lemma content_of_due_task task ty due existing clock :
  priority task = "high" \/ priority task = "medium" ->
  ty <> DailySummary ->
  urgencyLevel (generateNotificationContent task ty (Some due) existing clock)
    = urgencyFor (priority task) ty /\
  timeRemaining (generateNotificationContent task ty (Some due) existing clock)
    = Some (formatTimeRemaining due clock).
Proof.
  intros [Hp | Hp] Hty; unfold generateNotificationContent, urgencyFor; rewrite Hp;
    simpl (_ =? _)%string; cbv iota; destruct ty; simpl; auto; contradiction.
Qed.

(** X2: The content of a notification agrees with its kind.  Its urgency is
    "overdue" exactly for the type overdue, and otherwise "urgent" for a
    high and "normal" for a medium priority, never "low".  It carries the
    time remaining to the due date, as rendered at a later reading of the
    clock, exactly when the task has a due date. *)
Theorem notification_content
    now later task profile existingOverdueReminders preferences n :
  In n (notifications
          (calculateNotificationSchedule now later task profile
             existingOverdueReminders preferences)) ->
  urgencyLevel (content n) = urgencyFor (priority task) (type n) /\
  (urgencyLevel (content n) = UOverdue <-> type n = Overdue) /\
  match due_date task with
  | Some due =>
      exists k, timeRemaining (content n) = Some (formatTimeRemaining due (later k))
  | None => timeRemaining (content n) = None
  end.
Proof.
  intros Hin. destruct (due_date task) as [due|] eqn:Hd.
  - pose proof (notifications_fromCallSite now later task profile
                  existingOverdueReminders preferences due Hd) as F.
    rewrite Forall_forall in F. destruct (F n Hin) as (t & why & k & Hs & Heq).
    assert (Hc : content n =
                 generateNotificationContent task (type n) (Some due)
                   existingOverdueReminders (later k))
      by exact (f_equal content Heq).
    assert (Hk : (priority task = "high" \/ priority task = "medium") /\
                 type n <> DailySummary).
    { clear Heq Hc. remember (type n) as ty. remember (n_priority n) as pl.
      destruct Hs; split; auto; discriminate. }
    destruct Hk as [Hp Hty].
    destruct (content_of_due_task task (type n) due existingOverdueReminders
                (later k) Hp Hty) as [Hu Ht].
    rewrite Hc, Hu. split; [reflexivity|]. split.
    + unfold urgencyFor.
      destruct (type n); destruct (priority task =? "high")%string;
        split; (reflexivity || discriminate).
    + exists k. exact Ht.
  - apply notifications_no_due_date in Hin; [|exact Hd].
    apply noDueDateNotifications_entry in Hin. destruct Hin as (Hp & _ & ->).
    simpl. unfold generateNotificationContent. rewrite Hp. simpl.
    repeat split; discriminate.
Qed.

Lemma notification_content_witness :
  urgencyLevel (content scenarioReminder) = UUrgent /\
  exists k, timeRemaining (content scenarioReminder)
            = Some (formatTimeRemaining (at_time someDay 15 0) (frozen scenarioNow k)).
Proof.
  assert (Hin : In scenarioReminder
                  (notifications
                     (calculateNotificationSchedule scenarioNow (frozen scenarioNow)
                        scenarioTask officeProfile 0 DEFAULT_NOTIFICATION_PREFERENCES)))
    by (vm_compute; left; reflexivity).
  destruct (notification_content _ _ _ _ _ _ _ Hin) as (Hu & _ & Ht).
  split; [exact Hu | exact Ht].
Defined.

(* ================================================================= *)
(** ** Nothing that passes the gate is lost *)

Section Completeness.

Variable now : Date.
Variable later : nat -> Date.
Variable task : Task.
Variable profile : UserProfile.
Variable existingOverdueReminders : Z.
Variable preferences : UserNotificationPreferences.
Variable dueDate : Date.

Let add := addNotification now later task profile existingOverdueReminders preferences dueDate.
Let addF := addIfFuture now later task profile existingOverdueReminders preferences dueDate.
Let entry := entryOf task profile existingOverdueReminders dueDate.

(** The candidate [t] passes the gate. *)
Let passes (t : Date) : Prop :=
  let adjusted := adjustToWorkHours t profile (isWorkTask task) in
  isInQuietHours adjusted preferences = false /\
  now + minimumLeadTime preferences * 60 * 1000 < adjusted.

(** [l] holds an entry for the call with these arguments. *)
Let holds (l : list ScheduledNotificationTime) t why ty pl : Prop :=
  exists k, In (entry t why ty pl (later k)) l.

Lemma add_incl t why ty pl acc : incl acc (add t why ty pl acc).
Proof.
  unfold add, addNotification.
  destruct (isInQuietHours _ preferences); [apply incl_refl|].
  destruct (_ <=? _); [apply incl_refl|].
  apply incl_appl, incl_refl.
Qed.

Lemma addF_incl t why ty pl acc : incl acc (addF t why ty pl acc).
Proof.
  unfold addF, addIfFuture. destruct (t >? now); [apply add_incl | apply incl_refl].
Qed.

Lemma add_holds t why ty pl acc :
  passes t -> holds (add t why ty pl acc) t why ty pl.
Proof.
  intros [Q L]. unfold holds, add, addNotification. cbv zeta in Q, L. rewrite Q.
  destruct (_ <=? _) eqn:E; [apply Z.leb_le in E; lia|].
  exists (List.length acc). apply in_or_app. right. left. reflexivity.
Qed.

Lemma addF_holds t why ty pl acc :
  now < t -> passes t -> holds (addF t why ty pl acc) t why ty pl.
Proof.
  intros Hn Hp. unfold addF, addIfFuture.
  apply Z.gtb_lt in Hn. rewrite Hn. now apply add_holds.
Qed.

Lemma holds_incl l l' t why ty pl :
  incl l l' -> holds l t why ty pl -> holds l' t why ty pl.
Proof. intros Hi [k Hk]. exists k. now apply Hi. Qed.

Lemma dateOnly_loop_incl (times : list (Z * Z * string)) acc :
  incl acc
    (fold_left
       (fun acc '(hour, minute, label) =>
          addIfFuture now later task profile existingOverdueReminders preferences
            dueDate (setHours dueDate hour minute)
            ("High priority due date - " ++ label ++ " reminder") Reminder High acc)
       times acc).
Proof.
  revert acc. induction times as [|[[h m] lbl] times IH]; intros acc; simpl.
  - apply incl_refl.
  - eapply incl_tran; [apply addF_incl | apply IH].
Qed.

Lemma dateOnly_loop_holds (times : list (Z * Z * string)) acc hour minute label :
  In (hour, minute, label) times ->
  now < setHours dueDate hour minute -> passes (setHours dueDate hour minute) ->
  holds
    (fold_left
       (fun acc '(hour, minute, label) =>
          addIfFuture now later task profile existingOverdueReminders preferences
            dueDate (setHours dueDate hour minute)
            ("High priority due date - " ++ label ++ " reminder") Reminder High acc)
       times acc)
    (setHours dueDate hour minute)
    ("High priority due date - " ++ label ++ " reminder") Reminder High.
Proof.
  revert acc. induction times as [|[[h m] lbl] times IH]; intros acc Hin Hn Hp; simpl.
  - destruct Hin.
  - destruct Hin as [E | Hin].
    + injection E as -> -> ->.
      eapply holds_incl; [apply dateOnly_loop_incl|]. now apply addF_holds.
    + now apply IH.
Qed.

(** A call site whose candidate passes the gate has its entry in the
    schedule. *)
Lemma callSite_holds t why ty pl :
  status task <> "completed" ->
  ~ In (priority task) (disabledPriorities preferences) ->
  due_date task = Some dueDate ->
  callSite now task existingOverdueReminders preferences dueDate t why ty pl ->
  passes t ->
  holds
    (notifications
       (calculateNotificationSchedule now later task profile
          existingOverdueReminders preferences))
    t why ty pl.
Proof.
  intros Hst Hdis Hd Hs Hp.
  assert (Hnl : priority task <> "low") by (destruct Hs; congruence).
  unfold calculateNotificationSchedule.
  apply String.eqb_neq in Hst. rewrite Hst.
  destruct (includes _ _) eqn:Hi; [apply includes_In in Hi; contradiction|].
  apply String.eqb_neq in Hnl. rewrite Hnl. rewrite Hd. cbv zeta.
  assert (Hsort : forall l, holds l t why ty pl -> holds (sortByTime l) t why ty pl).
  { intros l [k Hk]. exists k.
    eapply Permutation_in; [apply Permutation_sym, sortByTime_perm | exact Hk]. }
  destruct Hs as
    [ Hov Hpr Hex | Hov Hpr
    | Hno Hpr Hsp Hre Hn | Hno Hpr Hsp Hn | Hno Hpr Hsp Hn | Hno Hpr Hsp Hx Hn
    | hour minute label Hno Hpr Hsp Hin Hn | Hno Hpr Hsp Hre Hn
    | Hno Hpr Hsp Hn | Hno Hpr Hsp Hx Hn | Hno Hpr Hsp Hn ].
  1, 2: apply Z.ltb_lt in Hov; rewrite Hov; simpl; unfold overdueNotifications;
        rewrite Hpr; simpl (_ =? _)%string; cbv iota.
  3 - 11: assert (Hno' : (startOfDay dueDate <? startOfDay now) = false)
            by (apply Z.ltb_ge; lia);
          rewrite Hno'; simpl;
          unfold upcomingNotifications; apply Hsort;
          rewrite Hpr; simpl (_ =? _)%string; cbv iota zeta; rewrite Hsp.
  - apply Z.ltb_lt in Hex. rewrite Hex. rewrite nextReminder_candidate.
    now apply add_holds.
  - now apply add_holds.
  - unfold highSpecificTime. rewrite Hre. cbn [negb].
    destruct (shouldAddExtraNotifications preferences);
      repeat (first [now apply addF_holds | eapply holds_incl; [apply addF_incl|]]).
  - unfold highSpecificTime.
    destruct (shouldAddExtraNotifications preferences);
      repeat (first [now apply addF_holds | eapply holds_incl; [apply addF_incl|]]).
  - unfold highSpecificTime.
    destruct (shouldAddExtraNotifications preferences);
      repeat (first [now apply addF_holds | eapply holds_incl; [apply addF_incl|]]).
  - unfold highSpecificTime. rewrite Hx. now apply addF_holds.
  - unfold highDateOnly.
    assert (H1 : holds
                   (fold_left
                      (fun acc '(hour, minute, label) =>
                         addIfFuture now later task profile existingOverdueReminders
                           preferences dueDate (setHours dueDate hour minute)
                           ("High priority due date - " ++ label ++ " reminder")
                           Reminder High acc)
                      (dateOnlyTimes preferences) [])
                   (setHours dueDate hour minute)
                   ("High priority due date - " ++ label ++ " reminder") Reminder High)
      by now apply dateOnly_loop_holds.
    destruct (negb _); [|exact H1].
    destruct (_ && _); [|exact H1].
    eapply holds_incl; [apply add_incl | exact H1].
  - unfold highDateOnly. rewrite Hre. cbn [negb].
    assert (E : ((setHours (dueDate - 24 * 60 * 60 * 1000) 9 0 >? now)
                 && negb (startOfDay dueDate =? startOfDay now)) = true).
    { apply andb_true_iff. split; [apply Z.gtb_lt; exact Hn|].
      apply negb_true_iff, Z.eqb_neq. lia. }
    rewrite E. now apply add_holds.
  - unfold mediumNotifications.
    destruct (shouldAddExtraNotifications preferences);
      repeat (first [now apply addF_holds | eapply holds_incl; [apply addF_incl|]]).
  - unfold mediumNotifications. rewrite Hx. now apply addF_holds.
  - unfold mediumNotifications. now apply addF_holds.
Qed.

End Completeness.

(* ================================================================= *)
(** ** The schedule of a task due today or later *)

Section Plan.

Variable now : Date.
Variable task : Task.
Variable existingOverdueReminders : Z.
Variable preferences : UserNotificationPreferences.
Variable dueDate : Date.

Hypothesis not_overdue : startOfDay now <= startOfDay dueDate.

Lemma callSite_planned t why ty pl :
  callSite now task existingOverdueReminders preferences dueDate t why ty pl ->
  In (ty, t) (plannedTimes task preferences now dueDate) /\ now < t.
Proof.
  intros Hs. unfold plannedTimes.
  destruct Hs as
    [ Hov Hpr Hex | Hov Hpr
    | Hno Hpr Hsp Hre Hn | Hno Hpr Hsp Hn | Hno Hpr Hsp Hn | Hno Hpr Hsp Hx Hn
    | hour minute label Hno Hpr Hsp Hin Hn | Hno Hpr Hsp Hre Hn
    | Hno Hpr Hsp Hn | Hno Hpr Hsp Hx Hn | Hno Hpr Hsp Hn ];
    try lia; rewrite Hpr; simpl (_ =? _)%string; cbv iota zeta; rewrite Hsp;
    (split; [|exact Hn]).
  - rewrite Hre. simpl. auto.
  - destruct (shouldReduceNotifications preferences); simpl; auto.
  - destruct (shouldReduceNotifications preferences); simpl; auto.
  - rewrite Hx. apply in_or_app. right. simpl. auto.
  - apply in_or_app. left.
    apply (in_map (fun '(hour, minute, _) => (Reminder, setHours dueDate hour minute))
             _ _ Hin).
  - rewrite Hre. apply in_or_app. right.
    destruct (Z.eqb_spec (startOfDay dueDate) (startOfDay now)); [lia|].
    simpl. auto.
  - simpl. auto.
  - rewrite Hx. simpl. auto.
  - simpl. auto.
Qed.

Lemma planned_callSite ty t :
  In (ty, t) (plannedTimes task preferences now dueDate) -> now < t ->
  exists why pl,
    callSite now task existingOverdueReminders preferences dueDate t why ty pl.
Proof.
  unfold plannedTimes. intros Hin Hn.
  destruct (priority task =? "high")%string eqn:Hh.
  - apply String.eqb_eq in Hh.
    destruct (hasSpecificTime dueDate) eqn:Hsp.
    + apply in_app_or in Hin. destruct Hin as [Hin | Hin].
      * destruct (shouldReduceNotifications preferences) eqn:Hre; [destruct Hin|].
        destruct Hin as [E | []]. injection E as <- <-.
        do 2 eexists. now apply site_high_24h.
      * destruct Hin as [E | [E | Hin]].
        -- injection E as <- <-. do 2 eexists. now apply site_high_2h.
        -- injection E as <- <-. do 2 eexists. now apply site_high_final.
        -- destruct (shouldAddExtraNotifications preferences) eqn:Hx; [|destruct Hin].
           destruct Hin as [E | []]. injection E as <- <-.
           do 2 eexists. now apply site_high_6h.
    + apply in_app_or in Hin. destruct Hin as [Hin | Hin].
      * apply in_map_iff in Hin. destruct Hin as ([[h m] lbl] & E & Hin).
        injection E as <- <-. do 2 eexists. now apply (site_high_day _ _ _ _ _ h m lbl).
      * destruct (shouldReduceNotifications preferences) eqn:Hre; [destruct Hin|].
        destruct (Z.eqb_spec (startOfDay dueDate) (startOfDay now)) as [|Hne];
          [destruct Hin|].
        destruct Hin as [E | []]. injection E as <- <-.
        do 2 eexists. apply site_high_day_before; auto. lia.
  - destruct (priority task =? "medium")%string eqn:Hm; [|destruct Hin].
    apply String.eqb_eq in Hm.
    destruct (hasSpecificTime dueDate) eqn:Hsp.
    + destruct Hin as [E | Hin].
      * injection E as <- <-. do 2 eexists. now apply site_medium_2h.
      * destruct (shouldAddExtraNotifications preferences) eqn:Hx; [|destruct Hin].
        destruct Hin as [E | []]. injection E as <- <-.
        do 2 eexists. now apply site_medium_15min.
    + destruct Hin as [E | []]. injection E as <- <-.
      do 2 eexists. now apply site_medium_day.
Qed.

End Plan.

(** X3: The schedule of a task that is due today or later, neither completed
    nor disabled, is its plan after the admission gate, no more and no
    less: there is a notification of type [ty] at time [t'] exactly when
    the plan has an entry of type [ty] at a time [t] later than [now] whose
    work-hour adjustment is [t'], outside quiet hours and later than [now]
    plus the minimum lead time. *)
Theorem upcoming_schedule_is_admitted_plan
    now later task profile existingOverdueReminders preferences dueDate ty t' :
  status task <> "completed" ->
  ~ In (priority task) (disabledPriorities preferences) ->
  due_date task = Some dueDate ->
  startOfDay now <= startOfDay dueDate ->
  (exists n,
     In n (notifications
             (calculateNotificationSchedule now later task profile
                existingOverdueReminders preferences)) /\
     type n = ty /\ time n = t')
  <->
  (exists t,
     In (ty, t) (plannedTimes task preferences now dueDate) /\
     now < t /\
     t' = adjustToWorkHours t profile (isWorkTask task) /\
     isInQuietHours t' preferences = false /\
     now + minimumLeadTime preferences * 60 * 1000 < t').
Proof.
  intros Hst Hdis Hd Hno. split.
  - intros (n & Hin & <- & <-).
    pose proof (notifications_fromCallSite now later task profile
                  existingOverdueReminders preferences dueDate Hd) as F.
    pose proof (due_date_notifications_admitted now later task profile
                  existingOverdueReminders preferences dueDate Hd) as A.
    rewrite Forall_forall in F, A.
    destruct (F n Hin) as (t & why & k & Hs & Heq).
    destruct (A n Hin) as [Q L].
    destruct (callSite_planned _ _ _ _ _ Hno _ _ _ _ Hs) as [Hp Hn].
    exists t. repeat split; auto; [|lia].
    exact (f_equal time Heq).
  - intros (t & Hp & Hn & -> & Q & L).
    destruct (planned_callSite now task existingOverdueReminders preferences dueDate
                Hno ty t Hp Hn) as (why & pl & Hs).
    destruct (callSite_holds now later task profile existingOverdueReminders
                preferences dueDate t why ty pl Hst Hdis Hd Hs (conj Q L)) as [k Hk].
    eexists. split; [exact Hk|]. split; reflexivity.
Qed.

Lemma upcoming_schedule_is_admitted_plan_witness :
  exists n,
    In n (notifications
            (calculateNotificationSchedule scenarioNow (frozen scenarioNow)
               scenarioTask officeProfile 0 DEFAULT_NOTIFICATION_PREFERENCES)) /\
    type n = FinalReminder /\ time n = at_time someDay 14 40.
Proof.
  apply (upcoming_schedule_is_admitted_plan scenarioNow (frozen scenarioNow)
           scenarioTask officeProfile 0 DEFAULT_NOTIFICATION_PREFERENCES
           (at_time someDay 15 0)).
  - discriminate.
  - simpl. tauto.
  - reflexivity.
  - vm_compute. discriminate.
  - exists (at_time someDay 14 40). repeat split.
    vm_compute. right. right. left. reflexivity.
Defined.

(* ================================================================= *)
(** ** The daily reminder of an overdue task of medium priority *)

(** Nine o'clock, today if still ahead, else tomorrow. *)
Lemma next_nine_oclock now :
  let next9 := if setHours now 9 0 <=? now then addDays (setHours now 9 0) 1
               else setHours now 9 0 in
  now < next9 <= now + MS_DAY /\ getHours next9 = 9 /\ getMinutes next9 = 0.
Proof.
  cbv zeta. destruct (setHours now 9 0 <=? now) eqn:E;
    [apply Z.leb_le in E | apply Z.leb_gt in E]; revert E;
    unfold getHours, getMinutes, addDays, setHours, startOfDay, MS_DAY, MS_HOUR, MS_MINUTE;
    change (24 * 60 * 60 * 1000) with 86400000;
    change (60 * 60 * 1000) with 3600000;
    change (60 * 1000) with 60000;
    intros E; Z.div_mod_to_equations; lia.
Qed.

(** X4: An overdue task of medium priority, neither completed nor disabled,
    gets at most one notification, of type overdue: the next 09:00 sharp,
    which is later than [now] and at most a day ahead, moved into work
    hours for a work task; it is scheduled exactly when it passes the
    admission gate. *)
Theorem overdue_medium_priority_schedule
    now later task profile existingOverdueReminders preferences dueDate :
  status task <> "completed" ->
  ~ In (priority task) (disabledPriorities preferences) ->
  priority task = "medium" ->
  due_date task = Some dueDate ->
  startOfDay dueDate < startOfDay now ->
  let s := calculateNotificationSchedule now later task profile
             existingOverdueReminders preferences in
  let next9 := if setHours now 9 0 <=? now then addDays (setHours now 9 0) 1
               else setHours now 9 0 in
  let candidate := adjustToWorkHours next9 profile (isWorkTask task) in
  (now < next9 <= now + MS_DAY /\ minuteOfDay next9 = 9 * 60) /\
  (isInQuietHours candidate preferences = false /\
   now + minimumLeadTime preferences * 60 * 1000 < candidate ->
   exists n, notifications s = [n] /\ type n = Overdue /\ time n = candidate /\
             n_priority n = Medium) /\
  (isInQuietHours candidate preferences = true \/
   candidate <= now + minimumLeadTime preferences * 60 * 1000 ->
   notifications s = []).
Proof.
  intros Hs Hdis Hp Hd Hov s next9 candidate.
  split.
  { destruct (next_nine_oclock now) as (H1 & H2 & H3). fold next9 in H1, H2, H3.
    split; [exact H1|]. unfold minuteOfDay. rewrite H2, H3. reflexivity. }
  assert (E : notifications s =
              addNotification now later task profile existingOverdueReminders
                preferences dueDate next9 "Overdue medium priority - daily reminder"
                Overdue Medium []).
  { subst s. unfold calculateNotificationSchedule.
    apply String.eqb_neq in Hs. rewrite Hs.
    destruct (includes _ _) eqn:Hi; [apply includes_In in Hi; contradiction|].
    rewrite Hp at 1. simpl (_ =? _)%string. cbv iota.
    rewrite Hd. cbv zeta. apply Z.ltb_lt in Hov. rewrite Hov. simpl.
    unfold overdueNotifications. rewrite Hp. simpl (_ =? _)%string. reflexivity. }
  rewrite E. unfold addNotification. fold candidate. split.
  - intros [Q L]. rewrite Q.
    destruct (candidate <=? _) eqn:C; [apply Z.leb_le in C; lia|].
    eexists. split; [reflexivity|]. repeat split.
  - intros [Q | L].
    + rewrite Q. reflexivity.
    + destruct (isInQuietHours candidate preferences); [reflexivity|].
      apply Z.leb_le in L. rewrite L. reflexivity.
Qed.

Lemma overdue_medium_priority_schedule_witness :
  let now := at_time someDay 10 0 in
  let task := sampleTask "medium" (Some (at_time (someDay - 2) 0 0)) None (Some "personal") in
  exists n,
    notifications
      (calculateNotificationSchedule now (frozen now) task officeProfile 0
         DEFAULT_NOTIFICATION_PREFERENCES) = [n] /\
    type n = Overdue /\ time n = at_time (someDay + 1) 9 0 /\ n_priority n = Medium.
Proof.
  intros now task.
  assert (H1 : status task <> "completed") by discriminate.
  assert (H2 : ~ In (priority task) (disabledPriorities DEFAULT_NOTIFICATION_PREFERENCES))
    by (simpl; tauto).
  assert (H3 : priority task = "medium") by reflexivity.
  assert (H4 : due_date task = Some (at_time (someDay - 2) 0 0)) by reflexivity.
  assert (H5 : startOfDay (at_time (someDay - 2) 0 0) < startOfDay now) by reflexivity.
  destruct (overdue_medium_priority_schedule now (frozen now) task officeProfile 0
              DEFAULT_NOTIFICATION_PREFERENCES _ H1 H2 H3 H4 H5) as (_ & H & _).
  apply H. split; reflexivity.
Defined.

(* ================================================================= *)
(** ** Work tasks stay within the hours of work *)

Lemma adjustToWorkHours_hour_range t profile :
  validTimeOfDay (work_hours_start profile) ->
  validTimeOfDay (work_hours_end profile) ->
  tod_hour (work_hours_start profile) <= tod_hour (work_hours_end profile) ->
  tod_hour (work_hours_start profile)
    <= getHours (adjustToWorkHours t profile true)
    <= tod_hour (work_hours_end profile).
Proof.
  intros Hs He Hle. unfold adjustToWorkHours. cbn [negb].
  destruct (getHours t <? _) eqn:E1.
  - rewrite getHours_setHours by assumption. lia.
  - destruct (getHours t >? _) eqn:E2.
    + rewrite getHours_setHours by assumption. lia.
    + apply Z.ltb_ge in E1.
      destruct (Z.gtb_spec (getHours t) (tod_hour (work_hours_end profile)));
        [discriminate | lia].
Qed.

(** X5: Every notification of a work task falls into an hour of work: with
    valid work hours whose start hour is not after the end hour, the hour
    of day of each notification lies between the two, whatever branch
    produced it. *)
Theorem work_task_notifications_in_work_hours
    now later task profile existingOverdueReminders preferences n :
  isWorkTask task = true ->
  validTimeOfDay (work_hours_start profile) ->
  validTimeOfDay (work_hours_end profile) ->
  tod_hour (work_hours_start profile) <= tod_hour (work_hours_end profile) ->
  In n (notifications
          (calculateNotificationSchedule now later task profile
             existingOverdueReminders preferences)) ->
  tod_hour (work_hours_start profile) <= getHours (time n)
    <= tod_hour (work_hours_end profile).
Proof.
  intros Hw Hs He Hle Hin.
  destruct (due_date task) as [due|] eqn:Hd.
  - pose proof (notifications_fromCallSite now later task profile
                  existingOverdueReminders preferences due Hd) as F.
    rewrite Forall_forall in F. destruct (F n Hin) as (t & why & k & _ & Heq).
    rewrite (f_equal time Heq). simpl. rewrite Hw.
    now apply adjustToWorkHours_hour_range.
  - apply notifications_no_due_date in Hin; [|exact Hd].
    apply noDueDateNotifications_entry in Hin. destruct Hin as (_ & _ & ->).
    simpl. now apply adjustToWorkHours_hour_range.
Qed.

Lemma work_task_notifications_in_work_hours_witness :
  9 <= getHours (time scenarioReminder) <= 18.
Proof.
  apply (work_task_notifications_in_work_hours scenarioNow (frozen scenarioNow)
           scenarioTask officeProfile 0 DEFAULT_NOTIFICATION_PREFERENCES scenarioReminder).
  - reflexivity.
  - split; split; vm_compute; congruence.
  - split; split; vm_compute; congruence.
  - vm_compute. discriminate.
  - vm_compute. left. reflexivity.
Defined.

(* ================================================================= *)
(** ** How many notifications the multiplier allows *)

Section Counting.

Variable now : Date.
Variable later : nat -> Date.
Variable task : Task.
Variable profile : UserProfile.
Variable existingOverdueReminders : Z.
Variable preferences : UserNotificationPreferences.
Variable dueDate : Date.

Lemma addIfFuture_length t why ty pl acc :
  (List.length
     (addIfFuture now later task profile existingOverdueReminders preferences
        dueDate t why ty pl acc)
   <= S (List.length acc))%nat.
Proof.
  destruct (grows_addF now later task profile existingOverdueReminders preferences
              dueDate t why ty pl acc) as [L _]. lia.
Qed.

Lemma addNotification_length t why ty pl acc :
  (List.length
     (addNotification now later task profile existingOverdueReminders preferences
        dueDate t why ty pl acc)
   <= S (List.length acc))%nat.
Proof.
  destruct (grows_add now later task profile existingOverdueReminders preferences
              dueDate t why ty pl acc) as [L _]. lia.
Qed.

(** Bounds the length of a chain of calls, one call at a time. *)
Ltac bound_length l :=
  lazymatch l with
  | addIfFuture _ _ _ _ _ _ _ ?t ?w ?y ?p ?acc =>
      pose proof (addIfFuture_length t w y p acc); bound_length acc
  | _ => idtac
  end.

(** Past the gate there are no more notifications than the plan has
    entries. *)
Lemma upcoming_length_le_plan :
  (List.length
     (upcomingNotifications now later task profile existingOverdueReminders preferences
        dueDate (startOfDay dueDate =? startOfDay now)%Z (hasSpecificTime dueDate))
   <= List.length (plannedTimes task preferences now dueDate))%nat.
Proof.
  unfold upcomingNotifications, plannedTimes. rewrite sortByTime_length.
  destruct (priority task =? "high")%string eqn:Hh.
  - rewrite (high_not_medium _ Hh).
    destruct (hasSpecificTime dueDate).
    + unfold highSpecificTime.
      destruct (shouldReduceNotifications preferences),
               (shouldAddExtraNotifications preferences); cbn [negb];
        match goal with |- (List.length ?l <= _)%nat => bound_length l end;
        cbn [List.length app] in *; lia.
    + unfold highDateOnly.
      rewrite length_app, length_map.
      destruct (dateOnly_loop_grows now later task profile existingOverdueReminders
                  preferences dueDate (dateOnlyTimes preferences) []) as [L _].
      set (a1 := fold_left _ _ _) in *.
      cbn [List.length Nat.add] in L.
      destruct (shouldReduceNotifications preferences); cbn [negb orb];
        [cbn [List.length]; lia|].
      destruct (startOfDay dueDate =? startOfDay now); cbn [negb];
        [rewrite andb_false_r; cbn [List.length]; lia|].
      rewrite andb_true_r.
      destruct (_ >? now); [|cbn [List.length]; lia].
      match goal with
      | |- context [addNotification ?a ?b ?c ?d ?e ?f ?g ?t ?w ?y ?p ?acc] =>
          pose proof (addNotification_length t w y p acc)
      end. cbn [List.length] in *. lia.
  - destruct (priority task =? "medium")%string; [|simpl; lia].
    unfold mediumNotifications.
    destruct (hasSpecificTime dueDate), (shouldAddExtraNotifications preferences);
      match goal with |- (List.length ?l <= _)%nat => bound_length l end;
      cbn [List.length app] in *; lia.
Qed.

End Counting.

Lemma schedule_length_cases
    now later task profile existingOverdueReminders preferences :
  (List.length
     (notifications
        (calculateNotificationSchedule now later task profile
           existingOverdueReminders preferences)) <= 1)%nat \/
  exists dueDate,
    due_date task = Some dueDate /\
    (List.length
       (notifications
          (calculateNotificationSchedule now later task profile
             existingOverdueReminders preferences))
     <= List.length (plannedTimes task preferences now dueDate))%nat.
Proof.
  unfold calculateNotificationSchedule, emptySchedule.
  destruct (status task =? "completed")%string; [left; simpl; lia|].
  destruct (includes _ _); [left; simpl; lia|].
  destruct (priority task =? "low")%string; [left; simpl; lia|].
  destruct (due_date task) as [due|]; simpl.
  - destruct (startOfDay due <? startOfDay now); simpl.
    + left.
      destruct (overdueNotifications_grows now later task profile
                  existingOverdueReminders preferences due) as [L _].
      simpl in L. lia.
    + right. exists due. split; [reflexivity|]. apply upcoming_length_le_plan.
  - left. apply noDueDateNotifications_length.
Qed.

(** X6: The multiplier thins the schedule out.  At 0.5 or below no task gets
    more than two notifications.  A task of medium priority gets at most
    two, and at most one below 1.5.  Below 1.5 a task whose due date has a
    time of day gets at most three. *)
Theorem multiplier_bounds_the_schedule
    now later task profile existingOverdueReminders preferences :
  let count :=
    List.length
      (notifications
         (calculateNotificationSchedule now later task profile
            existingOverdueReminders preferences)) in
  let fm := frequencyMultiplier preferences in
  ((fm <= 1 # 2)%Q -> (count <= 2)%nat) /\
  (priority task = "medium" -> (count <= 2)%nat) /\
  (priority task = "medium" -> (fm < 3 # 2)%Q -> (count <= 1)%nat) /\
  ((fm < 3 # 2)%Q ->
   forall dueDate, due_date task = Some dueDate -> hasSpecificTime dueDate = true ->
   (count <= 3)%nat).
Proof.
  cbv zeta.
  assert (Hx : (frequencyMultiplier preferences < 3 # 2)%Q ->
               shouldAddExtraNotifications preferences = false).
  { intros H. unfold shouldAddExtraNotifications.
    destruct (Qle_bool _ _) eqn:E; [|reflexivity].
    apply Qle_bool_iff in E. exfalso. now apply (Qlt_not_le _ _ H). }
  assert (Hr : (frequencyMultiplier preferences <= 1 # 2)%Q ->
               shouldReduceNotifications preferences = true /\
               shouldAddExtraNotifications preferences = false).
  { intros H. split; [now apply Qle_bool_iff|].
    apply Hx. eapply Qle_lt_trans; [exact H | reflexivity]. }
  destruct (schedule_length_cases now later task profile existingOverdueReminders
              preferences) as [L | (due & Hd & L)].
  { repeat split; intros; lia. }
  unfold plannedTimes in L. cbv zeta in L.
  repeat split.
  - intros [R X]%Hr. rewrite R, X in L. revert L.
    destruct (priority task =? "high")%string;
      [|destruct (priority task =? "medium")%string];
      destruct (hasSpecificTime due); unfold dateOnlyTimes; try rewrite R;
      cbn [List.length app map orb]; lia.
  - intros Hp. rewrite Hp in L. revert L. simpl (_ =? _)%string. cbv iota.
    destruct (hasSpecificTime due), (shouldAddExtraNotifications preferences);
      cbn [List.length]; lia.
  - intros Hp X%Hx. rewrite Hp, X in L. revert L. simpl (_ =? _)%string. cbv iota.
    destruct (hasSpecificTime due); cbn [List.length]; lia.
  - intros X%Hx due' Hd' Hsp. rewrite Hd in Hd'. injection Hd' as <-.
    rewrite X, Hsp in L. revert L.
    destruct (priority task =? "high")%string;
      [|destruct (priority task =? "medium")%string];
      destruct (shouldReduceNotifications preferences);
      cbn [List.length app]; lia.
Qed.

Lemma multiplier_bounds_the_schedule_witness :
  Nat.le
    (List.length
       (notifications
          (calculateNotificationSchedule scenarioNow (frozen scenarioNow)
             (sampleTask "high" (Some (at_time (someDay + 3) 15 0)) (Some 90) None)
             officeProfile 0 reducedPreferences)))
    2.
Proof.
  destruct (multiplier_bounds_the_schedule scenarioNow (frozen scenarioNow)
              (sampleTask "high" (Some (at_time (someDay + 3) 15 0)) (Some 90) None)
              officeProfile 0 reducedPreferences) as (H & _).
  apply H. vm_compute. discriminate.
Defined.

(* ================================================================= *)
(** ** The batch layer *)

Lemma plannedTimes_length task preferences now dueDate :
  (List.length (plannedTimes task preferences now dueDate) <= 4)%nat.
Proof.
  unfold plannedTimes, dateOnlyTimes.
  destruct (priority task =? "high")%string;
    [|destruct (priority task =? "medium")%string];
    destruct (hasSpecificTime dueDate);
    destruct (shouldReduceNotifications preferences);
    destruct (shouldAddExtraNotifications preferences);
    try destruct (startOfDay dueDate =? startOfDay now);
    cbn [List.length app map orb]; lia.
Qed.

(** A schedule with a notification belongs to a task that passed the
    short circuits. *)
Lemma nonempty_schedule_task
    now later task profile existingOverdueReminders preferences :
  notifications
    (calculateNotificationSchedule now later task profile
       existingOverdueReminders preferences) <> [] ->
  status task <> "completed" /\ priority task <> "low" /\
  ~ In (priority task) (disabledPriorities preferences).
Proof.
  unfold calculateNotificationSchedule, emptySchedule.
  destruct (status task =? "completed")%string eqn:Hs; [intros H; now elim H|].
  destruct (includes _ _) eqn:Hi; [intros H; now elim H|].
  destruct (priority task =? "low")%string eqn:Hl; [intros H; now elim H|].
  intros _. apply String.eqb_neq in Hs, Hl. repeat split; auto.
  intros Hin. apply includes_In in Hin. congruence.
Qed.

Lemma schedule_of_sorted
    now later task profile existingOverdueReminders preferences :
  sortedByTime
    (notifications
       (calculateNotificationSchedule now later task profile
          existingOverdueReminders preferences)).
Proof.
  destruct (schedule_length_cases now later task profile existingOverdueReminders
              preferences) as [L | (due & Hd & _)];
    [now apply short_list_sorted|].
  unfold calculateNotificationSchedule, emptySchedule. rewrite Hd.
  destruct (status task =? "completed")%string; [constructor|].
  destruct (includes _ _); [constructor|].
  destruct (priority task =? "low")%string; [constructor|].
  destruct (startOfDay due <? startOfDay now); simpl.
  - apply short_list_sorted.
    destruct (overdueNotifications_grows now later task profile
                existingOverdueReminders preferences due) as [L _]. exact L.
  - apply sortByTime_sorted.
Qed.

Lemma schedule_identity
    now later task profile existingOverdueReminders preferences :
  taskId (calculateNotificationSchedule now later task profile
            existingOverdueReminders preferences) = id task /\
  taskTitle (calculateNotificationSchedule now later task profile
               existingOverdueReminders preferences) = title task.
Proof.
  unfold calculateNotificationSchedule, emptySchedule.
  destruct (status task =? "completed")%string; [split; reflexivity|].
  destruct (includes _ _); [split; reflexivity|].
  destruct (priority task =? "low")%string; [split; reflexivity|].
  destruct (due_date task) as [due|]; [|split; reflexivity].
  cbv zeta. destruct (startOfDay due <? startOfDay now); split; reflexivity.
Qed.

Lemma schedulesFrom_In clocks k tasks profile counts preferences s :
  In s (schedulesFrom clocks k tasks profile counts preferences) ->
  exists task j,
    In task tasks /\
    s = calculateNotificationSchedule (fst (clocks j)) (snd (clocks j)) task profile
          (countFor counts (id task)) preferences.
Proof.
  revert k. induction tasks as [|t ts IH]; intros k; simpl; [intros []|].
  intros [<- | Hin].
  - exists t, k. split; [now left | reflexivity].
  - destruct (IH _ Hin) as (task & j & Ht & E). exists task, j. split; [now right | exact E].
Qed.

(** X7: Every schedule of the batch has between one and four notifications,
    in order of time, and is the schedule of one of the given tasks, which
    is not completed and of neither low nor disabled priority; it carries
    that task's id and title and was computed with the reminder count
    stored under that id, 0 when there is none.  There are no more
    schedules than tasks. *)
Theorem batch_schedules clocks tasks profile counts preferences :
  let schedules :=
    calculateAllNotificationSchedules clocks tasks profile counts preferences in
  (List.length schedules <= List.length tasks)%nat /\
  forall s, In s schedules ->
    (1 <= List.length (notifications s) <= 4)%nat /\
    sortedByTime (notifications s) /\
    exists task j,
      In task tasks /\
      s = calculateNotificationSchedule (fst (clocks j)) (snd (clocks j)) task profile
            (countFor counts (id task)) preferences /\
      taskId s = id task /\ taskTitle s = title task /\
      status task <> "completed" /\ priority task <> "low" /\
      ~ In (priority task) (disabledPriorities preferences).
Proof.
  cbv zeta. unfold calculateAllNotificationSchedules. split.
  - eapply Nat.le_trans; [apply filter_length_le|].
    assert (H : forall k ts,
               List.length (schedulesFrom clocks k ts profile counts preferences)
               = List.length ts).
    { intros k ts. revert k. induction ts as [|t ts IH]; intros k; simpl; auto. }
    rewrite H. apply filter_length_le.
  - intros s Hin. apply filter_In in Hin. destruct Hin as [Hin Hne].
    apply Nat.ltb_lt in Hne.
    apply schedulesFrom_In in Hin. destruct Hin as (task & j & Ht & E).
    apply filter_In in Ht. destruct Ht as [Ht _].
    assert (Hnil : notifications s <> [])
      by (intros H0; rewrite H0 in Hne; simpl in Hne; lia).
    subst s.
    destruct (nonempty_schedule_task _ _ _ _ _ _ Hnil) as (H1 & H2 & H3).
    split; [split; [lia|]|split].
    + destruct (schedule_length_cases (fst (clocks j)) (snd (clocks j)) task profile
                  (countFor counts (id task)) preferences) as [L | (due & _ & L)];
        [lia|].
      pose proof (plannedTimes_length task preferences (fst (clocks j)) due). lia.
    + apply schedule_of_sorted.
    + exists task, j. repeat split; auto; apply schedule_identity.
Qed.

Lemma batch_schedules_witness :
  (1 <= List.length (notifications scenarioSchedule) <= 4)%nat /\
  taskId scenarioSchedule = "task-1".
Proof.
  destruct (batch_schedules scenarioClocks scenarioBatch officeProfile noCounts
              DEFAULT_NOTIFICATION_PREFERENCES) as [_ H].
  destruct (H scenarioSchedule) as (L & _ & task & j & _ & _ & _ & _).
  - vm_compute. left. reflexivity.
  - split; [exact L | reflexivity].
Defined.

Lemma silentTask_empty clocks counts preferences profile task j :
  silentTask clocks counts preferences task ->
  notifications
    (calculateNotificationSchedule (fst (clocks j)) (snd (clocks j)) task profile
       (countFor counts (id task)) preferences) = [].
Proof.
  intros H. unfold calculateNotificationSchedule, emptySchedule.
  destruct (status task =? "completed")%string eqn:Hs; [reflexivity|].
  destruct (includes _ _) eqn:Hd; [reflexivity|].
  destruct (priority task =? "low")%string eqn:Hl; [reflexivity|].
  destruct H as [H | [H | [H | (Hp & Hc & due & Hdue & Hov)]]].
  - apply String.eqb_neq in Hs. contradiction.
  - apply String.eqb_neq in Hl. contradiction.
  - apply includes_In in H. congruence.
  - rewrite Hdue. cbv zeta.
    specialize (Hov j). apply Z.ltb_lt in Hov. rewrite Hov. simpl.
    unfold overdueNotifications. rewrite Hp. simpl (_ =? _)%string. cbv iota.
    apply Z.ltb_ge in Hc. rewrite Hc. reflexivity.
Qed.

(** X8: A batch yields no schedule at all when each of its tasks is
    completed, of low or disabled priority, or an overdue task of high
    priority that has had its three reminders; in particular for no
    tasks. *)
Theorem batch_of_silent_tasks clocks tasks profile counts preferences :
  Forall (silentTask clocks counts preferences) tasks ->
  calculateAllNotificationSchedules clocks tasks profile counts preferences = [].
Proof.
  intros F. unfold calculateAllNotificationSchedules.
  assert (F' : Forall (silentTask clocks counts preferences)
                 (filter (fun task => negb (status task =? "completed")%string) tasks)).
  { rewrite Forall_forall in *. intros t Ht. apply filter_In in Ht. now apply F. }
  assert (H : forall l k,
             Forall (silentTask clocks counts preferences) l ->
             filter (fun schedule => (0 <? List.length (notifications schedule))%nat)
               (schedulesFrom clocks k l profile counts preferences) = []).
  { induction l as [|t l IH]; intros k Hl; simpl; [reflexivity|].
    inversion Hl; subst.
    rewrite silentTask_empty by assumption. simpl. now apply IH. }
  now apply H.
Qed.

Lemma batch_of_silent_tasks_witness :
  calculateAllNotificationSchedules scenarioClocks
    [ sampleTask "low" (Some (at_time someDay 16 0)) None None;
      sampleTask "high" (Some (at_time (someDay - 2) 0 0)) None None ]
    officeProfile (fun _ => Some 3) DEFAULT_NOTIFICATION_PREFERENCES = [].
Proof.
  apply batch_of_silent_tasks.
  constructor; [|constructor; [|constructor]].
  - right. left. reflexivity.
  - right. right. right. split; [reflexivity|]. split; [vm_compute; discriminate|].
    exists (at_time (someDay - 2) 0 0). split; [reflexivity|]. intros k. reflexivity.
Defined.

(* ================================================================= *)
(** ** The summary *)

Lemma getNotificationSummary_flat schedules :
  getNotificationSummary schedules
  = fold_left tally (allNotifications schedules) emptySummary.
Proof.
  unfold getNotificationSummary, allNotifications.
  generalize emptySummary.
  induction schedules as [|s ss IH]; intros acc; simpl; [reflexivity|].
  rewrite fold_left_app. apply IH.
Qed.

Lemma NotificationType_eqb_eq a b : NotificationType_eqb a b = true <-> a = b.
Proof. destruct a, b; simpl; split; intros H; (reflexivity || discriminate). Qed.

Lemma sumOfCounts_bump byType ty :
  sumOfCounts (bumpType byType ty) = S (sumOfCounts byType).
Proof.
  induction byType as [|[ty' c] rest IH]; simpl; [reflexivity|].
  destruct (NotificationType_eqb ty ty'); simpl; [reflexivity|]. rewrite IH. lia.
Qed.

Lemma typeCount_bump byType ty ty' :
  typeCount (bumpType byType ty) ty'
  = if NotificationType_eqb ty' ty
    then Some (S (match typeCount byType ty' with Some c => c | None => 0%nat end))
    else typeCount byType ty'.
Proof.
  induction byType as [|[ty0 c] rest IH]; simpl.
  - destruct (NotificationType_eqb ty' ty); reflexivity.
  - destruct (NotificationType_eqb ty ty0) eqn:E0; simpl.
    + apply NotificationType_eqb_eq in E0. subst ty0.
      destruct (NotificationType_eqb ty' ty); reflexivity.
    + destruct (NotificationType_eqb ty' ty0) eqn:E1.
      * apply NotificationType_eqb_eq in E1. subst ty0.
        destruct (NotificationType_eqb ty' ty) eqn:E2; [|reflexivity].
        apply NotificationType_eqb_eq in E2. subst ty'.
        destruct ty; discriminate.
      * exact IH.
Qed.

Lemma keys_bump byType ty :
  NoDup (map fst byType) -> NoDup (map fst (bumpType byType ty)) /\
  forall k, In k (map fst (bumpType byType ty)) <-> k = ty \/ In k (map fst byType).
Proof.
  induction byType as [|[ty0 c] rest IH]; simpl.
  - intros _. split; [repeat constructor; intros []|]. intros k. split.
    + intros [<- | []]. now left.
    + intros [-> | []]. now left.
  - intros Hnd. inversion Hnd as [|? ? Hnot Hrest]; subst.
    destruct (NotificationType_eqb ty ty0) eqn:E0; simpl.
    + apply NotificationType_eqb_eq in E0. subst ty0.
      split; [exact Hnd|]. intros k. intuition (subst; auto).
    + destruct (IH Hrest) as [IH1 IH2]. split.
      * constructor; [|exact IH1]. rewrite IH2. intros [-> | Hin]; [|contradiction].
        destruct ty; discriminate.
      * intros k. rewrite IH2. tauto.
Qed.

Section Tally.

Variable l : list ScheduledNotificationTime.

Lemma tally_totals : forall acc,
  total (fold_left tally l acc) = (total acc + List.length l)%nat /\
  sumOfCounts (byType (fold_left tally l acc))
  = (sumOfCounts (byType acc) + List.length l)%nat /\
  high (byPriority (fold_left tally l acc))
  = (high (byPriority acc) + countOfPriority High l)%nat /\
  medium (byPriority (fold_left tally l acc))
  = (medium (byPriority acc) + countOfPriority Medium l)%nat /\
  low (byPriority (fold_left tally l acc))
  = (low (byPriority acc) + countOfPriority Low l)%nat.
Proof.
  unfold countOfPriority.
  induction l as [|n l' IH]; intros acc; simpl.
  - repeat split; lia.
  - destruct (IH (tally acc n)) as (H1 & H2 & H3 & H4 & H5).
    rewrite H1, H2, H3, H4, H5. simpl. rewrite sumOfCounts_bump.
    destruct (n_priority n); simpl; repeat split; lia.
Qed.

Lemma tally_typeCount : forall acc ty,
  typeCount (byType (fold_left tally l acc)) ty
  = match countOfType ty l with
    | O => typeCount (byType acc) ty
    | S c => Some (S c + match typeCount (byType acc) ty with
                         | Some c0 => c0
                         | None => 0
                         end)%nat
    end.
Proof.
  unfold countOfType.
  induction l as [|n l' IH]; intros acc ty; simpl; [reflexivity|].
  rewrite IH. simpl. rewrite typeCount_bump.
  assert (E : NotificationType_eqb ty (type n) = NotificationType_eqb (type n) ty)
    by (destruct ty, (type n); reflexivity).
  rewrite E.
  destruct (NotificationType_eqb (type n) ty); simpl.
  - destruct (List.length (filter _ l')); f_equal; lia.
  - reflexivity.
Qed.

Lemma tally_keys : forall acc,
  NoDup (map fst (byType acc)) -> NoDup (map fst (byType (fold_left tally l acc))).
Proof.
  induction l as [|n l' IH]; intros acc Hnd; simpl; [exact Hnd|].
  apply IH. simpl. now apply keys_bump.
Qed.

End Tally.

Lemma countOfPriority_sum (l : list ScheduledNotificationTime) :
  (countOfPriority High l + countOfPriority Medium l + countOfPriority Low l
   = List.length l)%nat.
Proof.
  unfold countOfPriority. induction l as [|n l IH]; simpl; [reflexivity|].
  destruct (n_priority n); simpl; lia.
Qed.

(** X9: The summary counts every notification of every schedule once: the
    total is their number, the three priority counts are the numbers of
    notifications tagged with each priority and add up to the total, and
    so do the counts by type. *)
Theorem summary_totals (schedules : list NotificationSchedule) :
  let summary := getNotificationSummary schedules in
  let all := allNotifications schedules in
  total summary = List.length all /\
  high (byPriority summary) = countOfPriority High all /\
  medium (byPriority summary) = countOfPriority Medium all /\
  low (byPriority summary) = countOfPriority Low all /\
  (high (byPriority summary) + medium (byPriority summary) + low (byPriority summary)
   = total summary)%nat /\
  sumOfCounts (byType summary) = total summary.
Proof.
  cbv zeta. rewrite getNotificationSummary_flat.
  destruct (tally_totals (allNotifications schedules) emptySummary)
    as (H1 & H2 & H3 & H4 & H5).
  simpl in H1, H2, H3, H4, H5.
  pose proof (countOfPriority_sum (allNotifications schedules)).
  repeat split; lia.
Qed.

(** X10: The summary by type has one entry for each type that occurs, holding
    the number of notifications of that type, and no entry for a type that
    does not occur. *)
Theorem summary_by_type (schedules : list NotificationSchedule) (ty : NotificationType) :
  let summary := getNotificationSummary schedules in
  typeCount (byType summary) ty
  = match countOfType ty (allNotifications schedules) with
    | O => None
    | S c => Some (S c)
    end /\
  NoDup (map fst (byType summary)).
Proof.
  cbv zeta. rewrite getNotificationSummary_flat. split.
  - rewrite tally_typeCount. simpl.
    destruct (countOfType ty (allNotifications schedules)); [reflexivity|].
    f_equal. lia.
  - apply tally_keys. constructor.
Qed.

Lemma schedule_priority_not_low
    now later task profile existingOverdueReminders preferences n :
  In n (notifications
          (calculateNotificationSchedule now later task profile
             existingOverdueReminders preferences)) ->
  n_priority n <> Low.
Proof.
  intros Hin. destruct (due_date task) as [due|] eqn:Hd.
  - pose proof (notifications_fromCallSite now later task profile
                  existingOverdueReminders preferences due Hd) as F.
    rewrite Forall_forall in F. destruct (F n Hin) as (t & why & k & Hs & _).
    remember (type n) as ty. remember (n_priority n) as pl.
    destruct Hs; discriminate.
  - apply notifications_no_due_date in Hin; [|exact Hd].
    apply noDueDateNotifications_entry in Hin. destruct Hin as (_ & _ & ->).
    discriminate.
Qed.

Lemma schedule_length_le_4
    now later task profile existingOverdueReminders preferences :
  (List.length
     (notifications
        (calculateNotificationSchedule now later task profile
           existingOverdueReminders preferences)) <= 4)%nat.
Proof.
  destruct (schedule_length_cases now later task profile existingOverdueReminders
              preferences) as [L | (due & _ & L)]; [lia|].
  pose proof (plannedTimes_length task preferences now due). lia.
Qed.

Lemma flat_map_length_bounds (l : list NotificationSchedule) :
  (forall s, In s l -> (1 <= List.length (notifications s) <= 4)%nat) ->
  (List.length l <= List.length (allNotifications l) <= 4 * List.length l)%nat.
Proof.
  unfold allNotifications.
  induction l as [|s l IH]; intros H; simpl; [lia|].
  rewrite length_app.
  pose proof (H s (or_introl eq_refl)).
  assert (H' : forall s', In s' l -> (1 <= List.length (notifications s') <= 4)%nat)
    by (intros s' Hs'; apply H; now right).
  specialize (IH H'). lia.
Qed.

(** X11: The summary of a batch never counts a notification of low priority,
    and its total lies between the number of schedules and four times the
    number of tasks. *)
Theorem summary_of_batch clocks tasks profile counts preferences :
  let schedules :=
    calculateAllNotificationSchedules clocks tasks profile counts preferences in
  let summary := getNotificationSummary schedules in
  low (byPriority summary) = 0%nat /\
  (high (byPriority summary) + medium (byPriority summary) = total summary)%nat /\
  (List.length schedules <= total summary <= 4 * List.length tasks)%nat.
Proof.
  cbv zeta. rewrite getNotificationSummary_flat.
  set (schedules := calculateAllNotificationSchedules clocks tasks profile counts preferences).
  destruct (tally_totals (allNotifications schedules) emptySummary)
    as (H1 & _ & H3 & H4 & H5).
  simpl in H1, H3, H4, H5.
  pose proof (countOfPriority_sum (allNotifications schedules)) as Hsum.
  assert (Hfrom : forall s, In s schedules ->
            (0 < List.length (notifications s))%nat /\
            exists task j,
              s = calculateNotificationSchedule (fst (clocks j)) (snd (clocks j)) task
                    profile (countFor counts (id task)) preferences).
  { intros s Hin. apply filter_In in Hin. destruct Hin as [Hin Hne].
    apply Nat.ltb_lt in Hne. split; [exact Hne|].
    apply schedulesFrom_In in Hin. destruct Hin as (task & j & _ & E). eauto. }
  assert (Hlow : countOfPriority Low (allNotifications schedules) = 0%nat).
  { unfold countOfPriority.
    assert (Hnone : forall n, In n (allNotifications schedules) -> n_priority n <> Low).
    { intros n Hn. apply in_flat_map in Hn. destruct Hn as (s & Hs & Hn).
      destruct (Hfrom s Hs) as (_ & task & j & ->).
      now apply schedule_priority_not_low in Hn. }
    revert Hnone. generalize (allNotifications schedules).
    induction l as [|n l IH]; intros Hnone; simpl; [reflexivity|].
    destruct (n_priority n) eqn:E; simpl;
      try (apply IH; intros m Hm; apply Hnone; now right).
    exfalso. apply (Hnone n); [now left | exact E]. }
  assert (Hlen : (List.length schedules <= List.length (allNotifications schedules)
                  <= 4 * List.length schedules)%nat).
  { apply flat_map_length_bounds. intros s Hs.
    destruct (Hfrom s Hs) as (Hne & task & j & ->).
    split; [lia | apply schedule_length_le_4]. }
  assert (Hts : (List.length schedules <= List.length tasks)%nat).
  { subst schedules. unfold calculateAllNotificationSchedules.
    eapply Nat.le_trans; [apply filter_length_le|].
    assert (H : forall k ts,
               List.length (schedulesFrom clocks k ts profile counts preferences)
               = List.length ts).
    { intros k ts. revert k. induction ts as [|t ts IH]; intros k; simpl; auto. }
    rewrite H. apply filter_length_le. }
  repeat split; lia.
Qed.

(* ================================================================= *)
(** ** Change detection and the calculator *)

Lemma JsOptional_eqb_eq {A : Type} (eqb : A -> A -> bool) (a b : JsOptional A) :
  (forall x y, eqb x y = true -> x = y) ->
  JsOptional_eqb eqb a b = true -> a = b.
Proof.
  intros H. destruct a, b; simpl; intros E; try discriminate; try reflexivity.
  f_equal. now apply H.
Qed.

Lemma option_eqb_eq {A : Type} (eqb : A -> A -> bool) (a b : option A) :
  (forall x y, eqb x y = true -> x = y) ->
  option_eqb eqb a b = true -> a = b.
Proof.
  intros H. destruct a, b; simpl; intros E; try discriminate; try reflexivity.
  f_equal. now apply H.
Qed.

Section Agreement.

Variable now : Date.
Variable later : nat -> Date.
Variables t1 t2 : Task.
Variable profile : UserProfile.
Variable existingOverdueReminders : Z.
Variable preferences : UserNotificationPreferences.

(** Two tasks that agree on everything but their id. *)
Hypothesis same_title : title t1 = title t2.
Hypothesis same_due_date : due_date t1 = due_date t2.
Hypothesis same_status : status t1 = status t2.
Hypothesis same_priority : priority t1 = priority t2.
Hypothesis same_duration : estimated_duration t1 = estimated_duration t2.
Hypothesis same_category : category t1 = category t2.

Lemma isWorkTask_agree : isWorkTask t1 = isWorkTask t2.
Proof. unfold isWorkTask. rewrite same_category. reflexivity. Qed.

Lemma content_agree ty due existing clock :
  generateNotificationContent t1 ty due existing clock
  = generateNotificationContent t2 ty due existing clock.
Proof.
  unfold generateNotificationContent. rewrite same_priority, same_title. reflexivity.
Qed.

Lemma addNotification_agree due t why ty pl acc :
  addNotification now later t1 profile existingOverdueReminders preferences
    due t why ty pl acc
  = addNotification now later t2 profile existingOverdueReminders preferences
      due t why ty pl acc.
Proof.
  unfold addNotification. rewrite isWorkTask_agree, content_agree. reflexivity.
Qed.

Lemma addIfFuture_agree due t why ty pl acc :
  addIfFuture now later t1 profile existingOverdueReminders preferences
    due t why ty pl acc
  = addIfFuture now later t2 profile existingOverdueReminders preferences
      due t why ty pl acc.
Proof. unfold addIfFuture. rewrite addNotification_agree. reflexivity. Qed.

Lemma highSpecificTime_agree due acc :
  highSpecificTime now later t1 profile existingOverdueReminders preferences due acc
  = highSpecificTime now later t2 profile existingOverdueReminders preferences due acc.
Proof.
  unfold highSpecificTime. rewrite same_duration. cbv zeta.
  rewrite !addIfFuture_agree. reflexivity.
Qed.

Lemma dateOnly_loop_agree due (times : list (Z * Z * string)) acc :
  fold_left
    (fun acc '(hour, minute, label) =>
       addIfFuture now later t1 profile existingOverdueReminders preferences
         due (setHours due hour minute)
         ("High priority due date - " ++ label ++ " reminder") Reminder High acc)
    times acc
  = fold_left
      (fun acc '(hour, minute, label) =>
         addIfFuture now later t2 profile existingOverdueReminders preferences
           due (setHours due hour minute)
           ("High priority due date - " ++ label ++ " reminder") Reminder High acc)
      times acc.
Proof.
  revert acc. induction times as [|[[h m] lbl] times IH]; intros acc; simpl;
    [reflexivity|].
  rewrite addIfFuture_agree. apply IH.
Qed.

Lemma highDateOnly_agree due isDueToday acc :
  highDateOnly now later t1 profile existingOverdueReminders preferences
    due isDueToday acc
  = highDateOnly now later t2 profile existingOverdueReminders preferences
      due isDueToday acc.
Proof.
  unfold highDateOnly. cbv zeta.
  rewrite dateOnly_loop_agree, addNotification_agree. reflexivity.
Qed.

Lemma mediumNotifications_agree due specificTime acc :
  mediumNotifications now later t1 profile existingOverdueReminders preferences
    due specificTime acc
  = mediumNotifications now later t2 profile existingOverdueReminders preferences
      due specificTime acc.
Proof.
  unfold mediumNotifications. cbv zeta. rewrite !addIfFuture_agree. reflexivity.
Qed.

(** The notifications do not depend on the id of the task. *)
Lemma notifications_agree :
  notifications
    (calculateNotificationSchedule now later t1 profile existingOverdueReminders
       preferences)
  = notifications
      (calculateNotificationSchedule now later t2 profile existingOverdueReminders
         preferences).
Proof.
  unfold calculateNotificationSchedule, emptySchedule.
  rewrite same_status, same_priority, same_due_date.
  destruct (status t2 =? "completed")%string; [reflexivity|].
  destruct (includes _ _); [reflexivity|].
  destruct (priority t2 =? "low")%string; [reflexivity|].
  destruct (due_date t2) as [due|]; cbv zeta.
  - destruct (startOfDay due <? startOfDay now); cbn [notifications].
    + unfold overdueNotifications. rewrite same_priority.
      rewrite !addNotification_agree. reflexivity.
    + unfold upcomingNotifications. cbv zeta. rewrite same_priority.
      rewrite highSpecificTime_agree, highDateOnly_agree, mediumNotifications_agree.
      reflexivity.
  - cbn [notifications]. unfold noDueDateNotifications.
    rewrite same_priority, isWorkTask_agree. cbv zeta. rewrite content_agree.
    reflexivity.
Qed.

End Agreement.

(** X12: Change detection is safe for the calculator.  A task seen for the
    first time counts as changed.  When [hasScheduleChanged] finds no
    change between the old and the new task, the calculator, run at the
    same clock with the same profile, count and preferences, gives both
    the same notifications and the same title; the id is not compared and
    does not matter. *)
Theorem unchanged_task_same_schedule (parseDate : string -> Date)
    (oldTask newTask : StoredTask)
    now later profile existingOverdueReminders preferences :
  hasScheduleChanged None newTask = true /\
  (hasScheduleChanged (Some oldTask) newTask = false ->
   let s1 := calculateNotificationSchedule now later (taskOfStored parseDate oldTask)
               profile existingOverdueReminders preferences in
   let s2 := calculateNotificationSchedule now later (taskOfStored parseDate newTask)
               profile existingOverdueReminders preferences in
   notifications s1 = notifications s2 /\ taskTitle s1 = taskTitle s2).
Proof.
  split; [reflexivity|].
  unfold hasScheduleChanged. intros H.
  repeat (apply orb_false_iff in H; destruct H as [H ?]).
  repeat match goal with
         | H : negb _ = false |- _ => apply negb_false_iff in H
         end.
  repeat match goal with
         | H : (_ =? _)%string = true |- _ => apply String.eqb_eq in H
         | H : JsOptional_eqb String.eqb _ _ = true |- _ =>
             apply JsOptional_eqb_eq in H; [|intros x y; apply String.eqb_eq]
         | H : JsOptional_eqb Z.eqb _ _ = true |- _ =>
             apply JsOptional_eqb_eq in H; [|intros x y; apply Z.eqb_eq]
         | H : option_eqb String.eqb _ _ = true |- _ =>
             apply option_eqb_eq in H; [|intros x y; apply String.eqb_eq]
         end.
  cbv zeta. split.
  - apply notifications_agree; unfold taskOfStored; simpl;
      first [congruence | rewrite H; reflexivity | rewrite H2; reflexivity].
  - match goal with
    | |- taskTitle (calculateNotificationSchedule ?n ?l ?t1 ?p ?e ?pr)
         = taskTitle (calculateNotificationSchedule ?n ?l ?t2 ?p ?e ?pr) =>
        destruct (schedule_identity n l t1 p e pr) as [_ ->];
        destruct (schedule_identity n l t2 p e pr) as [_ ->]
    end. simpl. congruence.
Qed.

Lemma unchanged_task_same_schedule_witness :
  notifications
    (calculateNotificationSchedule scenarioNow (frozen scenarioNow)
       (taskOfStored scenarioParser (storedScenarioTask "task-1"))
       officeProfile 0 DEFAULT_NOTIFICATION_PREFERENCES)
  = notifications
      (calculateNotificationSchedule scenarioNow (frozen scenarioNow)
         (taskOfStored scenarioParser (storedScenarioTask "task-2"))
         officeProfile 0 DEFAULT_NOTIFICATION_PREFERENCES).
Proof.
  destruct (unchanged_task_same_schedule scenarioParser
              (storedScenarioTask "task-1") (storedScenarioTask "task-2")
              scenarioNow (frozen scenarioNow) officeProfile 0
              DEFAULT_NOTIFICATION_PREFERENCES) as [_ H].
  apply H. reflexivity.
Defined.

(* ================================================================= *)
(** ** More on the time-window utilities *)

Lemma startOfDay_setHours (d : Date) (t : TimeOfDay) :
  validTimeOfDay t ->
  startOfDay (setHours d (tod_hour t) (tod_minute t)) = startOfDay d.
Proof.
  intros [[Hh0 Hh1] [Hm0 Hm1]].
  unfold setHours, startOfDay, MS_DAY, MS_HOUR, MS_MINUTE.
  change (24 * 60 * 60 * 1000) with 86400000.
  change (60 * 60 * 1000) with 3600000.
  change (60 * 1000) with 60000.
  Z.div_mod_to_equations. lia.
Qed.

(** X13: With valid work hours whose start hour is not after the end hour,
    moving a time into work hours keeps its calendar day, and moving it a
    second time changes nothing more; a time that [isWithinWorkHours]
    accepts is not moved at all. *)
Theorem adjustToWorkHours_settles (t : Date) (profile : UserProfile) :
  validTimeOfDay (work_hours_start profile) ->
  validTimeOfDay (work_hours_end profile) ->
  tod_hour (work_hours_start profile) <= tod_hour (work_hours_end profile) ->
  let t' := adjustToWorkHours t profile true in
  startOfDay t' = startOfDay t /\
  adjustToWorkHours t' profile true = t' /\
  (isWithinWorkHours t profile = true -> t' = t).
Proof.
  intros Hs He Hle t'. split; [|split].
  - subst t'. unfold adjustToWorkHours. cbn [negb].
    destruct (getHours t <? _); [now apply startOfDay_setHours|].
    destruct (getHours t >? _); [now apply startOfDay_setHours | reflexivity].
  - pose proof (adjustToWorkHours_hour_range t profile Hs He Hle) as Hr.
    fold t' in Hr. unfold adjustToWorkHours at 1. cbn [negb].
    destruct (getHours t' <? _) eqn:E1; [apply Z.ltb_lt in E1; lia|].
    destruct (getHours t' >? _) eqn:E2; [apply Z.gtb_lt in E2; lia | reflexivity].
  - subst t'. unfold isWithinWorkHours, minuteOfDay, todValue, adjustToWorkHours.
    cbn [negb]. intros H. apply andb_true_iff in H. destruct H as [H1 H2].
    apply Z.geb_le in H1. apply Z.leb_le in H2.
    pose proof (getMinutes_range t).
    destruct Hs as [_ [Hs0 _]]. destruct He as [_ [_ He1]].
    destruct (getHours t <? _) eqn:E1; [apply Z.ltb_lt in E1; lia|].
    destruct (getHours t >? _) eqn:E2; [apply Z.gtb_lt in E2; lia | reflexivity].
Qed.

Lemma adjustToWorkHours_settles_witness :
  let t' := adjustToWorkHours (at_time someDay 20 15) officeProfile true in
  startOfDay t' = startOfDay (at_time someDay 20 15) /\
  adjustToWorkHours t' officeProfile true = t'.
Proof.
  destruct (adjustToWorkHours_settles (at_time someDay 20 15) officeProfile)
    as (H1 & H2 & _).
  - split; split; vm_compute; congruence.
  - split; split; vm_compute; congruence.
  - vm_compute. discriminate.
  - split; [exact H1 | exact H2].
Defined.

(** X14: The lead time is one of 10, 15, 20 and 30 minutes, and over positive
    durations it never gets shorter as the duration grows. *)
Theorem getLeadTimeForDuration_monotone (d1 d2 : Z) (od : option Z) :
  (getLeadTimeForDuration od = 10 \/ getLeadTimeForDuration od = 15 \/
   getLeadTimeForDuration od = 20 \/ getLeadTimeForDuration od = 30) /\
  (0 < d1 <= d2 ->
   getLeadTimeForDuration (Some d1) <= getLeadTimeForDuration (Some d2)).
Proof.
  split.
  - unfold getLeadTimeForDuration. destruct od as [d|]; [|auto].
    destruct (d =? 0); [auto|]. destruct (d >=? 120); [auto|].
    destruct (d >=? 60); [auto|]. destruct (d <=? 30); auto.
  - intros H. unfold getLeadTimeForDuration.
    destruct (d1 =? 0) eqn:A0; destruct (d1 >=? 120) eqn:A1;
      destruct (d1 >=? 60) eqn:A2; destruct (d1 <=? 30) eqn:A3;
      destruct (d2 =? 0) eqn:B0; destruct (d2 >=? 120) eqn:B1;
      destruct (d2 >=? 60) eqn:B2; destruct (d2 <=? 30) eqn:B3; lia.
Qed.

Lemma getLeadTimeForDuration_monotone_witness :
  getLeadTimeForDuration (Some 45) <= getLeadTimeForDuration (Some 90).
Proof.
  apply (getLeadTimeForDuration_monotone 45 90 None). lia.
Defined.

(** X15: A due date counts as date-only exactly when it lies in the first
    minute after midnight: seconds and milliseconds are not looked at. *)
Theorem hasSpecificTime_first_minute (dueDate : Date) :
  hasSpecificTime dueDate = false <-> 0 <= dueDate - startOfDay dueDate < MS_MINUTE.
Proof.
  unfold hasSpecificTime, getHours, getMinutes, startOfDay, MS_DAY, MS_HOUR, MS_MINUTE.
  change (24 * 60 * 60 * 1000) with 86400000.
  change (60 * 60 * 1000) with 3600000.
  change (60 * 1000) with 60000.
  rewrite negb_false_iff, andb_true_iff, !Z.eqb_eq.
  split; intros H; Z.div_mod_to_equations; lia.
Qed.

(** X16: Overdue time is rounded up to whole minutes where remaining time is
    rounded down: anything from a millisecond to a minute overdue reads
    "Due 1 minute ago", and in general less than an hour overdue reads as
    the number of minutes begun. *)
Theorem formatTimeRemaining_overdue_rounds_up (targetDate fromDate : Date) :
  let overdue := fromDate - targetDate in
  let begun := - ((targetDate - fromDate) / MS_MINUTE) in
  (0 < overdue <= MS_MINUTE ->
   formatTimeRemaining targetDate fromDate = "Due 1 minute ago") /\
  (0 < overdue <= 59 * MS_MINUTE ->
   (begun - 1) * MS_MINUTE < overdue <= begun * MS_MINUTE /\
   formatTimeRemaining targetDate fromDate
   = "Due " ++ showZ begun ++ " minute" ++ plural begun ++ " ago").
Proof.
  cbv zeta.
  assert (G : 0 < fromDate - targetDate <= 59 * MS_MINUTE ->
              (- ((targetDate - fromDate) / MS_MINUTE) - 1) * MS_MINUTE
                < fromDate - targetDate
                <= - ((targetDate - fromDate) / MS_MINUTE) * MS_MINUTE /\
              formatTimeRemaining targetDate fromDate
              = "Due " ++ showZ (- ((targetDate - fromDate) / MS_MINUTE))
                ++ " minute" ++ plural (- ((targetDate - fromDate) / MS_MINUTE)) ++ " ago").
  { intros H. unfold formatTimeRemaining.
    set (mins := (targetDate - fromDate) / MS_MINUTE).
    assert (Hm : mins * 60000 <= targetDate - fromDate < mins * 60000 + 60000).
    { subst mins. unfold MS_MINUTE. change (60 * 1000) with 60000.
      Z.div_mod_to_equations. lia. }
    unfold MS_MINUTE in *. change (60 * 1000) with 60000 in *.
    split; [lia|].
    assert (Hneg : (mins <? 0) = true) by (apply Z.ltb_lt; lia).
    rewrite Hneg. rewrite Z.abs_neq by lia.
    assert (Hh : - mins / 60 = 0) by (apply Z.div_small; lia).
    rewrite Hh. reflexivity. }
  split; [|exact G].
  intros H. destruct G as [Hb ->]; [unfold MS_MINUTE in *; lia|].
  assert (E : - ((targetDate - fromDate) / MS_MINUTE) = 1)
    by (unfold MS_MINUTE in *; lia).
  rewrite E. reflexivity.
Qed.

Lemma formatTimeRemaining_overdue_rounds_up_witness :
  formatTimeRemaining (at_time someDay 10 0) (at_time someDay 10 0 + 1)
  = "Due 1 minute ago".
Proof.
  apply (formatTimeRemaining_overdue_rounds_up (at_time someDay 10 0)
           (at_time someDay 10 0 + 1)).
  vm_compute. split; [reflexivity | discriminate].
Defined.

(* ================================================================= *)
(** ** Reminders before a timed deadline, and the daily summary *)

Lemma lead_time_range od : 10 <= getLeadTimeForDuration od <= 30.
Proof.
  unfold getLeadTimeForDuration. destruct od as [d|]; [|lia].
  destruct (d =? 0); [lia|]. destruct (d >=? 120); [lia|].
  destruct (d >=? 60); [lia|]. destruct (d <=? 30); lia.
Qed.

(** X17: The reminders of a task that is not a work task and is due, today or
    later, at a time of day all come before that time: at least ten
    minutes and at most 24 hours before it, and later than [now]. *)
Theorem timed_reminders_precede_due
    now later task profile existingOverdueReminders preferences dueDate n :
  due_date task = Some dueDate ->
  isWorkTask task = false ->
  startOfDay now <= startOfDay dueDate ->
  hasSpecificTime dueDate = true ->
  In n (notifications
          (calculateNotificationSchedule now later task profile
             existingOverdueReminders preferences)) ->
  now < time n /\
  dueDate - 24 * MS_HOUR <= time n <= dueDate - 10 * MS_MINUTE.
Proof.
  intros Hd Hw Hno Hsp Hin.
  pose proof (notifications_fromCallSite now later task profile
                existingOverdueReminders preferences dueDate Hd) as F.
  rewrite Forall_forall in F. destruct (F n Hin) as (t & why & k & Hs & Heq).
  rewrite (f_equal time Heq). simpl. rewrite Hw. unfold adjustToWorkHours. cbn [negb].
  clear Heq F Hin.
  pose proof (lead_time_range (estimated_duration task)) as Hl.
  unfold MS_HOUR, MS_MINUTE.
  remember (type n) as ty. remember (n_priority n) as pl.
  destruct Hs; try lia; congruence.
Qed.

Lemma timed_reminders_precede_due_witness :
  scenarioNow < time personalReminder <= at_time someDay 15 0 - 10 * MS_MINUTE.
Proof.
  destruct (timed_reminders_precede_due scenarioNow (frozen scenarioNow) personalTask
              officeProfile 0 DEFAULT_NOTIFICATION_PREFERENCES (at_time someDay 15 0)
              personalReminder)
    as (H1 & _ & H2).
  - reflexivity.
  - reflexivity.
  - vm_compute. discriminate.
  - reflexivity.
  - vm_compute. left. reflexivity.
  - split; assumption.
Defined.

(** X18: A task without a due date, neither completed nor disabled, gets a
    notification only when it is a work task of high priority: then, with
    valid work hours, it gets the one daily summary, tomorrow at the start
    hour of the peak-energy window moved into work hours, unless that lies
    in quiet hours; in every other case it gets nothing. *)
Theorem no_due_date_schedule
    now later task profile existingOverdueReminders preferences :
  status task <> "completed" ->
  ~ In (priority task) (disabledPriorities preferences) ->
  due_date task = None ->
  let s := calculateNotificationSchedule now later task profile
             existingOverdueReminders preferences in
  let t := adjustToWorkHours
             (setHours (addDays now 1)
                (range_start (getPeakEnergyHours (peak_energy_time profile))) 0)
             profile true in
  (priority task <> "high" \/ isWorkTask task = false -> notifications s = []) /\
  (priority task = "high" -> isWorkTask task = true ->
   validTimeOfDay (work_hours_start profile) ->
   validTimeOfDay (work_hours_end profile) ->
   startOfDay t = startOfDay now + MS_DAY /\
   (isInQuietHours t preferences = true -> notifications s = []) /\
   (isInQuietHours t preferences = false ->
    exists n, notifications s = [n] /\ type n = DailySummary /\ time n = t /\
              n_priority n = High)).
Proof.
  intros Hs Hdis Hd s t.
  assert (E : notifications s = noDueDateNotifications now task profile preferences).
  { subst s. unfold calculateNotificationSchedule, emptySchedule. rewrite Hd.
    apply String.eqb_neq in Hs. rewrite Hs.
    destruct (includes _ _) eqn:Hi; [apply includes_In in Hi; contradiction|].
    destruct (priority task =? "low")%string eqn:Hl; [|reflexivity].
    apply String.eqb_eq in Hl. unfold noDueDateNotifications. rewrite Hl. reflexivity. }
  rewrite E. split.
  - intros [Hp | Hw].
    + unfold noDueDateNotifications. apply String.eqb_neq in Hp. rewrite Hp. reflexivity.
    + now apply not_work_no_due_date_empty.
  - intros Hp Hw Hvs Hve.
    assert (Hl : (t >? now) = true).
    { apply Z.gtb_lt. apply tomorrow_is_later; auto.
      pose proof (peak_start_range (peak_energy_time profile)). lia. }
    split.
    + subst t. unfold adjustToWorkHours. cbn [negb]. cbv zeta.
      pose proof (peak_start_range (peak_energy_time profile)) as Hr.
      set (h := range_start (getPeakEnergyHours (peak_energy_time profile))) in *.
      assert (Hbase : startOfDay (setHours (addDays now 1) h 0) = startOfDay now + MS_DAY).
      { unfold setHours, addDays, startOfDay, MS_DAY, MS_HOUR, MS_MINUTE.
        change (24 * 60 * 60 * 1000) with 86400000.
        change (60 * 60 * 1000) with 3600000.
        change (60 * 1000) with 60000.
        Z.div_mod_to_equations. lia. }
      repeat match goal with
             | |- context [if ?b then _ else _] => destruct b
             end;
        try rewrite startOfDay_setHours by assumption; exact Hbase.
    + unfold noDueDateNotifications. rewrite Hp, Hw. simpl (_ =? _)%string.
      cbv iota zeta. fold t. rewrite Hl. split; intros Q; rewrite Q; simpl.
      * reflexivity.
      * eexists. split; [reflexivity|]. repeat split.
Qed.

Lemma no_due_date_schedule_witness :
  exists n,
    notifications
      (calculateNotificationSchedule scenarioNow (frozen scenarioNow)
         (sampleTask "high" None None (Some "work")) officeProfile 0
         DEFAULT_NOTIFICATION_PREFERENCES) = [n] /\
    type n = DailySummary /\ time n = at_time (someDay + 1) 9 0 /\ n_priority n = High.
Proof.
  destruct (no_due_date_schedule scenarioNow (frozen scenarioNow)
              (sampleTask "high" None None (Some "work")) officeProfile 0
              DEFAULT_NOTIFICATION_PREFERENCES) as [_ H].
  - discriminate.
  - simpl. tauto.
  - reflexivity.
  - destruct H as (_ & _ & H).
    + reflexivity.
    + reflexivity.
    + split; split; vm_compute; congruence.
    + split; split; vm_compute; congruence.
    + apply H. reflexivity.
Defined.

Lemma hasSpecificTime_first_minute_witness :
  hasSpecificTime (at_time someDay 0 0 + 30 * 1000) = false.
Proof.
  apply (hasSpecificTime_first_minute (at_time someDay 0 0 + 30 * 1000)).
  vm_compute. split; [discriminate | reflexivity].
Defined.

(* ================================================================= *)
(** ** The dispatch loop of the scheduler hook *)

Section DispatchLoop.

Variable zoneOffset : Z.

Let step (state : SchedulerRefs * list SubmittedNotification)
    (visit : string * ScheduledNotificationTime) :=
  dispatchStep zoneOffset (fst visit) state (snd visit).

Let keyOf (visit : string * ScheduledNotificationTime) : string :=
  notificationKey zoneOffset (fst visit) (snd visit).

Lemma dispatchSchedules_visited schedules refs :
  dispatchSchedules zoneOffset schedules refs
  = fold_left step (visited schedules) (refs, []).
Proof.
  unfold dispatchSchedules, visited. generalize (refs, @nil SubmittedNotification).
  induction schedules as [|s ss IH]; intros st; simpl; [reflexivity|].
  rewrite fold_left_app, IH. f_equal.
  generalize (notifications s). intros l. revert st.
  induction l as [|n l IHl]; intros st; simpl; [reflexivity|]. apply IHl.
Qed.

Lemma hasKey_In keys key : hasKey keys key = true <-> In key keys.
Proof.
  unfold hasKey. rewrite existsb_exists. split.
  - intros (x & Hx & E). apply String.eqb_eq in E. now subst.
  - intros H. exists key. split; [exact H | apply String.eqb_refl].
Qed.

Lemma countFor_setCount counts taskId value key :
  countFor (setCount counts taskId value) key
  = if (key =? taskId)%string then value else countFor counts key.
Proof. unfold countFor, setCount. destruct (key =? taskId)%string; reflexivity. Qed.

(** One step: nothing happens for a key already recorded; otherwise the
    key is recorded, one notification is submitted under that key, and the
    count of the task goes up by one if it is an overdue reminder. *)
Lemma step_cases state visit :
  (In (keyOf visit) (scheduledKeys (fst state)) /\ step state visit = state) \/
  (~ In (keyOf visit) (scheduledKeys (fst state)) /\
   exists sub,
     submittedKey zoneOffset sub = keyOf visit /\
     sub_data_taskId sub = fst visit /\ sub_type sub = type (snd visit) /\
     sub_scheduleAt sub = time (snd visit) /\
     scheduledKeys (fst (step state visit))
       = (scheduledKeys (fst state) ++ [keyOf visit])%list /\
     snd (step state visit) = (snd state ++ [sub])%list /\
     forall taskId,
       countFor (overdueReminderCounts (fst (step state visit))) taskId
       = countFor (overdueReminderCounts (fst state)) taskId
         + (if isOverdueReminderOf taskId sub then 1 else 0)).
Proof.
  unfold step, dispatchStep. fold (keyOf visit). cbv zeta.
  destruct (hasKey _ _) eqn:E.
  - left. split; [now apply hasKey_In | reflexivity].
  - right. split; [intros H; apply hasKey_In in H; congruence|].
    exists {| sub_title := c_title (content (snd visit));
              sub_body := c_body (content (snd visit));
              sub_scheduleAt := time (snd visit);
              sub_type := type (snd visit);
              sub_data_type := "task-reminder";
              sub_data_taskId := fst visit;
              sub_data_notificationType := type (snd visit);
              sub_data_urgencyLevel := urgencyLevel (content (snd visit)) |}.
    do 6 (split; [reflexivity|]).
    intros taskId. cbn [fst overdueReminderCounts]. unfold isOverdueReminderOf.
    cbn [sub_data_taskId sub_type].
    destruct (type (snd visit)); cbn [NotificationType_eqb];
      rewrite ?andb_false_r, ?andb_true_r, ?Z.add_0_r; try reflexivity.
    rewrite countFor_setCount. rewrite String.eqb_sym.
    destruct (fst visit =? taskId)%string eqn:Ek; [|lia].
    apply String.eqb_eq in Ek. now subst.
Qed.

(** The loop over any list of visits. *)
Lemma loop_bookkeeping visits : forall state,
  let final := fold_left step visits state in
  exists new,
    snd final = (snd state ++ new)%list /\
    scheduledKeys (fst final)
      = (scheduledKeys (fst state) ++ map (submittedKey zoneOffset) new)%list /\
    (NoDup (scheduledKeys (fst state)) -> NoDup (scheduledKeys (fst final))) /\
    (forall visit, In visit visits -> In (keyOf visit) (scheduledKeys (fst final))) /\
    (forall sub, In sub new ->
       exists visit, In visit visits /\
         sub_data_taskId sub = fst visit /\ sub_type sub = type (snd visit) /\
         sub_scheduleAt sub = time (snd visit)) /\
    (forall taskId,
       countFor (overdueReminderCounts (fst final)) taskId
       = countFor (overdueReminderCounts (fst state)) taskId
         + Z.of_nat (List.length (filter (isOverdueReminderOf taskId) new))).
Proof.
  induction visits as [|v vs IH]; intros state; cbv zeta; simpl.
  - exists []. rewrite !app_nil_r. simpl. repeat split; auto; try contradiction; lia.
  - destruct (IH (step state v)) as (new & H1 & H2 & H3 & H4 & H5 & H6).
    destruct (step_cases state v) as [[Hin E] | (Hnin & sub & Ek & Ei & Ety & Et & Hk & Ho & Hc)].
    + rewrite E in *. exists new. repeat split; auto.
      * intros visit [<- | Hv]; [|now apply H4].
        rewrite H2. apply in_or_app. now left.
      * intros s0 Hs0. destruct (H5 s0 Hs0) as (visit & Hv & R). exists visit.
        split; [now right | exact R].
    + exists (sub :: new).
      split; [rewrite H1, Ho, <- app_assoc; reflexivity|].
      split; [rewrite H2, Hk, <- app_assoc; simpl; rewrite Ek; reflexivity|].
      split; [|split; [|split]].
      * intros Hnd. apply H3. rewrite Hk.
        clear - Hnd Hnin.
        induction (scheduledKeys (fst state)) as [|k ks IHk]; simpl.
        -- constructor; [intros [] | constructor].
        -- inversion Hnd; subst. constructor.
           ++ intros Hx. apply in_app_or in Hx. destruct Hx as [Hx | [Hx | []]];
                [contradiction|]. apply Hnin. left. now symmetry.
           ++ apply IHk; auto. intros Hx. apply Hnin. now right.
      * intros visit [<- | Hv]; [|now apply H4].
        rewrite H2, Hk. apply in_or_app. left. apply in_or_app. right. now left.
      * intros s0 [<- | Hs0].
        -- exists v. split; [now left | auto].
        -- destruct (H5 s0 Hs0) as (visit & Hv & R). exists visit.
           split; [now right | exact R].
      * intros taskId. rewrite H6, Hc. simpl filter.
        destruct (isOverdueReminderOf taskId sub); simpl List.length; lia.
Qed.

End DispatchLoop.

(** X19: The bookkeeping of the dispatch loop.  The notifications it submits
    come from the schedules, each with its task id, type and time; the keys
    it records are the old keys followed by the keys of what it submits, and
    stay free of duplicates; afterwards the key of every notification of the
    schedules is recorded; and the overdue count of each task has grown by
    the number of overdue reminders submitted for it. *)
Theorem dispatch_bookkeeping zoneOffset schedules refs :
  let refs' := fst (dispatchSchedules zoneOffset schedules refs) in
  let submitted := snd (dispatchSchedules zoneOffset schedules refs) in
  scheduledKeys refs'
    = (scheduledKeys refs ++ map (submittedKey zoneOffset) submitted)%list /\
  (NoDup (scheduledKeys refs) -> NoDup (scheduledKeys refs')) /\
  (forall schedule n, In schedule schedules -> In n (notifications schedule) ->
     In (notificationKey zoneOffset (taskId schedule) n) (scheduledKeys refs')) /\
  (forall sub, In sub submitted ->
     exists schedule n,
       In schedule schedules /\ In n (notifications schedule) /\
       sub_data_taskId sub = taskId schedule /\ sub_type sub = type n /\
       sub_scheduleAt sub = time n) /\
  (forall taskId,
     countFor (overdueReminderCounts refs') taskId
     = countFor (overdueReminderCounts refs) taskId
       + Z.of_nat (List.length (filter (isOverdueReminderOf taskId) submitted))).
Proof.
  cbv zeta. rewrite dispatchSchedules_visited.
  destruct (loop_bookkeeping zoneOffset (visited schedules) (refs, []))
    as (new & H1 & H2 & H3 & H4 & H5 & H6).
  simpl in H1, H2, H3, H5, H6. rewrite H1.
  split; [exact H2|]. split; [exact H3|]. split; [|split; [|exact H6]].
  - intros schedule n Hs Hn.
    apply (H4 (taskId schedule, n)).
    unfold visited. apply in_flat_map. exists schedule. split; [exact Hs|].
    now apply in_map.
  - intros sub Hsub. destruct (H5 sub Hsub) as ([tid n] & Hv & E1 & E2 & E3).
    unfold visited in Hv. apply in_flat_map in Hv. destruct Hv as (schedule & Hs & Hv).
    apply in_map_iff in Hv. destruct Hv as (n' & E & Hn). injection E as <- <-.
    exists schedule, n'. auto.
Qed.

(** X20: Running the loop again on the same schedules submits nothing more and
    leaves the refs as they are: what was submitted once is not submitted
    twice. *)
Theorem dispatch_again_submits_nothing zoneOffset schedules refs :
  let refs' := fst (dispatchSchedules zoneOffset schedules refs) in
  dispatchSchedules zoneOffset schedules refs' = (refs', []).
Proof.
  cbv zeta. rewrite !dispatchSchedules_visited.
  destruct (loop_bookkeeping zoneOffset (visited schedules) (refs, []))
    as (new & _ & _ & _ & H4 & _).
  simpl in H4.
  set (refs' := fst (fold_left _ (visited schedules) (refs, []))) in *.
  assert (G : forall visits (out : list SubmittedNotification),
             (forall visit, In visit visits ->
                In (notificationKey zoneOffset (fst visit) (snd visit))
                  (scheduledKeys refs')) ->
             fold_left
               (fun state visit => dispatchStep zoneOffset (fst visit) state (snd visit))
               visits (refs', out) = (refs', out)).
  { induction visits as [|v vs IH]; intros out Hall; simpl; [reflexivity|].
    unfold dispatchStep at 2. cbv zeta. cbn [fst snd].
    assert (Hk : hasKey (scheduledKeys refs')
                   (notificationKey zoneOffset (fst v) (snd v)) = true).
    { apply hasKey_In. apply Hall. now left. }
    rewrite Hk. apply IH. intros visit Hv. apply Hall. now right. }
  apply G. exact H4.
Qed.

Lemma dispatch_bookkeeping_witness :
  let refs' := fst (dispatchSchedules 0 [scenarioSchedule] freshRefs) in
  List.length (scheduledKeys refs') = 2%nat /\
  countFor (overdueReminderCounts refs') "task-1" = 0.
Proof.
  destruct (dispatch_bookkeeping 0 [scenarioSchedule] freshRefs)
    as (Hk & _ & _ & _ & Hc).
  split.
  - rewrite Hk. vm_compute. reflexivity.
  - rewrite Hc. vm_compute. reflexivity.
Defined.

(* ================================================================= *)
(** ** The overdue alert of the scheduler hook *)

Lemma filter_nil_iff {A : Type} (f : A -> bool) (l : list A) :
  filter f l = [] <-> forall x, In x l -> f x = false.
Proof.
  induction l as [|a l IH]; simpl.
  - split; [intros _ x [] | reflexivity].
  - destruct (f a) eqn:E.
    + split; [discriminate|]. intros H. rewrite (H a) in E by now left. discriminate.
    + rewrite IH. split.
      * intros H x [<- | Hx]; auto.
      * intros H x Hx. apply H. now right.
Qed.

(** X21: The overdue alert is submitted exactly when the hook is enabled, has
    permission and some task is overdue (not completed, due before today);
    it is then set for the next 09:00 sharp, later than [now] and at most a
    day ahead. *)
Theorem overdue_alert_raised (enabled hasPermission : bool) now tasks :
  (overdueAlert enabled hasPermission now tasks = None <->
   enabled = false \/ hasPermission = false \/
   forall task, In task tasks -> isOverdueTask now task = false) /\
  (forall alert, overdueAlert enabled hasPermission now tasks = Some alert ->
   now < alert_scheduleAt alert <= now + MS_DAY /\
   getHours (alert_scheduleAt alert) = 9 /\ getMinutes (alert_scheduleAt alert) = 0).
Proof.
  unfold overdueAlert. split.
  - destruct enabled, hasPermission; simpl; try (split; auto; fail).
    destruct (filter (isOverdueTask now) tasks) as [|t ts] eqn:F; simpl.
    + split; auto. intros _. right. right. now apply filter_nil_iff.
    + split; [discriminate|]. intros [H | [H | H]]; try discriminate.
      apply filter_nil_iff in H. congruence.
  - intros alert.
    destruct (negb enabled || negb hasPermission); [discriminate|].
    destruct (List.length _ =? 0)%nat; [discriminate|].
    cbv zeta. intros E. injection E as <-. cbn [alert_scheduleAt].
    apply next_nine_oclock.
Qed.

Lemma overdue_alert_raised_witness :
  exists alert,
    overdueAlert true true scenarioNow [overdueTask] = Some alert /\
    scenarioNow < alert_scheduleAt alert <= scenarioNow + MS_DAY.
Proof.
  destruct (overdue_alert_raised true true scenarioNow [overdueTask]) as [_ H].
  assert (E : exists alert, overdueAlert true true scenarioNow [overdueTask] = Some alert)
    by (eexists; reflexivity).
  destruct E as [alert E]. exists alert. split; [exact E|].
  apply (H alert E).
Defined.

Lemma overdue_notification_task
    now later task profile existingOverdueReminders preferences n :
  In n (notifications
          (calculateNotificationSchedule now later task profile
             existingOverdueReminders preferences)) ->
  type n = Overdue ->
  isOverdueTask now task = true.
Proof.
  intros Hin Hty.
  assert (Hne : notifications
                  (calculateNotificationSchedule now later task profile
                     existingOverdueReminders preferences) <> [])
    by (intros E; rewrite E in Hin; destruct Hin).
  destruct (nonempty_schedule_task _ _ _ _ _ _ Hne) as (Hs & _ & _).
  unfold isOverdueTask. apply String.eqb_neq in Hs. rewrite Hs.
  destruct (due_date task) as [due|] eqn:Hd.
  - pose proof (notifications_fromCallSite now later task profile
                  existingOverdueReminders preferences due Hd) as F.
    rewrite Forall_forall in F. destruct (F n Hin) as (t & why & k & Hsite & _).
    rewrite Hty in Hsite. remember (n_priority n) as pl. clear Heqpl.
    apply Z.ltb_lt. inversion Hsite; assumption.
  - apply notifications_no_due_date in Hin; [|exact Hd].
    apply noDueDateNotifications_entry in Hin. destruct Hin as (_ & _ & ->).
    discriminate.
Qed.

(** X22: The hook and the calculator agree on what is overdue: whenever the
    calculator, at the same [now], schedules an overdue reminder for one
    of the tasks, the enabled hook with permission raises its overdue
    alert. *)
Theorem overdue_alert_covers_reminders
    now later tasks task profile existingOverdueReminders preferences n :
  In task tasks ->
  In n (notifications
          (calculateNotificationSchedule now later task profile
             existingOverdueReminders preferences)) ->
  type n = Overdue ->
  isOverdueTask now task = true /\
  exists alert, overdueAlert true true now tasks = Some alert.
Proof.
  intros Ht Hin Hty.
  pose proof (overdue_notification_task _ _ _ _ _ _ _ Hin Hty) as Hov.
  split; [exact Hov|].
  unfold overdueAlert. simpl.
  destruct (filter (isOverdueTask now) tasks) as [|t ts] eqn:F.
  - exfalso. assert (Hf : In task (filter (isOverdueTask now) tasks))
      by (apply filter_In; auto).
    rewrite F in Hf. destruct Hf.
  - simpl. eexists. reflexivity.
Qed.

Lemma overdue_alert_covers_reminders_witness :
  exists alert, overdueAlert true true scenarioNow [scenarioTask; overdueTask] = Some alert.
Proof.
  apply (overdue_alert_covers_reminders scenarioNow (frozen scenarioNow)
           [scenarioTask; overdueTask] overdueTask officeProfile 1
           DEFAULT_NOTIFICATION_PREFERENCES overdueReminder).
  - right. left. reflexivity.
  - vm_compute. left. reflexivity.
  - reflexivity.
Defined.
